(** * Lead form, CRM pipeline and settings hydration of the landing page

    A shallow embedding of the decision logic of the landing page scripts
    ([scripts/form-validation.js], the Bitrix24 integration module and
    [scripts/blocks-manager.js]) together with the properties stated for
    them.  JavaScript strings are sequences of UTF-16 code units, JSON
    documents are an inductive type, and the asynchronous functions are
    written in a state-and-exception monad over an explicit browser
    environment. *)

From Stdlib Require Import ZArith List Bool Lia.
From Stdlib Require String Ascii DecimalString.
Import String.StringSyntax.
From Stdlib Require Import Floats.SpecFloat.
Import ListNotations.

Set Implicit Arguments.

Open Scope string_scope.

(** ** JavaScript strings *)

Module JsString.

(** A JavaScript string is a finite sequence of UTF-16 code units. *)
Definition code_unit := Z.
Definition jsstring := list code_unit.

(** Source literals are written as Rocq strings (UTF-8 bytes) and
    transcoded to UTF-16, the way the JavaScript parser reads them. *)
Fixpoint utf16_of_utf8 (bs : list Z) : jsstring :=
  match bs with
  | [] => []
  | b0 :: r0 =>
    if (b0 <? 128)%Z then b0 :: utf16_of_utf8 r0
    else
      match r0 with
      | [] => []
      | b1 :: r1 =>
        if (b0 <? 224)%Z then
          ((b0 - 192) * 64 + (b1 - 128))%Z :: utf16_of_utf8 r1
        else
          match r1 with
          | [] => []
          | b2 :: r2 =>
            if (b0 <? 240)%Z then
              ((b0 - 224) * 4096 + (b1 - 128) * 64 + (b2 - 128))%Z
                :: utf16_of_utf8 r2
            else
              match r2 with
              | [] => []
              | b3 :: r3 =>
                let cp := ((b0 - 240) * 262144 + (b1 - 128) * 4096
                           + (b2 - 128) * 64 + (b3 - 128))%Z in
                let v := (cp - 65536)%Z in
                (55296 + v / 1024)%Z :: (56320 + v mod 1024)%Z
                  :: utf16_of_utf8 r3
              end
          end
      end
  end.

Definition js (s : String.string) : jsstring :=
  utf16_of_utf8
    (map (fun a => Z.of_N (Ascii.N_of_ascii a))
         (String.list_ascii_of_string s)).

Arguments js : simpl never.

Definition unit_eqb (a b : code_unit) : bool := Z.eqb a b.

Fixpoint str_eqb (s t : jsstring) : bool :=
  match s, t with
  | [], [] => true
  | a :: s', b :: t' => unit_eqb a b && str_eqb s' t'
  | _, _ => false
  end.

(** [s[i] === lit]: indexing yields a one-unit string, or [undefined]
    (never equal to a string) past the end. *)
Definition index_is (s : jsstring) (i : nat) (lit : jsstring) : bool :=
  match nth_error s i with
  | Some c => str_eqb [c] lit
  | None => false
  end.

(** [String.prototype.substring(start, end)]: both indices are clamped
    to the length and swapped when out of order. *)
Definition substring (s : jsstring) (start stop : nat) : jsstring :=
  let a := Nat.min start (length s) in
  let b := Nat.min stop (length s) in
  let lo := Nat.min a b in
  let hi := Nat.max a b in
  firstn (hi - lo) (skipn lo s).

(** [substring(start)] with the end omitted. *)
Definition substring_from (s : jsstring) (start : nat) : jsstring :=
  substring s start (length s).

(** The class [\d] of a regular expression without the [u] flag. *)
Definition is_digit (c : code_unit) : bool :=
  ((48 <=? c) && (c <=? 57))%Z.

(** [s.replace(/\D/g, '')]. *)
Definition remove_non_digits (s : jsstring) : jsstring :=
  filter is_digit s.

End JsString.

Import JsString.

(** ** Phone mask ([scripts/form-validation.js]) *)

Module PhoneMask.

(** [formatPhoneNumber(value)], statement by statement. *)
Definition formatPhoneNumber (value : jsstring) : jsstring :=
  let digits := remove_non_digits value in
  let digits :=
    if 0 <? length digits then
      if index_is digits 0 (js "8") then js "7" ++ substring_from digits 1
      else if negb (index_is digits 0 (js "7")) then js "7" ++ digits
      else digits
    else digits in
  let digits := substring digits 0 11 in
  let formatted := js "" in
  let formatted :=
    if 1 <=? length digits then js "+7" else formatted in
  let formatted :=
    if 2 <=? length digits
    then formatted ++ js " (" ++ substring digits 1 (Nat.min 4 (length digits))
    else formatted in
  let formatted :=
    if 5 <=? length digits
    then formatted ++ js ") " ++ substring digits 4 (Nat.min 7 (length digits))
    else formatted in
  let formatted :=
    if 8 <=? length digits
    then formatted ++ js "-" ++ substring digits 7 (Nat.min 9 (length digits))
    else formatted in
  let formatted :=
    if 10 <=? length digits
    then formatted ++ js "-" ++ substring digits 9 11
    else formatted in
  formatted.

(** *** The mask as the specification words it

    A leading [8] becomes [7], any other leading digit but [7] gets a
    [7] in front, eleven digits are kept, and each punctuation group
    appears once the digit count reaches its threshold. *)

Definition normalize_lead (d : jsstring) : jsstring :=
  match d with
  | [] => []
  | c :: rest =>
    if unit_eqb c 56%Z then 55%Z :: rest
    else if unit_eqb c 55%Z then d
    else 55%Z :: d
  end.

Definition significant_digits (d : jsstring) : jsstring :=
  firstn 11 (normalize_lead d).

(** Digits at the 1-based positions [i..j], as far as they are present. *)
Definition positions (d : jsstring) (i j : nat) : jsstring :=
  firstn (S j - i) (skipn (i - 1) d).

Definition once (n : nat) (d : jsstring) (piece : jsstring) : jsstring :=
  if n <=? length d then piece else [].

Definition progressive_mask (d : jsstring) : jsstring :=
  let n := significant_digits d in
  once 1 n (js "+7")
  ++ once 2 n (js " (" ++ positions n 2 4)
  ++ once 5 n (js ") " ++ positions n 5 7)
  ++ once 8 n (js "-" ++ positions n 8 9)
  ++ once 10 n (js "-" ++ positions n 10 11).

(** The inputs the mask is specified for. *)
Definition all_digits (d : jsstring) : Prop :=
  Forall (fun c => is_digit c = true) d.

End PhoneMask.

(** ** Regular expressions of the validation rules *)

Module Regex.

(** One member of a bracketed character class. *)
Inductive class_item : Type :=
| Single (c : code_unit)
| Range (lo hi : code_unit)
| Space                      (* \s *)
| Digit.                     (* \d *)

(** [\s]: the WhiteSpace and LineTerminator code points. *)
Definition is_space (c : code_unit) : bool :=
  ((9 <=? c) && (c <=? 13) || (c =? 32) || (c =? 160) || (c =? 5760)
   || (8192 <=? c) && (c <=? 8202) || (c =? 8232) || (c =? 8233)
   || (c =? 8239) || (c =? 8287) || (c =? 12288) || (c =? 65279))%Z.

Definition item_has (i : class_item) (c : code_unit) : bool :=
  match i with
  | Single k => unit_eqb c k
  | Range lo hi => ((lo <=? c) && (c <=? hi))%Z
  | Space => is_space c
  | Digit => is_digit c
  end.

Definition class_has (cl : list class_item) (c : code_unit) : bool :=
  existsb (fun i => item_has i c) cl.

Inductive regex : Type :=
| Fail
| Eps
| Class (cl : list class_item)
| Seq (r s : regex)
| Alt (r s : regex)
| Star (r : regex).

(** [r+] and [r{n}]. *)
Definition Plus (r : regex) : regex := Seq r (Star r).

Fixpoint Times (n : nat) (r : regex) : regex :=
  match n with
  | O => Eps
  | S n' => Seq r (Times n' r)
  end.

Definition Lit (c : code_unit) : regex := Class [Single c].

Fixpoint nullable (r : regex) : bool :=
  match r with
  | Fail => false
  | Eps => true
  | Class _ => false
  | Seq r s => nullable r && nullable s
  | Alt r s => nullable r || nullable s
  | Star _ => true
  end.

Fixpoint deriv (c : code_unit) (r : regex) : regex :=
  match r with
  | Fail => Fail
  | Eps => Fail
  | Class cl => if class_has cl c then Eps else Fail
  | Seq r s =>
    if nullable r then Alt (Seq (deriv c r) s) (deriv c s)
    else Seq (deriv c r) s
  | Alt r s => Alt (deriv c r) (deriv c s)
  | Star r => Seq (deriv c r) (Star r)
  end.

(** [/^r$/.test(s)]: without the [m] flag the anchors are the two ends
    of the input, so the whole string has to match. *)
Fixpoint test (r : regex) (s : jsstring) : bool :=
  match s with
  | [] => nullable r
  | c :: s' => test (deriv c r) s'
  end.

(** First code unit of a literal, for writing classes as in the source. *)
Definition u (s : String.string) : code_unit := hd 0%Z (js s).

End Regex.

(** ** Field validation ([scripts/form-validation.js]) *)

Module Validation.

Import Regex.

(** An entry of [ValidationRules]; an absent key is [None]. *)
Record rule : Type := {
  minLength : option Z;
  pattern : option regex;
  required : option bool;
  message : jsstring
}.

(** [/^[а-яА-ЯёЁa-zA-Z\s-]+$/] *)
Definition name_class : list class_item :=
  [ Range (u "а") (u "я"); Range (u "А") (u "Я"); Single (u "ё");
    Single (u "Ё"); Range (u "a") (u "z"); Range (u "A") (u "Z");
    Space; Single (u "-") ].

Definition name_pattern : regex := Plus (Class name_class).

(** [/^\+7 \(\d{3}\) \d{3}-\d{2}-\d{2}$/] *)
Definition phone_pattern : regex :=
  Seq (Lit (u "+")) (Seq (Lit (u "7")) (Seq (Lit (u " "))
  (Seq (Lit (u "(")) (Seq (Times 3 (Class [Digit])) (Seq (Lit (u ")"))
  (Seq (Lit (u " ")) (Seq (Times 3 (Class [Digit])) (Seq (Lit (u "-"))
  (Seq (Times 2 (Class [Digit])) (Seq (Lit (u "-"))
  (Times 2 (Class [Digit])))))))))))).

Definition name_rule : rule :=
  {| minLength := Some 2%Z;
     pattern := Some name_pattern;
     required := None;
     message :=
       js "Имя должно содержать минимум 2 символа и только буквы" |}.

Definition phone_rule : rule :=
  {| minLength := None;
     pattern := Some phone_pattern;
     required := None;
     message :=
       js "Введите полный номер телефона в формате +7 (999) 123-45-67" |}.

Definition program_rule : rule :=
  {| minLength := None;
     pattern := None;
     required := Some true;
     message := js "Выберите программу" |}.

(** [ValidationRules[fieldName]].  Any other key yields no rule
    (or an inherited member of [Object.prototype], which carries none of
    [required], [minLength] and [pattern] and so validates as well). *)
Definition ValidationRules (fieldName : jsstring) : option rule :=
  if str_eqb fieldName (js "name") then Some name_rule
  else if str_eqb fieldName (js "phone") then Some phone_rule
  else if str_eqb fieldName (js "program") then Some program_rule
  else None.

(** The object [{ valid, message }] returned by [validateField]. *)
Record validation : Type := {
  valid : bool;
  error_message : option jsstring
}.

Definition ok : validation := {| valid := true; error_message := None |}.
Definition invalid (m : jsstring) : validation :=
  {| valid := false; error_message := Some m |}.

(** Truthiness of the optional rule members and of a string. *)
Definition truthy_bool (b : option bool) : bool :=
  match b with Some true => true | _ => false end.
Definition truthy_str (s : jsstring) : bool :=
  match s with [] => false | _ => true end.

(** [validateField(fieldName, value)] for a string [value]. *)
Definition validateField (fieldName value : jsstring) : validation :=
  match ValidationRules fieldName with
  | None => ok
  | Some rules =>
    if truthy_bool (required rules) && negb (truthy_str value)
    then invalid (message rules)
    else if match minLength rules with
            | Some m => negb (m =? 0)%Z && (Z.of_nat (length value) <? m)%Z
            | None => false
            end
    then invalid (message rules)
    else if match pattern rules with
            | Some p => negb (test p value)
            | None => false
            end
    then invalid (message rules)
    else ok
  end.

(** The fields read from the form on submit. *)
Record FormData : Type := {
  name : jsstring;
  phone : jsstring;
  program : jsstring;
  childrenCount : jsstring;
  comment : jsstring
}.

(** The [errors] object of [validateForm]: one optional message per
    validated field. *)
Record form_errors : Type := {
  err_name : option jsstring;
  err_phone : option jsstring;
  err_program : option jsstring
}.

Definition error_of (v : validation) : option jsstring :=
  if valid v then None else error_message v.

Definition validateForm (formData : FormData) : form_errors :=
  {| err_name := error_of (validateField (js "name") (name formData));
     err_phone := error_of (validateField (js "phone") (phone formData));
     err_program :=
       error_of (validateField (js "program") (program formData)) |}.

(** [Object.keys(errors).length]. *)
Definition error_count (e : form_errors) : nat :=
  length (filter (fun o : option jsstring =>
                    match o with Some _ => true | None => false end)
                 [err_name e; err_phone e; err_program e]).

(** *** The name rule as the specification words it:
    [[a-zA-ZЀ-ӿ\s-]+] with length at least 2. *)
Definition spec_name_class : list class_item :=
  [ Range (u "a") (u "z"); Range (u "A") (u "Z");
    Range 1024%Z 1279%Z; Space; Single (u "-") ].

Definition spec_name_valid (v : jsstring) : bool :=
  negb (Nat.eqb (length v) 0) && (2 <=? length v)
  && forallb (class_has spec_name_class) v.

End Validation.

(** ** JSON documents *)

Module Json.

(** A value produced by [JSON.parse]: numbers are IEEE doubles, the
    members of an object are listed in property enumeration order. *)
#[local] Unset Elimination Schemes.
Inductive json : Type :=
| JNull
| JBool (b : bool)
| JNumber (x : spec_float)
| JString (s : jsstring)
| JArray (items : list json)
| JObject (members : list (jsstring * json)).
#[local] Set Elimination Schemes.

(** A value read out of a document: [None] is [undefined]. *)
Definition jsval := option json.

(** [ToBoolean]. *)
Definition truthy (v : jsval) : bool :=
  match v with
  | None => false
  | Some JNull => false
  | Some (JBool b) => b
  | Some (JNumber (S754_zero _)) => false
  | Some (JNumber S754_nan) => false
  | Some (JNumber _) => true
  | Some (JString s) => match s with [] => false | _ => true end
  | Some (JArray _) => true
  | Some (JObject _) => true
  end.

Inductive js_type : Type :=
| TUndefined | TObject | TBoolean | TNumber | TString.

(** [typeof v]; [typeof null] is ['object']. *)
Definition typeof (v : jsval) : js_type :=
  match v with
  | None => TUndefined
  | Some JNull => TObject
  | Some (JBool _) => TBoolean
  | Some (JNumber _) => TNumber
  | Some (JString _) => TString
  | Some (JArray _) => TObject
  | Some (JObject _) => TObject
  end.

Definition js_type_eqb (a b : js_type) : bool :=
  match a, b with
  | TUndefined, TUndefined | TObject, TObject | TBoolean, TBoolean
  | TNumber, TNumber | TString, TString => true
  | _, _ => false
  end.

(** Own property of a parsed object. *)
Fixpoint lookup (k : jsstring) (ms : list (jsstring * json)) : jsval :=
  match ms with
  | [] => None
  | (k', v) :: rest => if str_eqb k' k then Some v else lookup k rest
  end.

(** Decimal text of an array index. *)
Definition index_key (i : nat) : jsstring :=
  js (DecimalString.NilZero.string_of_uint (Nat.to_uint i)).

Fixpoint indexed (i : nat) (items : list json) : list (jsstring * json) :=
  match items with
  | [] => []
  | v :: rest => (index_key i, v) :: indexed (S i) rest
  end.

End Json.

(** ** Exceptions and the state-and-exception monad *)

Module Effects.

Import Json.

(** The message an [Error] is built with, kept symbolic where it is the
    string conversion of a JSON value. *)
Inductive message_text : Type :=
| Text (s : jsstring)
| HttpStatus (status : Z) (statusText : jsstring)
| ApiDetail (detail : jsval)
| ValueText (v : jsval).

Inductive exn : Type :=
| Error (message : message_text)   (* throw new Error(message) *)
| TypeError                        (* member read on null or undefined *)
| URIError                         (* encodeURIComponent on malformed UTF-16 *)
| Rejected (reason : jsstring).    (* promise rejected by the environment *)

Inductive outcome (A : Type) : Type :=
| Ret (a : A)
| Throw (e : exn).
Arguments Throw {A} e.

(** A computation over the world [W]: its effects stay when it throws. *)
Definition M (W A : Type) : Type := W -> W * outcome A.

Definition ret {W A} (a : A) : M W A := fun w => (w, Ret a).

Definition throw {W A} (e : exn) : M W A := fun w => (w, Throw e).

Definition bind {W A B} (c : M W A) (k : A -> M W B) : M W B :=
  fun w =>
    match c w with
    | (w', Ret a) => k a w'
    | (w', Throw e) => (w', Throw e)
    end.

(** [try { c } catch (e) { h e }] *)
Definition try_catch {W A} (c : M W A) (h : exn -> M W A) : M W A :=
  fun w =>
    match c w with
    | (w', Ret a) => (w', Ret a)
    | (w', Throw e) => h e w'
    end.

(** Lifts a pure result that may be an exception. *)
Definition lift {W A} (o : outcome A) : M W A := fun w => (w, o).

(** A state update that cannot fail. *)
Definition update {W} (f : W -> W) : M W unit := fun w => (f w, Ret tt).

Definition read {W A} (f : W -> A) : M W A := fun w => (w, Ret (f w)).

(** [v.k] for a member name [k] that no prototype defines (every name
    the scripts read from a document is of this kind): a parsed object
    yields its own member or [undefined], any other value but [null]
    and [undefined] yields [undefined]. *)
Definition member (v : jsval) (k : jsstring) : outcome jsval :=
  match v with
  | None => Throw TypeError
  | Some JNull => Throw TypeError
  | Some (JObject ms) => Ret (lookup k ms)
  | Some _ => Ret None
  end.

(** [Object.entries(v)] *)
Definition entries (v : jsval) : outcome (list (jsstring * json)) :=
  match v with
  | None => Throw TypeError
  | Some JNull => Throw TypeError
  | Some (JObject ms) => Ret ms
  | Some (JArray items) => Ret (indexed 0 items)
  | Some (JString s) => Ret (indexed 0 (map (fun c => JString [c]) s))
  | Some _ => Ret []
  end.

(** [Object.keys(v)] *)
Definition keys (v : jsval) : outcome (list jsstring) :=
  match entries v with
  | Ret es => Ret (map fst es)
  | Throw e => Throw e
  end.

End Effects.

Declare Scope monad_scope.
Delimit Scope monad_scope with monad.
Notation "x <- c1 ;; c2" := (Effects.bind c1 (fun x => c2))
  (at level 61, c1 at next level, right associativity) : monad_scope.
Notation "c1 ;; c2" := (Effects.bind c1 (fun _ => c2))
  (at level 61, right associativity) : monad_scope.

(** ** The page: CRM integration and lead form *)

Module Page.

Import Json Effects Validation.
Local Open Scope monad_scope.

Definition nl : jsstring := [10%Z].

(** *** Text helpers *)

Fixpoint starts_with (p s : jsstring) : bool :=
  match p, s with
  | [], _ => true
  | a :: p', b :: s' => unit_eqb a b && starts_with p' s'
  | _ :: _, [] => false
  end.

(** [s.indexOf(p) > -1] *)
Fixpoint contains (p s : jsstring) : bool :=
  starts_with p s
  || match s with
     | [] => false
     | _ :: s' => contains p s'
     end.

(** [s.endsWith(p)] *)
Definition ends_with (p s : jsstring) : bool :=
  starts_with (rev p) (rev s).

Definition lower_ascii (c : code_unit) : code_unit :=
  if ((65 <=? c) && (c <=? 90))%Z then (c + 32)%Z else c.

(** [/p/i.test(s)] for a pattern of ASCII letters: without the [u] flag
    no character outside ASCII folds onto an ASCII letter. *)
Definition contains_ci (p s : jsstring) : bool :=
  contains (map lower_ascii p) (map lower_ascii s).

(** *** [encodeURIComponent] *)

Definition is_unreserved (c : code_unit) : bool :=
  ((65 <=? c) && (c <=? 90) || (97 <=? c) && (c <=? 122)
   || (48 <=? c) && (c <=? 57)
   || existsb (Z.eqb c) (js "-_.!~*'()"))%Z.

Definition is_high_surrogate (c : code_unit) : bool :=
  ((55296 <=? c) && (c <=? 56319))%Z.
Definition is_low_surrogate (c : code_unit) : bool :=
  ((56320 <=? c) && (c <=? 57343))%Z.

Definition utf8_bytes (cp : Z) : list Z :=
  (if cp <? 128 then [cp]
   else if cp <? 2048 then [192 + cp / 64; 128 + cp mod 64]
   else if cp <? 65536 then
     [224 + cp / 4096; 128 + (cp / 64) mod 64; 128 + cp mod 64]
   else
     [240 + cp / 262144; 128 + (cp / 4096) mod 64;
      128 + (cp / 64) mod 64; 128 + cp mod 64])%Z.

Definition hex_digit (n : Z) : code_unit :=
  (if n <? 10 then 48 + n else 55 + n)%Z.

Definition percent (b : Z) : jsstring :=
  [37%Z; hex_digit (b / 16); hex_digit (b mod 16)].

Definition escape (cp : Z) : jsstring :=
  flat_map percent (utf8_bytes cp).

Fixpoint encodeURIComponent (s : jsstring) : outcome jsstring :=
  match s with
  | [] => Ret []
  | c :: rest =>
    if is_unreserved c then
      match encodeURIComponent rest with
      | Ret t => Ret (c :: t)
      | Throw e => Throw e
      end
    else if is_low_surrogate c then Throw URIError
    else if is_high_surrogate c then
      match rest with
      | [] => Throw URIError
      | c2 :: rest2 =>
        if is_low_surrogate c2 then
          match encodeURIComponent rest2 with
          | Ret t =>
            Ret (escape ((c - 55296) * 1024 + (c2 - 56320) + 65536)%Z ++ t)
          | Throw e => Throw e
          end
        else Throw URIError
      end
    else
      match encodeURIComponent rest with
      | Ret t => Ret (escape c ++ t)
      | Throw e => Throw e
      end
  end.

(** *** Data of the CRM module *)

Record Bitrix24Config : Type := {
  webhookUrl : jsstring;
  retryAttempts : Z;
  retryDelay : Z;
  fallbackEmail : jsstring
}.

Definition initial_config : Bitrix24Config :=
  {| webhookUrl := js "";
     retryAttempts := 3;
     retryDelay := 1000;
     fallbackEmail := js "info@graduation.ru" |}.

Record utm_params : Type := {
  utm_source : jsstring;
  utm_medium : jsstring;
  utm_campaign : jsstring;
  utm_content : jsstring;
  utm_term : jsstring
}.

Record device_info : Type := {
  device_type : jsstring;
  device_browser : jsstring;
  device_os : jsstring
}.

(** The [fields] of the lead posted to [crm.lead.add]. *)
Record lead_payload : Type := {
  TITLE : jsstring;
  NAME : jsstring;
  PHONE_VALUE : jsstring;
  PHONE_VALUE_TYPE : jsstring;
  COMMENTS : jsstring;
  SOURCE_ID : jsstring;
  UTM_SOURCE : option jsstring;
  UTM_MEDIUM : option jsstring;
  UTM_CAMPAIGN : option jsstring;
  UTM_CONTENT : option jsstring;
  UTM_TERM : option jsstring
}.

(** What [fetch] resolves to; [resp_json] is the result of
    [response.json()]. *)
Record http_response : Type := {
  resp_ok : bool;
  resp_status : Z;
  resp_statusText : jsstring;
  resp_json : outcome json
}.

(** The result object of a submission; an absent member is [None]. *)
Record SubmissionResult : Type := {
  success : bool;
  method : jsstring;
  result_message : jsstring;
  warning : option jsstring;
  leadId : option jsval
}.

(** *** The lead form's user interface *)

Inductive FormState : Type :=
| IDLE | VALIDATING | SUBMITTING | SUCCESS | ERROR.

(** The submit button of the form, as far as [setFormState] writes it. *)
Record button : Type := {
  disabled : bool;
  textContent : jsstring;
  backgroundColor : jsstring
}.

(** Callbacks handed to [setTimeout] for later. *)
Inductive timer_task : Type :=
| ResetForm.

(** The text put under a field: a rule's message, or
    [error.message || fallback] of a caught exception. *)
Inductive shown_text : Type :=
| RuleMessage (s : jsstring)
| MessageOr (e : exn) (fallback : jsstring).

(** Calls into the analytics module. *)
Inductive analytics_call : Type :=
| LogFormSuccess (fd : FormData) (r : SubmissionResult)
| LogFormError (fd : FormData) (e : exn).

(** [timers] are the timers the submit handler has set; [focused] are
    the fields the scripts have called [focus()] on, in order: the
    browser runs the focus listeners of such a field then (for the phone
    field [PhoneField.on_focus]), unless it has the focus already. *)
Record ui_state : Type := {
  currentFormState : FormState;
  submitButton : option button;
  field_errors : list (jsstring * shown_text);
  success_message : option (jsstring * option jsstring);
  timers : list (Z * timer_task);
  analytics : list analytics_call;
  focused : list jsstring
}.

Definition with_state (s : FormState) (u : ui_state) : ui_state :=
  {| currentFormState := s;
     submitButton := submitButton u;
     field_errors := field_errors u;
     success_message := success_message u;
     timers := timers u;
     analytics := analytics u;
     focused := focused u |}.

Definition with_button (b : option button) (u : ui_state) : ui_state :=
  {| currentFormState := currentFormState u;
     submitButton := b;
     field_errors := field_errors u;
     success_message := success_message u;
     timers := timers u;
     analytics := analytics u;
     focused := focused u |}.

Definition with_errors (e : list (jsstring * shown_text)) (u : ui_state)
  : ui_state :=
  {| currentFormState := currentFormState u;
     submitButton := submitButton u;
     field_errors := e;
     success_message := success_message u;
     timers := timers u;
     analytics := analytics u;
     focused := focused u |}.

Definition with_success (m : option (jsstring * option jsstring))
           (u : ui_state) : ui_state :=
  {| currentFormState := currentFormState u;
     submitButton := submitButton u;
     field_errors := field_errors u;
     success_message := m;
     timers := timers u;
     analytics := analytics u;
     focused := focused u |}.

Definition with_timers (t : list (Z * timer_task)) (u : ui_state)
  : ui_state :=
  {| currentFormState := currentFormState u;
     submitButton := submitButton u;
     field_errors := field_errors u;
     success_message := success_message u;
     timers := t;
     analytics := analytics u;
     focused := focused u |}.

Definition with_analytics (a : list analytics_call) (u : ui_state)
  : ui_state :=
  {| currentFormState := currentFormState u;
     submitButton := submitButton u;
     field_errors := field_errors u;
     success_message := success_message u;
     timers := timers u;
     analytics := a;
     focused := focused u |}.

Definition with_focused (f : list jsstring) (u : ui_state) : ui_state :=
  {| currentFormState := currentFormState u;
     submitButton := submitButton u;
     field_errors := field_errors u;
     success_message := success_message u;
     timers := timers u;
     analytics := analytics u;
     focused := f |}.

(** *** [scripts/form-validation.js]: form state and messages *)

(** [setFormState(state)]: the state variable is written first; the
    button is only touched when the form has one. *)
Definition setFormState (state : FormState) (u : ui_state) : ui_state :=
  let u := with_state state u in
  match submitButton u with
  | None => u
  | Some b =>
    let b' :=
      match state with
      | VALIDATING =>
        {| disabled := true;
           textContent := js "Проверка...";
           backgroundColor := backgroundColor b |}
      | SUBMITTING =>
        {| disabled := true;
           textContent := js "Отправка...";
           backgroundColor := backgroundColor b |}
      | SUCCESS =>
        {| disabled := true;
           textContent := js "✓ Отправлено";
           backgroundColor := js "var(--color-success)" |}
      | ERROR =>
        {| disabled := false;
           textContent := js "Попробовать снова";
           backgroundColor := js "var(--color-error)" |}
      | IDLE =>
        {| disabled := false;
           textContent := js "Отправить заявку";
           backgroundColor := js "" |}
      end in
    with_button (Some b') u
  end.

Definition clearFieldError (fieldName : jsstring) (u : ui_state) : ui_state :=
  with_errors
    (filter (fun e => negb (str_eqb (fst e) fieldName)) (field_errors u)) u.

Definition showFieldError (fieldName : jsstring) (message : shown_text)
           (u : ui_state) : ui_state :=
  let u := clearFieldError fieldName u in
  with_errors (field_errors u ++ [(fieldName, message)]) u.

Definition clearAllErrors (u : ui_state) : ui_state :=
  fold_left (fun u fieldName => clearFieldError fieldName u)
            [js "name"; js "phone"; js "program"] u.

(** [Object.keys(errors)] with the messages, in insertion order. *)
Definition error_entries (e : form_errors) : list (jsstring * jsstring) :=
  flat_map (fun p : jsstring * option jsstring =>
              match snd p with
              | Some m => [(fst p, m)]
              | None => []
              end)
           [(js "name", err_name e); (js "phone", err_phone e);
            (js "program", err_program e)].

(** [displayFormErrors(errors)]: each message is shown, then the field
    of the first one, which the page with the form has, gets the focus;
    [Object.keys(errors)[0]] of an object without errors is [undefined],
    which is no element's id. *)
Definition displayFormErrors (errors : form_errors) (u : ui_state)
  : ui_state :=
  let u :=
    fold_left (fun u p => showFieldError (fst p) (RuleMessage (snd p)) u)
              (error_entries errors) u in
  match error_entries errors with
  | [] => u
  | (firstErrorField, _) :: _ =>
    with_focused (focused u ++ [firstErrorField]) u
  end.

Definition showSuccessMessage (message : jsstring) (warning : option jsstring)
           (u : ui_state) : ui_state :=
  let defaultMessage :=
    if truthy_str message then message
    else js "Заявка успешно отправлена!" in
  let shown_warning :=
    match warning with
    | Some wtext => if truthy_str wtext then Some wtext else None
    | None => None
    end in
  with_success (Some (defaultMessage, shown_warning)) u.

(** [setTimeout(task, ms)] *)
Definition setTimeout (task : timer_task) (ms : Z) (u : ui_state)
  : ui_state :=
  with_timers (timers u ++ [(ms, task)]) u.

(** The callback of the reset timer: the form is reset, the state goes
    back to idle and the success message is removed. *)
Definition run_timer (task : timer_task) (u : ui_state) : ui_state :=
  match task with
  | ResetForm => with_success None (setFormState IDLE u)
  end.

(** [handleFormSubmit] up to the first [await]: previous messages are
    cleared, the fields are validated and the form is either left in
    the error state ([false]) or put into the submitting state
    ([true]). *)
Definition submit_prologue (formData : FormData) (u : ui_state)
  : ui_state * bool :=
  let u := clearAllErrors u in
  let u := with_success None u in
  let u := setFormState VALIDATING u in
  let errors := validateForm formData in
  if 0 <? error_count errors
  then (displayFormErrors errors (setFormState ERROR u), false)
  else (setFormState SUBMITTING u, true).

(** [handleFormSubmit] from the settled tiers on: the [if
    (result.success)] branch, or the [catch] block. *)
Definition submit_epilogue (analytics_loaded : bool) (formData : FormData)
           (o : outcome SubmissionResult) (u : ui_state) : ui_state :=
  let on_error (error : exn) :=
    let u := setFormState ERROR u in
    let u :=
      if analytics_loaded
      then with_analytics (analytics u ++ [LogFormError formData error]) u
      else u in
    showFieldError
      (js "phone")
      (MessageOr error (js "Произошла ошибка при отправке. Попробуйте позже или позвоните нам."))
      u in
  match o with
  | Ret result =>
    if success result then
      let u := setFormState SUCCESS u in
      let u := showSuccessMessage (result_message result) (warning result) u in
      let u :=
        if analytics_loaded
        then with_analytics (analytics u ++ [LogFormSuccess formData result]) u
        else u in
      setTimeout ResetForm 5000 u
    else
      on_error (Error (Text (if truthy_str (result_message result)
                             then result_message result
                             else js "Ошибка отправки")))
  | Throw error => on_error error
  end.

Definition initial_ui (b : option button) : ui_state :=
  {| currentFormState := IDLE;
     submitButton := b;
     field_errors := [];
     success_message := None;
     timers := [];
     analytics := [];
     focused := [] |}.

(** [initFormValidation] on a page with the form. *)
Definition initFormValidation (b : option button) : ui_state :=
  setFormState IDLE (initial_ui b).

(** The warning of a result delivered by the email tier. *)
Definition fallback_warning : jsstring :=
  js "Bitrix24 API недоступен, использован email fallback".

(** The error [createLead] throws when the email tier fails as well. *)
Definition generic_failure : exn :=
  Error (Text (js "Не удалось отправить заявку. Пожалуйста, позвоните нам напрямую.")).

Section WithBrowser.

(** Everything outside the scripts: network, clock, location. *)
Variable Env : Type.

Record browser : Type := {
  (** [new URLSearchParams(window.location.search).get(k)] *)
  query_param : Env -> jsstring -> option jsstring;
  (** [navigator.userAgent] *)
  userAgent : Env -> jsstring;
  (** [new Date().toLocaleString('ru-RU')] *)
  locale_now : Env -> jsstring;
  (** [fetch(url, { method: 'POST', ..., body: JSON.stringify(payload) })] *)
  fetch_post : jsstring -> lead_payload -> Env -> Env * outcome http_response;
  (** [window.GAS_API], if the adapter is loaded: the call of
      ['/api/submit-form'] followed by [.json()] on its response. *)
  GAS_API : option (FormData -> Env -> Env * outcome jsval);
  (** [typeof createLead === 'function'] *)
  createLead_defined : bool;
  (** [typeof logFormSuccess === 'function'], and the same for
      [logFormError]: both are set by the analytics module. *)
  analytics_defined : bool;
  (** How the outside changes while the page waits [ms] milliseconds. *)
  elapse : Z -> Env -> Env
}.

Variable B : browser.

Record world : Type := {
  env : Env;
  (** Delays of the timers awaited so far, oldest first. *)
  waited : list Z;
  config : Bitrix24Config;
  ui : ui_state
}.

Definition with_env (e : Env) (w : world) : world :=
  {| env := e; waited := waited w; config := config w; ui := ui w |}.

Definition with_ui (f : ui_state -> ui_state) (w : world) : world :=
  {| env := env w; waited := waited w; config := config w;
     ui := f (ui w) |}.

(** [await new Promise(resolve => setTimeout(resolve, ms))] *)
Definition sleep (ms : Z) : M world unit :=
  update (fun w =>
            {| env := elapse B ms (env w);
               waited := waited w ++ [ms];
               config := config w;
               ui := ui w |}).

(** A request answered by the outside. *)
Definition ask {A} (f : Env -> Env * outcome A) : M world A :=
  fun w => let (e, r) := f (env w) in (with_env e w, r).

(** *** The Bitrix24 module *)

Definition or_empty (o : option jsstring) : jsstring :=
  match o with Some v => v | None => [] end.

Definition getUTMParams : M world utm_params :=
  read (fun w =>
          let get k := or_empty (query_param B (env w) (js k)) in
          {| utm_source := get "utm_source";
             utm_medium := get "utm_medium";
             utm_campaign := get "utm_campaign";
             utm_content := get "utm_content";
             utm_term := get "utm_term" |}).

Definition getDeviceInfo : M world device_info :=
  read (fun w =>
          let ua := userAgent B (env w) in
          let deviceType :=
            if contains_ci (js "mobile") ua then js "mobile"
            else if contains_ci (js "tablet") ua
                    || contains_ci (js "ipad") ua then js "tablet"
            else js "desktop" in
          let browser :=
            if contains (js "Firefox") ua then js "Firefox"
            else if contains (js "Chrome") ua then js "Chrome"
            else if contains (js "Safari") ua then js "Safari"
            else if contains (js "Edge") ua then js "Edge"
            else js "Unknown" in
          let os :=
            if contains (js "Win") ua then js "Windows"
            else if contains (js "Mac") ua then js "macOS"
            else if contains (js "Linux") ua then js "Linux"
            else if contains (js "Android") ua then js "Android"
            else if contains (js "iOS") ua || contains (js "iPhone") ua
                    || contains (js "iPad") ua then js "iOS"
            else js "Unknown" in
          {| device_type := deviceType;
             device_browser := browser;
             device_os := os |}).

(** [programNames[programId] || programId], for a program id that is
    not the name of a member of [Object.prototype]. *)
Definition getProgramName (programId : jsstring) : jsstring :=
  if str_eqb programId (js "heroes") then js "Вызов героев"
  else if str_eqb programId (js "ancients") then js "Тайны Древних"
  else if str_eqb programId (js "not_sure") then js "Не определились"
  else programId.

Definition if_truthy (s : jsstring) : option jsstring :=
  if truthy_str s then Some s else None.

Definition createLeadPayload (formData : FormData) (utmParams : utm_params)
           (deviceInfo : device_info) : lead_payload :=
  let programName := getProgramName (program formData) in
  let comments := js "Программа: " ++ programName ++ nl in
  let comments :=
    if truthy_str (childrenCount formData)
    then comments ++ js "Количество детей: " ++ childrenCount formData ++ nl
    else comments in
  let comments :=
    if truthy_str (comment formData)
    then comments ++ nl ++ js "Комментарий:" ++ nl ++ comment formData ++ nl
    else comments in
  let comments :=
    comments ++ nl ++ js "Источник: " ++ device_type deviceInfo ++ js " ("
             ++ device_os deviceInfo ++ js ", "
             ++ device_browser deviceInfo ++ js ")" in
  {| TITLE := js "Заявка с лендинга: " ++ programName;
     NAME := name formData;
     PHONE_VALUE := phone formData;
     PHONE_VALUE_TYPE := js "WORK";
     COMMENTS := comments;
     SOURCE_ID := js "WEB";
     UTM_SOURCE := if_truthy (utm_source utmParams);
     UTM_MEDIUM := if_truthy (utm_medium utmParams);
     UTM_CAMPAIGN := if_truthy (utm_campaign utmParams);
     UTM_CONTENT := if_truthy (utm_content utmParams);
     UTM_TERM := if_truthy (utm_term utmParams) |}.

Definition sendToBitrix24 (payload : lead_payload) : M world json :=
  cfg <- read config ;;
  if negb (truthy_str (webhookUrl cfg))
  then throw (Error (Text (js "Bitrix24 webhook URL не настроен")))
  else
    let url :=
      webhookUrl cfg
      ++ (if ends_with (js "/") (webhookUrl cfg) then js "" else js "/")
      ++ js "crm.lead.add" in
    response <- ask (fetch_post B url payload) ;;
    if negb (resp_ok response)
    then throw (Error (HttpStatus (resp_status response)
                                  (resp_statusText response)))
    else
      data <- lift (resp_json response) ;;
      err <- lift (member (Some data) (js "error")) ;;
      if truthy err then
        description <- lift (member (Some data) (js "error_description")) ;;
        throw (Error (ApiDetail (if truthy description
                                 then description else err)))
      else ret data.

Definition not_given (s : jsstring) : jsstring :=
  if truthy_str s then s else js "не указан".

Definition sendViaEmail (formData : FormData) (utmParams : utm_params)
           (deviceInfo : device_info) : M world SubmissionResult :=
  let programName := getProgramName (program formData) in
  let emailBody := js "Новая заявка с лендинга выпускных" ++ nl ++ nl in
  let emailBody := emailBody ++ js "Имя: " ++ name formData ++ nl in
  let emailBody := emailBody ++ js "Телефон: " ++ phone formData ++ nl in
  let emailBody := emailBody ++ js "Программа: " ++ programName ++ nl in
  let emailBody :=
    if truthy_str (childrenCount formData)
    then emailBody ++ js "Количество детей: "
                   ++ childrenCount formData ++ nl
    else emailBody in
  let emailBody :=
    if truthy_str (comment formData)
    then emailBody ++ nl ++ js "Комментарий:" ++ nl
                   ++ comment formData ++ nl
    else emailBody in
  let emailBody := emailBody ++ nl ++ js "UTM метки:" ++ nl in
  let emailBody :=
    emailBody ++ js "- Source: " ++ not_given (utm_source utmParams) ++ nl in
  let emailBody :=
    emailBody ++ js "- Medium: " ++ not_given (utm_medium utmParams) ++ nl in
  let emailBody :=
    emailBody ++ js "- Campaign: " ++ not_given (utm_campaign utmParams)
              ++ nl in
  let emailBody :=
    emailBody ++ nl ++ js "Устройство: " ++ device_type deviceInfo
              ++ js " (" ++ device_os deviceInfo ++ js ", "
              ++ device_browser deviceInfo ++ js ")" ++ nl in
  now <- read (fun w => locale_now B (env w)) ;;
  let emailBody := emailBody ++ nl ++ js "Время: " ++ now ++ nl in
  subject <- lift (encodeURIComponent
                     (js "Заявка с лендинга: " ++ programName)) ;;
  body <- lift (encodeURIComponent emailBody) ;;
  cfg <- read config ;;
  let mailtoLink :=
    js "mailto:" ++ fallbackEmail cfg ++ js "?subject=" ++ subject
       ++ js "&body=" ++ body in
  ret {| success := true;
         method := js "email_fallback";
         result_message := js "Заявка отправлена на email";
         warning := None;
         leadId := None |}.

(** The loop of [retryWithBackoff] from index [i] on, with [n]
    iterations left; falling out of the loop returns [undefined]. *)
Fixpoint retry_loop {A} (fn : M world A) (attempts delay : Z)
         (n : nat) (i : Z) : M world (option A) :=
  match n with
  | O => ret None
  | S n' =>
    try_catch
      (a <- fn ;; ret (Some a))
      (fun error =>
         let isLastAttempt := (i =? attempts - 1)%Z in
         if isLastAttempt then throw error
         else
           let waitTime := (delay * 2 ^ i)%Z in
           sleep waitTime ;;
           retry_loop fn attempts delay n' (i + 1)%Z)
  end.

(** [for (let i = 0; i < attempts; i++)] runs [attempts] times for an
    integer [attempts], and not at all for a negative one. *)
Definition retryWithBackoff {A} (fn : M world A) (attempts delay : Z)
  : M world (option A) :=
  retry_loop fn attempts delay (Z.to_nat attempts) 0%Z.

Definition createLead (formData : FormData) : M world SubmissionResult :=
  utmParams <- getUTMParams ;;
  deviceInfo <- getDeviceInfo ;;
  let payload := createLeadPayload formData utmParams deviceInfo in
  try_catch
    (cfg <- read config ;;
     result <- retryWithBackoff (sendToBitrix24 payload)
                                (retryAttempts cfg) (retryDelay cfg) ;;
     lead <- lift (member result (js "result")) ;;
     ret {| success := true;
            leadId := Some lead;
            method := js "bitrix24";
            result_message := js "Заявка успешно отправлена в Bitrix24";
            warning := None |})
    (fun error =>
       try_catch
         (emailResult <- sendViaEmail formData utmParams deviceInfo ;;
          ret {| success := true;
                 method := js "email_fallback";
                 result_message :=
                   js "Заявка отправлена на email (Bitrix24 недоступен)";
                 warning := Some fallback_warning;
                 leadId := None |})
         (fun emailError => throw generic_failure)).

(** *** Submission tiers and the submit handler *)

(** The body of the [try] block of [handleFormSubmit] up to the
    assignment of [result]: the primary backend, then the CRM module,
    then the mock submission. *)
Definition submit_tiers (formData : FormData) : M world SubmissionResult :=
  match GAS_API B with
  | Some call =>
    try_catch
      (gasData <- ask (call formData) ;;
       ok <- lift (member gasData (js "success")) ;;
       if truthy ok then
         ret {| success := true;
                method := js "gas";
                result_message := js "Заявка успешно отправлена!";
                warning := None;
                leadId := None |}
       else
         err <- lift (member gasData (js "error")) ;;
         throw (Error (if truthy err then ValueText err
                       else Text (js "Ошибка GAS"))))
      (fun gasError =>
         if createLead_defined B then createLead formData
         else throw gasError)
  | None =>
    if createLead_defined B then createLead formData
    else
      sleep 1500 ;;
      ret {| success := true;
             method := js "mock";
             result_message := js "Заявка отправлена (тестовый режим)";
             warning := None;
             leadId := None |}
  end.

(** [handleFormSubmit(event)], with [formData] the trimmed values the
    handler reads from the fields of the form. *)
Definition handleFormSubmit (formData : FormData) : M world unit :=
  fun w =>
    let (u, proceed) := submit_prologue formData (ui w) in
    let w := with_ui (fun _ => u) w in
    if proceed then
      let (w', o) := submit_tiers formData w in
      (with_ui (submit_epilogue (analytics_defined B) formData o) w',
       Ret tt)
    else (w, Ret tt).

(** *** Vocabulary of the stated properties *)

(** The world after [await]ing a timer of [ms] milliseconds. *)
Definition after_wait (ms : Z) (w : world) : world :=
  fst (sleep ms w).

Definition always_throws {A} (fn : M world A) : Prop :=
  forall w, exists w' e, fn w = (w', Throw e).

(** The primary backend accepted the form: its answer has a truthy
    [success] member. *)
Definition gas_accepted (o : outcome jsval) : bool :=
  match o with
  | Ret gasData =>
    match member gasData (js "success") with
    | Ret v => truthy v
    | Throw _ => false
    end
  | Throw _ => false
  end.


(** A computation that leaves the user interface as it is. *)
Definition keeps_ui {A} (c : M world A) : Prop :=
  forall w, ui (fst (c w)) = ui w.


End WithBrowser.


(** *** The form as an event-driven machine

    Between the events of the page the handler is suspended at its
    [await]; the browser delivers a submit event only while the submit
    button, if the form has one, is not disabled. *)

Inductive form_event : Type :=
| UserSubmit (formData : FormData)
| AttemptSettles (k : nat) (o : outcome SubmissionResult)
| TimerFires.

Record machine : Type := {
  page : ui_state;
  (** Handlers suspended at the tiers, with the data they submit. *)
  in_flight : list FormData
}.

Definition submit_enabled (u : ui_state) : bool :=
  match submitButton u with
  | Some b => negb (disabled b)
  | None => true
  end.

Fixpoint remove_nth {A} (k : nat) (l : list A) : list A :=
  match l, k with
  | [], _ => []
  | _ :: t, O => t
  | h :: t, S k' => h :: remove_nth k' t
  end.

Definition step (analytics_loaded : bool) (m : machine) (e : form_event)
  : option machine :=
  match e with
  | UserSubmit formData =>
    if submit_enabled (page m) then
      let (u, proceed) := submit_prologue formData (page m) in
      Some {| page := u;
              in_flight := if proceed then in_flight m ++ [formData]
                           else in_flight m |}
    else None
  | AttemptSettles k o =>
    match nth_error (in_flight m) k with
    | Some formData =>
      Some {| page := submit_epilogue analytics_loaded formData o (page m);
              in_flight := remove_nth k (in_flight m) |}
    | None => None
    end
  | TimerFires =>
    match timers (page m) with
    | (_, task) :: rest =>
      Some {| page := run_timer task (with_timers rest (page m));
              in_flight := in_flight m |}
    | [] => None
    end
  end.

Definition start (b : option button) : machine :=
  {| page := initFormValidation b; in_flight := [] |}.

Inductive reachable (analytics_loaded : bool) (b : option button)
  : machine -> Prop :=
| reach_start : reachable analytics_loaded b (start b)
| reach_step m e m' :
    reachable analytics_loaded b m ->
    step analytics_loaded m e = Some m' ->
    reachable analytics_loaded b m'.

(** *** What the state machine properties observe of the page *)

(** Whether [setFormState] disables the submit button in a state. *)
Definition disables (s : FormState) : bool :=
  match s with
  | VALIDATING | SUBMITTING | SUCCESS => true
  | ERROR | IDLE => false
  end.

(** The form state, whether the submit button (if any) is disabled, and
    the pending timers. *)
Definition view (u : ui_state)
  : FormState * option bool * list (Z * timer_task) :=
  (currentFormState u, option_map disabled (submitButton u), timers u).

(** The resting states of the form and what goes with them: in the idle
    and error states the button is enabled and nothing is pending;
    while submitting the button is disabled and one attempt is in
    flight; in the success state the button is disabled and the reset
    timer is pending. *)
Definition at_rest (m : machine) : Prop :=
  match view (page m) with
  | (IDLE, Some false, []) | (ERROR, Some false, []) => in_flight m = []
  | (SUBMITTING, Some true, []) => exists fd, in_flight m = [fd]
  | (SUCCESS, Some true, [_]) => in_flight m = []
  | _ => False
  end.

End Page.

(** ** Section settings ([scripts/blocks-manager.js]) *)

Module Blocks.

Import Json Effects.
Local Open Scope monad_scope.

(** Why [validateSettingsIntegrity] rejects a document. *)
Inductive integrity_error : Type :=
| MissingSections                        (* 'Missing or invalid sections object' *)
| EmptySections                          (* 'Sections object is empty' *)
| TooManyMissing (names : list jsstring) (* `Too many missing sections: ...` *)
| InvalidStructure (key : jsstring)      (* `Invalid structure in section: ...` *)
| ValidationError (e : exn).             (* `Validation error: ...` *)

(** The object [{ valid, error }]. *)
Record integrity : Type := {
  valid : bool;
  error : option integrity_error
}.

Definition accept : integrity := {| valid := true; error := None |}.
Definition reject (e : integrity_error) : integrity :=
  {| valid := false; error := Some e |}.

Definition requiredSections : list jsstring :=
  [js "problemSolution"; js "programs"; js "socialProof";
   js "testimonials"; js "gallery"; js "faq"; js "leadForm"].

(** [!section.title || typeof section.enabled !== 'boolean' ||
    !section.content], evaluated left to right. *)
Definition ill_structured (section : json) : outcome bool :=
  match member (Some section) (js "title") with
  | Throw e => Throw e
  | Ret title =>
    if negb (truthy title) then Ret true
    else
      match member (Some section) (js "enabled") with
      | Throw e => Throw e
      | Ret enabled =>
        if negb (js_type_eqb (typeof enabled) TBoolean) then Ret true
        else
          match member (Some section) (js "content") with
          | Throw e => Throw e
          | Ret content => Ret (negb (truthy content))
          end
      end
  end.

(** The [for ... of Object.entries(settings.sections)] loop: the first
    ill-structured section ends it with a rejection, a section that is
    [null] with an exception. *)
Fixpoint check_structure (es : list (jsstring * json)) : outcome integrity :=
  match es with
  | [] => Ret accept
  | (key, section) :: rest =>
    match ill_structured section with
    | Throw e => Throw e
    | Ret true => Ret (reject (InvalidStructure key))
    | Ret false => check_structure rest
    end
  end.

(** [names.filter(section => !sections[section])] *)
Fixpoint missing_of (sections : jsval) (names : list jsstring)
  : outcome (list jsstring) :=
  match names with
  | [] => Ret []
  | section :: rest =>
    match member sections section with
    | Throw e => Throw e
    | Ret v =>
      match missing_of sections rest with
      | Throw e => Throw e
      | Ret others =>
        Ret (if negb (truthy v) then section :: others else others)
      end
    end
  end.

(** The body of the [try] block of [validateSettingsIntegrity]. *)
Definition validate_body (settings : json) : outcome integrity :=
  match member (Some settings) (js "sections") with
  | Throw e => Throw e
  | Ret sections =>
    if negb (truthy sections) || negb (js_type_eqb (typeof sections) TObject)
    then Ret (reject MissingSections)
    else
      match keys sections with
      | Throw e => Throw e
      | Ret ks =>
        let sectionsCount := length ks in
        if Nat.eqb sectionsCount 0 then Ret (reject EmptySections)
        else
          match missing_of sections requiredSections with
          | Throw e => Throw e
          | Ret missingSections =>
            (* missing.length > required.length / 2 *)
            if length requiredSections <? 2 * length missingSections
            then Ret (reject (TooManyMissing missingSections))
            else
              match entries sections with
              | Throw e => Throw e
              | Ret es => check_structure es
              end
          end
      end
  end.

Definition validateSettingsIntegrity (settings : json) : integrity :=
  match validate_body settings with
  | Ret r => r
  | Throw e => reject (ValidationError e)
  end.

(** *** The integrity check as the specification words it *)

(** A section with a truthy title, a boolean [enabled] and truthy
    content. *)
Definition well_formed_section (section : json) : bool :=
  match section with
  | JObject ms =>
    truthy (lookup (js "title") ms)
    && match lookup (js "enabled") ms with
       | Some (JBool _) => true
       | _ => false
       end
    && truthy (lookup (js "content") ms)
  | _ => false
  end.

Definition absent (ms : list (jsstring * json)) (k : jsstring) : bool :=
  negb (existsb (fun e => str_eqb (fst e) k) ms).

(** A non-empty sections object, every section well formed, at most
    half of the required sections missing. *)
Definition spec_accepts (settings : json) : bool :=
  match settings with
  | JObject doc =>
    match lookup (js "sections") doc with
    | Some (JObject ms) =>
      negb (Nat.eqb (length ms) 0)
      && forallb (fun e => well_formed_section (snd e)) ms
      && (2 * length (filter (absent ms) requiredSections)
          <=? length requiredSections)
    | _ => false
    end
  | _ => false
  end.


(** *** Loading and recovery *)

(** The fourteen sections of the page: settings key and selector. *)
Definition sectionMap : list (jsstring * jsstring) :=
  [ (js "problemSolution", js "#problem-solution");
    (js "programs", js "#programs");
    (js "programComparison", js ".program-comparison-note");
    (js "howItWorks", js "#how-it-works");
    (js "socialProof", js "#social-proof");
    (js "testimonials", js "#testimonials");
    (js "gallery", js "#gallery");
    (js "pricing", js "#pricing");
    (js "faq", js "#faq");
    (js "faqCta", js "#faq .text-center.mt-xl");
    (js "leadForm", js "#lead-form");
    (js "footerAbout", js ".footer-about");
    (js "footerContacts", js ".footer-contacts");
    (js "footerDocuments", js ".footer-documents") ].

(** The selectors of [showAllSections]. *)
Definition all_sections : list jsstring :=
  [ js "#problem-solution"; js "#programs"; js ".program-comparison-note";
    js "#how-it-works"; js "#social-proof"; js "#testimonials";
    js "#gallery"; js "#pricing"; js "#faq"; js "#faq .text-center.mt-xl";
    js "#lead-form"; js ".footer-about"; js ".footer-contacts";
    js ".footer-documents" ].

(** The section elements the document has, each under the selector
    that finds it, with its [style.display]. *)
Definition page_dom := list (jsstring * jsstring).

(** [document.querySelector(selector)] finds an element. *)
Definition has_element (selector : jsstring) (d : page_dom) : bool :=
  existsb (fun e => str_eqb (fst e) selector) d.

(** [element.style.display = value] *)
Definition set_display (selector value : jsstring) (d : page_dom)
  : page_dom :=
  map (fun e => if str_eqb (fst e) selector then (fst e, value) else e) d.

(** One step of [showAllSections]: the element, if there is one, gets
    [style.display = '']. *)
Definition show (selector : jsstring) (d : page_dom) : page_dom :=
  if has_element selector d then set_display selector (js "") d else d.

Definition show_list (l : list jsstring) (d : page_dom) : page_dom :=
  fold_left (fun d selector => show selector d) l d.


(** What the statements observe: the URLs fetched and the documents
    handed to the save endpoint, oldest first. *)
Inductive request : Type :=
| Fetch (url : jsstring)
| Save (filename : jsstring) (content : json).

Section WithBrowser.

Variable Env : Type.

Record browser : Type := {
  (** [fetch(url)] followed by [response.json()] *)
  fetch_json : jsstring -> Env -> Env * outcome json;
  (** [window.GAS_API], if the adapter is loaded: its
      [call('/api/save-data', ...)] with the file name and the document,
      and the reading of the response. *)
  save_data : option (jsstring -> json -> Env -> Env * outcome unit);
  (** [applyContentChanges(key, element, content)]: the hydration of
      the texts of a section. *)
  applyContentChanges : jsstring -> jsval -> Env -> Env * outcome unit
}.

Variable B : browser.

Record world : Type := {
  env : Env;
  sectionsSettings : jsval;
  dom : page_dom;
  requests : list request
}.

Definition with_env (e : Env) (w : world) : world :=
  {| env := e; sectionsSettings := sectionsSettings w;
     dom := dom w; requests := requests w |}.

Definition with_settings (v : jsval) (w : world) : world :=
  {| env := env w; sectionsSettings := v;
     dom := dom w; requests := requests w |}.

Definition with_dom (f : page_dom -> page_dom) (w : world) : world :=
  {| env := env w; sectionsSettings := sectionsSettings w;
     dom := f (dom w); requests := requests w |}.

Definition with_request (r : request) (w : world) : world :=
  {| env := env w; sectionsSettings := sectionsSettings w;
     dom := dom w; requests := requests w ++ [r] |}.

Definition ask {A} (f : Env -> Env * outcome A) : M world A :=
  fun w => let (e, r) := f (env w) in (with_env e w, r).

Definition fetch (url : jsstring) : M world json :=
  update (with_request (Fetch url)) ;; ask (fetch_json B url).

Fixpoint for_each {A} (f : A -> M world unit) (l : list A)
  : M world unit :=
  match l with
  | [] => ret tt
  | a :: rest => f a ;; for_each f rest
  end.

(** [setting && setting.enabled === false] *)
Definition disabled_by (setting : jsval) : outcome bool :=
  if truthy setting then
    match member setting (js "enabled") with
    | Ret (Some (JBool false)) => Ret true
    | Ret _ => Ret false
    | Throw e => Throw e
    end
  else Ret false.

Definition showAllSections : M world unit :=
  for_each (fun selector => update (with_dom (show selector))) all_sections.

Definition handlePricingInPrograms : M world unit :=
  settings <- read sectionsSettings ;;
  pricingSetting <- lift (member settings (js "pricing")) ;;
  off <- lift (disabled_by pricingSetting) ;;
  if off then
    update (with_dom (fun d =>
              if has_element (js "#pricing") d
              then set_display (js "#pricing") (js "none") d
              else d))
  else ret tt.

Definition applySectionsSettings : M world unit :=
  for_each
    (fun entry : jsstring * jsstring =>
       let (key, selector) := entry in
       present <- read (fun w => has_element selector (dom w)) ;;
       if present then
         settings <- read sectionsSettings ;;
         setting <- lift (member settings key) ;;
         off <- lift (disabled_by setting) ;;
         if off then
           update (with_dom (set_display selector (js "none")))
         else
           update (with_dom (set_display selector (js ""))) ;;
           if truthy setting then
             content <- lift (member setting (js "content")) ;;
             if truthy content
             then ask (applyContentChanges B key content)
             else ret tt
           else ret tt
       else ret tt)
    sectionMap ;;
  handlePricingInPrograms.

(** Every failure of the save is caught and logged.  On a page without
    the adapter [window.GAS_API] is [undefined]: reading its [call]
    throws inside the [try], and no request is made. *)
Definition saveRecoveredSettings (recoveredSettings : json)
  : M world unit :=
  try_catch
    (match save_data B with
     | None => throw TypeError
     | Some call =>
       update (with_request (Save (js "settings.json") recoveredSettings)) ;;
       ask (call (js "settings.json") recoveredSettings)
     end)
    (fun _ => ret tt).

Definition recoverFromDefault : M world unit :=
  try_catch
    (defaultSettings <- fetch (js "data/settings-default.json") ;;
     sections <- lift (member (Some defaultSettings) (js "sections")) ;;
     ks <- lift (if truthy sections then keys sections else Ret []) ;;
     if truthy sections && (0 <? length ks) then
       update (with_settings sections) ;;
       saveRecoveredSettings defaultSettings ;;
       applySectionsSettings
     else showAllSections)
    (fun _ => showAllSections).

Definition loadSectionsSettings : M world unit :=
  try_catch
    (settings <- fetch (js "data/settings.json") ;;
     let integrityCheck := validateSettingsIntegrity settings in
     if negb (valid integrityCheck) then recoverFromDefault
     else
       sections <- lift (member (Some settings) (js "sections")) ;;
       update (with_settings sections) ;;
       applySectionsSettings)
    (fun _ => recoverFromDefault).

(** *** Vocabulary of the stated properties *)

(** More than half of the required sections are absent from the
    document. *)
Definition most_required_absent (settings : json) : bool :=
  match settings with
  | JObject doc =>
    match lookup (js "sections") doc with
    | Some (JObject ms) =>
      length requiredSections
      <? 2 * length (filter (absent ms) requiredSections)
    | _ => false
    end
  | _ => false
  end.

(** The document has no [sections] member at all. *)
Definition lacks_sections (settings : json) : bool :=
  match settings with
  | JObject doc =>
    match lookup (js "sections") doc with
    | None => true
    | Some _ => false
    end
  | _ => true
  end.

(** The default document has a sections mapping with an entry. *)
Definition nonempty_mapping (settings : json) : option jsval :=
  match settings with
  | JObject doc =>
    match lookup (js "sections") doc with
    | Some (JObject (m :: ms)) => Some (Some (JObject (m :: ms)))
    | _ => None
    end
  | _ => None
  end.

(** The default document has nothing to recover from: it is no object,
    or its [sections] member is absent, [null], a boolean, a number, or
    an object, array or string without an entry. *)
Definition empty_default (settings : json) : bool :=
  match settings with
  | JObject doc =>
    match lookup (js "sections") doc with
    | Some (JObject (_ :: _)) => false
    | Some (JArray (_ :: _)) => false
    | Some (JString (_ :: _)) => false
    | _ => true
    end
  | _ => true
  end.

(** The world [saveRecoveredSettings] leaves: with the adapter, the
    save request made and the outside as its answer left it. *)
Definition saved (doc : json) (w : world) : world :=
  match save_data B with
  | Some call =>
    with_env (fst (call (js "settings.json") doc (env w)))
             (with_request (Save (js "settings.json") doc) w)
  | None => w
  end.

(** The requests of a save of [doc]. *)
Definition save_requests (doc : json) : list request :=
  match save_data B with
  | Some _ => [Save (js "settings.json") doc]
  | None => []
  end.

(** Every section element the document has is displayed. *)
Definition all_visible (d : page_dom) : Prop :=
  forall selector value,
    In selector all_sections -> In (selector, value) d -> value = js "".

(** A computation that leaves the stored settings and the log of
    requests as they are. *)
Definition quiet {A} (c : M world A) : Prop :=
  forall w, requests (fst (c w)) = requests w
            /\ sectionsSettings (fst (c w)) = sectionsSettings w.

End WithBrowser.

End Blocks.

(** ** Further vocabulary for the phone field *)

Module PhoneField.

Import PhoneMask.

(** The complete number [+7 (AAA) BBB-CC-DD] with the given groups. *)
Definition complete_number (a b c d : jsstring) : jsstring :=
  js "+7 (" ++ a ++ js ") " ++ b ++ js "-" ++ c ++ js "-" ++ d.

(** [p] is an initial part of [s]. *)
Definition is_prefix (p s : jsstring) : Prop := exists t, s = p ++ t.

(** The characters a mask is made of. *)
Definition mask_char (c : code_unit) : bool :=
  is_digit c || existsb (unit_eqb c) (js "+ ()-").

(** *** The listeners of [initPhoneMask]

    Of the input element the listeners read and write the value; the
    caret position they read ([selectionStart]) is an argument, the
    position they ask for with [setSelectionRange] is recorded in
    [caret_request].  [isFormatting] is the flag of the closure. *)

Record phone_input : Type := {
  value : jsstring;
  isFormatting : bool;
  caret_request : option nat
}.

(** The [input] listener.  [cursorPosition - (oldLength - newLength)]
    may be negative in the source; [Math.max(4, _)] follows, so the
    truncated subtraction gives the same position. *)
Definition on_input (cursorPosition : nat) (f : phone_input) : phone_input :=
  if isFormatting f then f
  else
    let oldValue := value f in
    let oldLength := length oldValue in
    let newValue := formatPhoneNumber oldValue in
    let newLength := length newValue in
    let newCursorPosition :=
      if oldLength <? newLength
      then cursorPosition + (newLength - oldLength)
      else if newLength <? oldLength
      then Nat.max 4 (cursorPosition - (oldLength - newLength))
      else cursorPosition in
    let newCursorPosition := Nat.max 4 newCursorPosition in
    {| value := newValue;
       isFormatting := false;
       caret_request := Some newCursorPosition |}.

Definition allowedKeys : list jsstring :=
  [ js "Backspace"; js "Delete"; js "ArrowLeft"; js "ArrowRight";
    js "ArrowUp"; js "ArrowDown"; js "Tab"; js "Enter"; js "Escape" ].

(** The [keydown] listener: whether it calls [preventDefault]. *)
Definition keydown_prevented (key : jsstring) (cursorPosition : nat)
  : bool :=
  if (str_eqb key (js "Backspace") || str_eqb key (js "Delete"))
     && (cursorPosition <=? 4)
  then true
  else negb (existsb (str_eqb key) allowedKeys)
       && negb (Regex.test (Regex.Class [Regex.Digit]) key).

(** The [focus] listener; [currentPosition] is the caret the deferred
    callback finds. *)
Definition on_focus (currentPosition : nat) (f : phone_input)
  : phone_input :=
  if negb (Validation.truthy_str (value f)) || str_eqb (value f) (js "")
  then {| value := js "+7 (";
          isFormatting := isFormatting f;
          caret_request := Some 4 |}
  else if currentPosition <? 4
  then {| value := value f;
          isFormatting := isFormatting f;
          caret_request := Some 4 |}
  else f.

(** The [blur] listener. *)
Definition on_blur (f : phone_input) : phone_input :=
  if str_eqb (value f) (js "+7 (") || str_eqb (value f) (js "+7")
     || str_eqb (value f) (js "+")
  then {| value := js "";
          isFormatting := isFormatting f;
          caret_request := caret_request f |}
  else f.

(** The [paste] listener, which always prevents the default insertion;
    the [input] event it dispatches is handled before it returns, with
    the caret [cursorPosition] the browser reports then. *)
Definition on_paste (pastedText : jsstring) (cursorPosition : nat)
           (f : phone_input) : phone_input :=
  let digits := remove_non_digits pastedText in
  if Validation.truthy_str digits then
    let formatted := formatPhoneNumber digits in
    on_input cursorPosition
             {| value := formatted;
                isFormatting := isFormatting f;
                caret_request := caret_request f |}
  else f.

(** [String.prototype.trim]: white space and line terminators, the
    characters of [\s], are removed at both ends. *)
Fixpoint trim_start (s : jsstring) : jsstring :=
  match s with
  | [] => []
  | c :: r => if Regex.is_space c then trim_start r else s
  end.

Definition trim (s : jsstring) : jsstring :=
  rev (trim_start (rev (trim_start s))).

(** The [blur] listener of [initRealtimeValidation] for a field. *)
Definition validate_on_blur (fieldName fieldValue : jsstring)
           (u : Page.ui_state) : Page.ui_state :=
  let validation := Validation.validateField fieldName (trim fieldValue) in
  if negb (Validation.valid validation)
  then match Validation.error_message validation with
       | Some m => Page.showFieldError fieldName (Page.RuleMessage m) u
       | None => u
       end
  else Page.clearFieldError fieldName u.

(** Leaving the phone field: the listeners run in the order of their
    registration, the mask's first. *)
Definition leave_phone (f : phone_input) (u : Page.ui_state)
  : phone_input * Page.ui_state :=
  let f := on_blur f in
  (f, validate_on_blur (js "phone") (value f) u).

End PhoneField.

(** ** Concrete pages used to exercise the model *)

Module Scenario.

Import Json Effects Validation Page.

(** A page that is offline: every request fails.  The outside world is
    the number of requests made so far. *)
Definition offline : browser nat :=
  {| query_param := fun _ _ => None;
     userAgent := fun _ => js "Mozilla/5.0 (X11; Linux x86_64) Firefox/120.0";
     locale_now := fun _ => js "01.06.2025, 12:00:00";
     fetch_post := fun _ _ n => (S n, Throw (Rejected (js "Failed to fetch")));
     GAS_API :=
       Some (fun _ n => (S n, Throw (Error (Text (js "JSONP request failed")))));
     createLead_defined := true;
     analytics_defined := true;
     elapse := fun _ n => n |}.

(** The same page with a primary backend that accepts the form. *)
Definition online : browser nat :=
  {| query_param := query_param offline;
     userAgent := userAgent offline;
     locale_now := locale_now offline;
     fetch_post := fetch_post offline;
     GAS_API :=
       Some (fun _ n =>
               (S n, Ret (Some (JObject [(js "success", JBool true)]))));
     createLead_defined := true;
     analytics_defined := true;
     elapse := fun _ n => n |}.

Definition idle_button : button :=
  {| disabled := false;
     textContent := js "Отправить заявку";
     backgroundColor := js "" |}.

Definition webhook_config : Bitrix24Config :=
  {| webhookUrl := js "https://example.bitrix24.ru/rest/1/token";
     retryAttempts := 3;
     retryDelay := 1000;
     fallbackEmail := js "info@graduation.ru" |}.

Definition fresh : world nat :=
  {| env := 0;
     waited := [];
     config := webhook_config;
     ui := initFormValidation (Some idle_button) |}.

Definition applicant : FormData :=
  {| name := js "Анна Ли";
     phone := js "+7 (999) 123-45-67";
     program := js "heroes";
     childrenCount := js "25";
     comment := js "" |}.

(** The same applicant with half of a surrogate pair in the comment. *)
Definition applicant_lone_surrogate : FormData :=
  {| name := name applicant;
     phone := phone applicant;
     program := program applicant;
     childrenCount := childrenCount applicant;
     comment := [55357%Z] |}.

(** A request that fails whenever it is made. *)
Definition failing_request : M (world nat) json :=
  ask (fun n => (S n, Throw (Rejected (js "Failed to fetch")))).


Definition no_utm : utm_params :=
  {| utm_source := []; utm_medium := []; utm_campaign := [];
     utm_content := []; utm_term := [] |}.

Definition linux_firefox : device_info :=
  {| device_type := js "desktop";
     device_browser := js "Firefox";
     device_os := js "Linux" |}.

(** What the primary backend of [online] makes of a submission. *)
Definition accepted : SubmissionResult :=
  {| success := true;
     method := js "gas";
     result_message := js "Заявка успешно отправлена!";
     warning := None;
     leadId := None |}.


(** *** Settings documents and a page for the blocks manager *)

Definition section_doc (title : String.string) (on : bool) : json :=
  JObject [ (js "title", JString (js title));
            (js "enabled", JBool on);
            (js "content", JObject [(js "heading", JString (js title))]) ].

(** Four of the seven required sections, and the pricing switched off. *)
Definition good_sections : json :=
  JObject [ (js "problemSolution", section_doc "Problem" true);
            (js "programs", section_doc "Programs" true);
            (js "socialProof", section_doc "Numbers" true);
            (js "testimonials", section_doc "Reviews" true);
            (js "pricing", section_doc "Prices" false) ].

Definition good_settings : json := JObject [(js "sections", good_sections)].

(** Three of the seven required sections only. *)
Definition sparse_settings : json :=
  JObject [ (js "sections",
             JObject [ (js "problemSolution", section_doc "Problem" true);
                       (js "programs", section_doc "Programs" true);
                       (js "socialProof", section_doc "Numbers" true) ]) ].

(** A server that answers the two settings URLs with the given documents
    and fails where it has none; the adapter is not loaded. *)
Definition serving (primary fallback : option json) : Blocks.browser nat :=
  {| Blocks.fetch_json :=
       fun url n =>
         let answer :=
           if str_eqb url (js "data/settings.json") then primary
           else fallback in
         (S n, match answer with
               | Some doc => Ret doc
               | None => Throw (Rejected (js "Failed to fetch"))
               end);
     Blocks.save_data := None;
     Blocks.applyContentChanges := fun _ _ n => (n, Ret tt) |}.

Definition blocks_fresh : Blocks.world nat :=
  {| Blocks.env := 0;
     Blocks.sectionsSettings := Some (JObject []);
     Blocks.dom := [ (js "#programs", js "none");
                     (js "#pricing", js "");
                     (js "#faq", js "none") ];
     Blocks.requests := [] |}.

End Scenario.

(** ** Further vocabulary for the CRM module *)

Module Crm.

Import Validation Page.

(** The waits of [retryWithBackoff] when every attempt fails:
    [delay * 2^i] after each attempt [i] but the last. *)
Definition backoff_schedule (attempts delay : Z) : list Z :=
  map (fun i => (delay * 2 ^ Z.of_nat i)%Z) (seq 0 (Z.to_nat attempts - 1)).

(** The outside after the page has waited through [waits]. *)
Definition elapsed {Env} (B : browser Env) (waits : list Z) (e : Env)
  : Env :=
  fold_left (fun e ms => elapse B ms e) waits e.

(** Text without a surrogate code unit. *)
Definition plain (s : jsstring) : bool :=
  forallb (fun c => negb (is_high_surrogate c || is_low_surrogate c)) s.

Definition plain_form (fd : FormData) : bool :=
  plain (name fd) && plain (phone fd) && plain (program fd)
  && plain (childrenCount fd) && plain (comment fd).

(** The world after the waits of a schedule, the outside being asked
    nothing in between. *)
Definition after_waits {Env} (B : browser Env) (waits : list Z)
           (w : world Env) : world Env :=
  {| env := elapsed B waits (env w);
     waited := waited w ++ waits;
     config := config w;
     ui := ui w |}.

(** The error of [sendToBitrix24] without a webhook. *)
Definition not_configured : Effects.exn :=
  Effects.Error (Effects.Text (js "Bitrix24 webhook URL не настроен")).

End Crm.

(** ** The page events of the blocks manager *)

Module BlocksEvents.

Import Json Effects Blocks.
Local Open Scope monad_scope.

(** The callback [applySectionsSettings] runs on each entry of its
    section map. *)
Definition apply_entry {Env} (B : browser Env) (entry : jsstring * jsstring)
  : M (world Env) unit :=
  let (key, selector) := entry in
  present <- read (fun w => has_element selector (dom w)) ;;
  if present then
    settings <- read (@sectionsSettings Env) ;;
    setting <- lift (member settings key) ;;
    off <- lift (disabled_by setting) ;;
    if off then
      update (with_dom (set_display selector (js "none")))
    else
      update (with_dom (set_display selector (js ""))) ;;
      if truthy setting then
        content <- lift (member setting (js "content")) ;;
        if truthy content
        then ask (applyContentChanges B key content)
        else ret tt
      else ret tt
  else ret tt.

(** The callback of [setInterval(..., 30000)]: the settings are loaded
    again when the stored ones have no key. *)
Definition periodic_check {Env} (B : browser Env) : M (world Env) unit :=
  settings <- read (@sectionsSettings Env) ;;
  ks <- lift (keys settings) ;;
  if Nat.eqb (length ks) 0 then loadSectionsSettings B else ret tt.

(** The listener of [programsLoaded]. *)
Definition on_programsLoaded {Env} (B : browser Env) : M (world Env) unit :=
  settings <- read (@sectionsSettings Env) ;;
  ks <- lift (keys settings) ;;
  if 0 <? length ks then applySectionsSettings B else ret tt.

(** The [style.display] the settings ask for on the element of a
    section: ['none'] when the section has a setting whose [enabled] is
    [false], [''] otherwise. *)
Definition wanted_display (settings : jsval) (key : jsstring)
  : option jsstring :=
  match member settings key with
  | Ret setting =>
    match disabled_by setting with
    | Ret true => Some (js "none")
    | Ret false => Some (js "")
    | Throw _ => None
    end
  | Throw _ => None
  end.

End BlocksEvents.

(** ** Analytics ([scripts/analytics.js]) *)

Module Analytics.

Import Json.

(** The [params] object of an event: the one [trackScrollDepth] builds,
    or any other. *)
Inductive event_params : Type :=
| Percentage (percentage : Z)
| Params (v : jsval).

(** An entry [{ name, params }] of the queue. *)
Definition event : Type := (jsstring * event_params)%type.

(** A call of the counter function [ym]. *)
Inductive ym_call : Type :=
| YmInit (counter : jsval)
| YmReachGoal (counter : jsval) (eventName : jsstring)
              (params : event_params).

(** The variables of the module, with the two members of
    [YandexMetrikaConfig] the tracking reads, whether a global [ym]
    exists, and the calls made to it so far, oldest first.
    [scrollDepthTracked] lists the keys that hold [true]. *)
Record state : Type := {
  enabled : jsval;
  counterId : jsval;
  metrikaInitialized : bool;
  eventQueue : list event;
  scrollDepthTracked : list Z;
  ym_defined : bool;
  ym_calls : list ym_call
}.

Definition call_ym (c : ym_call) (s : state) : state :=
  {| enabled := enabled s;
     counterId := counterId s;
     metrikaInitialized := metrikaInitialized s;
     eventQueue := eventQueue s;
     scrollDepthTracked := scrollDepthTracked s;
     ym_defined := ym_defined s;
     ym_calls := ym_calls s ++ [c] |}.

Definition with_queue (q : list event) (s : state) : state :=
  {| enabled := enabled s;
     counterId := counterId s;
     metrikaInitialized := metrikaInitialized s;
     eventQueue := q;
     scrollDepthTracked := scrollDepthTracked s;
     ym_defined := ym_defined s;
     ym_calls := ym_calls s |}.

Definition set_initialized (s : state) : state :=
  {| enabled := enabled s;
     counterId := counterId s;
     metrikaInitialized := true;
     eventQueue := eventQueue s;
     scrollDepthTracked := scrollDepthTracked s;
     ym_defined := ym_defined s;
     ym_calls := ym_calls s |}.

(** The stub [window.ym] the loader snippet installs. *)
Definition define_ym (s : state) : state :=
  {| enabled := enabled s;
     counterId := counterId s;
     metrikaInitialized := metrikaInitialized s;
     eventQueue := eventQueue s;
     scrollDepthTracked := scrollDepthTracked s;
     ym_defined := true;
     ym_calls := ym_calls s |}.

Definition mark_depth (key : Z) (s : state) : state :=
  {| enabled := enabled s;
     counterId := counterId s;
     metrikaInitialized := metrikaInitialized s;
     eventQueue := eventQueue s;
     scrollDepthTracked := key :: scrollDepthTracked s;
     ym_defined := ym_defined s;
     ym_calls := ym_calls s |}.

(** [trackEvent(eventName, params)]; an exception of [ym] is caught and
    logged, so the call leaves nothing but its trace. *)
Definition trackEvent (eventName : jsstring) (params : event_params)
           (s : state) : state :=
  if negb (truthy (enabled s)) then s
  else if negb (metrikaInitialized s)
  then with_queue (eventQueue s ++ [(eventName, params)]) s
  else if negb (ym_defined s) then s
  else call_ym (YmReachGoal (counterId s) eventName params) s.

(** [processEventQueue()]: [forEach] visits the entries the queue has
    when it starts. *)
Definition processEventQueue (s : state) : state :=
  if 0 <? length (eventQueue s) then
    with_queue []
               (fold_left (fun s (ev : event) => trackEvent (fst ev) (snd ev) s)
                          (eventQueue s) s)
  else s.

Definition initYandexMetrika (s : state) : state :=
  if negb (truthy (enabled s)) || negb (truthy (counterId s)) then s
  else if ym_defined s then processEventQueue (set_initialized s)
  else
    let s := define_ym s in
    let s := call_ym (YmInit (counterId s)) s in
    processEventQueue (set_initialized s).

Definition depth_tracked (key : Z) (s : state) : bool :=
  existsb (Z.eqb key) (scrollDepthTracked s).

(** [trackScrollDepth(percentage)] for an integer percentage, whose
    key is its decimal text. *)
Definition trackScrollDepth (percentage : Z) (s : state) : state :=
  if depth_tracked percentage s then s
  else trackEvent (js "scroll_depth") (Percentage percentage)
                  (mark_depth percentage s).

(** [checkScrollDepth()], with [at_least m] the outcome of
    [scrollPercentage >= m]. *)
Definition checkScrollDepth (at_least : Z -> bool) (s : state) : state :=
  let milestone m s :=
    if at_least m && negb (depth_tracked m s)
    then trackScrollDepth m s else s in
  milestone 100%Z (milestone 75%Z (milestone 50%Z (milestone 25%Z s))).

(** What the page may do with the module. *)
Inductive call : Type :=
| Track (eventName : jsstring) (params : jsval)
| InitMetrika
| ScrollTo (percentage : Z)
| CheckScroll (at_least : Z -> bool).

Definition run_call (s : state) (c : call) : state :=
  match c with
  | Track eventName params => trackEvent eventName (Params params) s
  | InitMetrika => initYandexMetrika s
  | ScrollTo percentage => trackScrollDepth percentage s
  | CheckScroll at_least => checkScrollDepth at_least s
  end.

Definition run (calls : list call) (s : state) : state :=
  fold_left run_call calls s.

(** The parameters of the events named [scroll_depth] in a list of
    events, whoever tracked them, and the events in the calls of the
    counter. *)
Definition scroll_events (evs : list event) : list event_params :=
  map snd (filter (fun ev : event => str_eqb (fst ev) (js "scroll_depth"))
                  evs).

Definition goals (calls : list ym_call) : list event :=
  flat_map (fun c => match c with
                     | YmReachGoal _ eventName params => [(eventName, params)]
                     | YmInit _ => []
                     end) calls.

(** The module as the script leaves it before any call, for a given
    configuration and page. *)
Definition loaded (cfg_enabled cfg_counterId : jsval) (ym_exists : bool)
  : state :=
  {| enabled := cfg_enabled;
     counterId := cfg_counterId;
     metrikaInitialized := false;
     eventQueue := [];
     scrollDepthTracked := [];
     ym_defined := ym_exists;
     ym_calls := [] |}.

(** *** Vocabulary of the stated properties *)

(** [s1] differs from [s] at most by events added to the queue and
    milestones marked. *)
Definition only_queues (s s1 : state) : Prop :=
  enabled s1 = enabled s
  /\ counterId s1 = counterId s
  /\ metrikaInitialized s1 = metrikaInitialized s
  /\ ym_calls s1 = ym_calls s
  /\ ym_defined s1 = ym_defined s
  /\ exists added, eventQueue s1 = eventQueue s ++ added.

(** The [scroll_depth] events reported so far, to the counter or to the
    queue. *)
Definition emitted (s : state) : list event_params :=
  scroll_events (goals (ym_calls s)) ++ scroll_events (eventQueue s).

(** No two [scroll_depth] events were reported with the same
    parameters, and each one carries a percentage that is marked. *)
Definition once_each (s : state) : Prop :=
  NoDup (emitted s)
  /\ forall x, In x (emitted s) ->
               exists p, x = Percentage p /\ In p (scrollDepthTracked s).

(** The call is no [trackEvent] with the name [scroll_depth]. *)
Definition no_direct_scroll (c : call) : bool :=
  match c with
  | Track eventName _ => negb (str_eqb eventName (js "scroll_depth"))
  | InitMetrika | ScrollTo _ | CheckScroll _ => true
  end.

End Analytics.

(** ** The adapter to the Apps Script backend ([frontend-adapter.js]) *)

Module Adapter.

Import Json Effects.

Record GAS_CONFIG : Type := {
  GAS_URL : jsstring;
  USE_LOCAL_SERVER : bool;
  LOCAL_SERVER_URL : jsstring
}.

(** The [params] handed to the JSONP request. *)
Inductive request_params : Type :=
| Body (body : jsval)            (* params = body *)
| NoParams                       (* params = {} *)
| Filename (filename : jsstring). (* params = { filename } *)

(** How a call leaves the page. *)
Inductive transport : Type :=
| LocalFetch (url : jsstring)
| Jsonp (action : jsstring) (params : request_params)
| Upload.

(** [endpoint.split('/').pop()]: the text behind the last slash. *)
Fixpoint last_segment_from (acc s : jsstring) : jsstring :=
  match s with
  | [] => rev acc
  | c :: rest =>
    if unit_eqb c 47%Z then last_segment_from [] rest
    else last_segment_from (c :: acc) rest
  end.

Definition last_segment (s : jsstring) : jsstring := last_segment_from [] s.

(** [gasApiCall(endpoint, options)] up to the request it hands over;
    [body] is [JSON.parse(options.body)], or [{}] without a body, and is
    evaluated first. *)
Definition gasApiCall (endpoint : jsstring) (body : outcome jsval)
  : outcome transport :=
  match body with
  | Throw e => Throw e
  | Ret body =>
    if str_eqb endpoint (js "/api/save-data")
    then Ret (Jsonp (js "save-data") (Body body))
    else if str_eqb endpoint (js "/api/get-backups")
    then Ret (Jsonp (js "get-backups") NoParams)
    else if str_eqb endpoint (js "/api/restore-backup")
    then Ret (Jsonp (js "restore-backup") (Body body))
    else if str_eqb endpoint (js "/api/upload-image")
    then Ret Upload
    else if str_eqb endpoint (js "/api/media")
    then Ret (Jsonp (js "get-media") NoParams)
    else if str_eqb endpoint (js "/api/submit-form")
    then Ret (Jsonp (js "submit-form") (Body body))
    else if str_eqb endpoint (js "/api/test-post")
    then Ret (Jsonp (js "test-post") (Body body))
    else if Page.starts_with (js "/api/media/") endpoint
    then Ret (Jsonp (js "delete-media") (Filename (last_segment endpoint)))
    else Throw (Error (Text (js "Unknown endpoint: " ++ endpoint)))
  end.

(** [apiCall(endpoint, options)] *)
Definition apiCall (cfg : GAS_CONFIG) (endpoint : jsstring)
           (body : outcome jsval) : outcome transport :=
  let baseUrl :=
    if USE_LOCAL_SERVER cfg then LOCAL_SERVER_URL cfg else GAS_URL cfg in
  if USE_LOCAL_SERVER cfg then Ret (LocalFetch (baseUrl ++ endpoint))
  else gasApiCall endpoint body.

(** [window.loadMedia(params)]; [query] is
    [new URLSearchParams(params).toString()] for [params] with a key.
    The [catch] block logs and throws the error again. *)
Definition loadMedia (cfg : GAS_CONFIG) (query : option jsstring)
  : outcome transport :=
  let url := js "/api/media" in
  let url :=
    match query with
    | Some q => url ++ js "?" ++ q
    | None => url
    end in
  match apiCall cfg url (Ret (Some (JObject []))) with
  | Ret response => Ret response
  | Throw error => Throw error
  end.

(** *** The JSONP request

    What [gasJsonpRequest] keeps on the page: the global callback, the
    script element, and the promise it returned. *)
Record jsonp_request : Type := {
  callback_defined : bool;
  script_in_head : bool;
  promise : option (outcome jsval)
}.

(** [resolve] and [reject] settle a pending promise and do nothing to
    a settled one. *)
Definition settle (o : outcome jsval) (r : jsonp_request) : jsonp_request :=
  match promise r with
  | None => {| callback_defined := callback_defined r;
               script_in_head := script_in_head r;
               promise := Some o |}
  | Some _ => r
  end.

(** [delete window[callbackName]; document.head.removeChild(script);]
    followed by [finish]: removing a script that is not in the head
    throws, and [finish] is not reached.  The flag tells whether the
    handler threw. *)
Definition clean_up_then (finish : jsonp_request -> jsonp_request)
           (r : jsonp_request) : jsonp_request * bool :=
  let r := {| callback_defined := false;
              script_in_head := script_in_head r;
              promise := promise r |} in
  if script_in_head r
  then (finish {| callback_defined := callback_defined r;
                  script_in_head := false;
                  promise := promise r |}, false)
  else (r, true).

(** The request right after [gasJsonpRequest] has run. *)
Definition requested : jsonp_request :=
  {| callback_defined := true; script_in_head := true; promise := None |}.

Inductive jsonp_event : Type :=
| Respond (data : jsval)   (* the loaded script calls the callback *)
| LoadError                (* script.onerror *)
| TimeoutFires.            (* the timer of 30000 ms *)

(** The handler an event runs; a response script that finds no callback
    fails on its own and runs none. *)
Definition jsonp_step (r : jsonp_request) (e : jsonp_event)
  : option (jsonp_request * bool) :=
  match e with
  | Respond data =>
    if callback_defined r
    then Some (clean_up_then (settle (Ret data)) r)
    else None
  | LoadError =>
    Some (clean_up_then
            (settle (Throw (Error (Text (js "JSONP request failed"))))) r)
  | TimeoutFires =>
    if callback_defined r
    then Some (clean_up_then
                 (settle (Throw (Error (Text (js "JSONP request timeout")))))
                 r)
    else Some (r, false)
  end.

Inductive jsonp_reachable : jsonp_request -> Prop :=
| jsonp_start : jsonp_reachable requested
| jsonp_next r e r' threw :
    jsonp_reachable r -> jsonp_step r e = Some (r', threw) ->
    jsonp_reachable r'.

End Adapter.

(** ** Further pages used to exercise the model *)

Module FurtherScenario.

Import Page PhoneField.

Definition untouched : phone_input :=
  {| value := js ""; isFormatting := false; caret_request := None |}.

Definition typed (v : jsstring) : phone_input :=
  {| value := v; isFormatting := false; caret_request := Some (length v) |}.

Definition blank_page : ui_state := initFormValidation None.

(** A visitor who submits too early. *)
Definition hasty : Validation.FormData :=
  {| Validation.name := js "A";
     Validation.phone := js "+7 (999";
     Validation.program := js "";
     Validation.childrenCount := js "";
     Validation.comment := js "" |}.

(** A page whose CRM module has no webhook yet. *)
Definition unconfigured : world nat :=
  {| env := 0;
     waited := [];
     config := initial_config;
     ui := initFormValidation (Some Scenario.idle_button) |}.

(** A page configured to make no attempt at all. *)
Definition no_retry : world nat :=
  {| env := 0;
     waited := [];
     config := {| webhookUrl := webhookUrl Scenario.webhook_config;
                  retryAttempts := 0;
                  retryDelay := 1000;
                  fallbackEmail := fallbackEmail Scenario.webhook_config |};
     ui := initFormValidation (Some Scenario.idle_button) |}.

(** The body the CRM answers a created lead with. *)
Definition lead_body : Json.json :=
  Json.JObject [(js "result", Json.JString (js "1024"))].

(** A page whose CRM answers every request with that body. *)
Definition crm_online : browser nat :=
  {| query_param := query_param Scenario.offline;
     userAgent := userAgent Scenario.offline;
     locale_now := locale_now Scenario.offline;
     fetch_post := fun _ _ n =>
                     (S n, Effects.Ret {| resp_ok := true;
                                          resp_status := 200;
                                          resp_statusText := js "OK";
                                          resp_json := Effects.Ret lead_body |});
     GAS_API := None;
     createLead_defined := true;
     analytics_defined := false;
     elapse := fun _ n => n |}.

(** A page on which the stored settings are those of [good_sections]. *)
Definition blocks_loaded : Blocks.world nat :=
  {| Blocks.env := 0;
     Blocks.sectionsSettings := Some Scenario.good_sections;
     Blocks.dom := Blocks.dom Scenario.blocks_fresh;
     Blocks.requests := [] |}.

(** A server with both documents, and a page on which the hydration of
    the texts throws. *)
Definition brittle : Blocks.browser nat :=
  {| Blocks.fetch_json :=
       Blocks.fetch_json
         (Scenario.serving (Some Scenario.good_settings)
                           (Some Scenario.good_settings));
     Blocks.save_data := Some (fun _ _ n => (S n, Effects.Ret tt));
     Blocks.applyContentChanges :=
       fun _ _ n => (n, Effects.Throw Effects.TypeError) |}.

(** The analytics module with a counter configured, with analytics
    switched off, and switched on without a counter. *)
Definition metrika_on : Analytics.state :=
  Analytics.loaded (Some (Json.JBool true))
                   (Some (Json.JString (js "12345678"))) false.

Definition metrika_off : Analytics.state :=
  Analytics.loaded (Some (Json.JBool false)) (Some Json.JNull) false.

Definition metrika_no_counter : Analytics.state :=
  Analytics.loaded (Some (Json.JBool true)) (Some Json.JNull) false.

Definition two_events : list Analytics.event :=
  [ (js "page_view", Analytics.Params None);
    (js "scroll_depth", Analytics.Percentage 25) ].

(** The adapter as deployed. *)
Definition deployed : Adapter.GAS_CONFIG :=
  {| Adapter.GAS_URL := js "https://script.google.com/macros/s/ID/exec";
     Adapter.USE_LOCAL_SERVER := false;
     Adapter.LOCAL_SERVER_URL := js "http://localhost:8000" |}.

(** The settings of [good_settings] with a gallery section that has no
    title. *)
Definition untitled_settings : Json.json :=
  Json.JObject
    [ (js "sections",
       Json.JObject
         [ (js "problemSolution", Scenario.section_doc "Problem" true);
           (js "programs", Scenario.section_doc "Programs" true);
           (js "socialProof", Scenario.section_doc "Numbers" true);
           (js "testimonials", Scenario.section_doc "Reviews" true);
           (js "gallery",
            Json.JObject [ (js "enabled", Json.JBool true);
                           (js "content", Json.JObject []) ]);
           (js "faq", Json.JNull) ]) ].

(** A document that passes the integrity check and has [null] among the
    statistics of its social proof section. *)
Definition null_stat_settings : Json.json :=
  Json.JObject
    [ (js "sections",
       Json.JObject
         [ (js "problemSolution", Scenario.section_doc "Problem" true);
           (js "programs", Scenario.section_doc "Programs" true);
           (js "socialProof",
            Json.JObject
              [ (js "title", Json.JString (js "Numbers"));
                (js "enabled", Json.JBool true);
                (js "content",
                 Json.JObject [(js "stats", Json.JArray [Json.JNull])]) ]);
           (js "testimonials", Scenario.section_doc "Reviews" true) ]) ].

(** [applySocialProofContent] on a section with one card that has a
    heading and a paragraph: the first entry of [content.stats] is read
    for its [number] and its [label], further entries find no card. *)
Definition hydrate_social_proof (content : Json.jsval)
  : Effects.outcome unit :=
  match Effects.member content (js "stats") with
  | Effects.Throw e => Effects.Throw e
  | Effects.Ret (Some (Json.JArray (stat :: _))) =>
    match Effects.member (Some stat) (js "number") with
    | Effects.Throw e => Effects.Throw e
    | Effects.Ret _ =>
      match Effects.member (Some stat) (js "label") with
      | Effects.Throw e => Effects.Throw e
      | Effects.Ret _ => Effects.Ret tt
      end
    end
  | Effects.Ret _ => Effects.Ret tt
  end.

(** A server as [serving], on a page whose social proof section is
    hydrated that way; [adapter] tells whether [window.GAS_API] is
    loaded. *)
Definition hydrating (primary fallback : option Json.json) (adapter : bool)
  : Blocks.browser nat :=
  {| Blocks.fetch_json :=
       Blocks.fetch_json (Scenario.serving primary fallback);
     Blocks.save_data :=
       if adapter then Some (fun _ _ n => (S n, Effects.Ret tt)) else None;
     Blocks.applyContentChanges :=
       fun key content n =>
         (n, if str_eqb key (js "socialProof")
             then hydrate_social_proof content
             else Effects.Ret tt) |}.

(** A page with the social proof section on it, hidden. *)
Definition social_page : Blocks.world nat :=
  {| Blocks.env := 0;
     Blocks.sectionsSettings := Some (Json.JObject []);
     Blocks.dom := [ (js "#programs", js "");
                     (js "#social-proof", js "none") ];
     Blocks.requests := [] |}.

End FurtherScenario.

(** * Properties *)

Unset Implicit Arguments.

(** ** Phone mask *)

Section PhoneMaskFacts.

Import PhoneMask.

Lemma remove_non_digits_all (d : jsstring) :
  all_digits d -> remove_non_digits d = d.
Proof.
  unfold remove_non_digits.
  induction 1 as [|c r Hc _ IH]; simpl; [reflexivity|].
  now rewrite Hc, IH.
Qed.

Lemma remove_non_digits_digits (v : jsstring) :
  all_digits (remove_non_digits v).
Proof.
  unfold all_digits, remove_non_digits.
  apply Forall_forall. intros c Hc. now apply filter_In in Hc.
Qed.

(** Evaluates the string literals of the goal. *)
Ltac literals :=
  repeat match goal with
         | |- context [js ?s] =>
           let v := eval vm_compute in (js s) in change (js s) with v
         end.

(** Splits a list into the cases of length 0 to 10 and "11 or more". *)
Ltac by_length r :=
  destruct r as [|? [|? [|? [|? [|? [|? [|? [|? [|? [|? [|? r]]]]]]]]]]].

Lemma index_is_head (c : code_unit) (r : jsstring) (k : code_unit) :
  index_is (c :: r) 0 [k] = unit_eqb c k.
Proof. unfold index_is; simpl. apply andb_true_r. Qed.

(** The formatter computes the mask of the digits of its argument,
    whatever else the argument holds. *)
Lemma format_is_mask (v : jsstring) :
  formatPhoneNumber v = progressive_mask (remove_non_digits v).
Proof.
  unfold formatPhoneNumber.
  generalize (remove_non_digits v) as d. intros [|c r]; [reflexivity|].
  change (js "8") with [56%Z]; change (js "7") with [55%Z].
  rewrite !index_is_head.
  unfold progressive_mask, significant_digits, normalize_lead.
  cbn [length Nat.ltb Nat.leb].
  destruct (unit_eqb c 56%Z); [by_length r; reflexivity|].
  destruct (unit_eqb c 55%Z); by_length r; reflexivity.
Qed.

Lemma normalize_lead_seven (c : code_unit) (r : jsstring) :
  all_digits (c :: r) ->
  exists t, normalize_lead (c :: r) = 55%Z :: t /\ all_digits t.
Proof.
  intros Hd. inversion Hd as [|? ? Hc Hr]; subst. simpl. unfold unit_eqb.
  destruct (Z.eqb_spec c 56); [eauto|].
  destruct (Z.eqb_spec c 55); [subst; eauto|eauto].
Qed.

Lemma filter_digit_keep (c : code_unit) (l : jsstring) :
  is_digit c = true -> filter is_digit (c :: l) = c :: filter is_digit l.
Proof. intros H; simpl; now rewrite H. Qed.

Lemma filter_digit_drop (c : code_unit) (l : jsstring) :
  is_digit c = false -> filter is_digit (c :: l) = filter is_digit l.
Proof. intros H; simpl; now rewrite H. Qed.

Ltac split_digits :=
  repeat match goal with
         | H : Forall _ (_ :: _) |- _ =>
           let Hc := fresh "Hc" in
           let Hr := fresh "Hr" in
           inversion H as [|? ? Hc Hr]; clear H; subst
         end.

Ltac filter_digits :=
  repeat first
    [ rewrite filter_digit_keep by (assumption || reflexivity)
    | rewrite filter_digit_drop by reflexivity ].

(** The digits of a mask are the significant digits it was built from. *)
Lemma digits_of_mask (d : jsstring) :
  all_digits d ->
  remove_non_digits (progressive_mask d) = significant_digits d.
Proof.
  intros Hd. destruct d as [|c r]; [reflexivity|].
  destruct (normalize_lead_seven c r Hd) as (t & Hn & Ht).
  unfold progressive_mask, significant_digits, remove_non_digits.
  rewrite Hn. clear Hn Hd.
  unfold all_digits in Ht.
  literals. by_length t; split_digits; cbn -[filter is_digit];
    filter_digits; reflexivity.
Qed.

Lemma significant_digits_idem (d : jsstring) :
  significant_digits (significant_digits d) = significant_digits d.
Proof.
  unfold significant_digits.
  assert (H : normalize_lead (firstn 11 (normalize_lead d))
              = firstn 11 (normalize_lead d)).
  { destruct d as [|c r]; [reflexivity|].
    destruct (Z.eqb_spec c 56) as [->|H56]; [reflexivity|].
    destruct (Z.eqb_spec c 55) as [->|H55]; [reflexivity|].
    apply Z.eqb_neq in H56, H55.
    cbn [normalize_lead]. unfold unit_eqb. now rewrite H56, H55. }
  rewrite H. apply firstn_firstn.
Qed.

Lemma mask_of_significant (d : jsstring) :
  progressive_mask (significant_digits d) = progressive_mask d.
Proof. unfold progressive_mask. now rewrite significant_digits_idem. Qed.

(** C1. For every digit sequence of length 0 to 11 the formatter returns
    the progressive mask of the specification: nothing for no digit,
    "+7" from the first digit on, " (" and digits 2-4 from two digits on,
    ") " and digits 5-7 from five, "-" and digits 8-9 from eight, "-" and
    digits 10-11 from ten, counted on the digits after a leading 8 has
    become 7, any other leading digit but 7 has got a 7 in front, and
    eleven digits are kept.  The three examples of the specification are
    instances. *)
Theorem formatPhoneNumber_progressive_mask :
  (forall d : jsstring,
      all_digits d -> length d <= 11 ->
      formatPhoneNumber d = progressive_mask d)
  /\ formatPhoneNumber (js "9991234567") = js "+7 (999) 123-45-67"
  /\ formatPhoneNumber (js "89991234567") = js "+7 (999) 123-45-67"
  /\ formatPhoneNumber (js "71234") = js "+7 (123) 4".
Proof.
  split; [|repeat split; reflexivity].
  intros d Hd _. rewrite format_is_mask.
  now rewrite (remove_non_digits_all d Hd).
Qed.

Lemma formatPhoneNumber_progressive_mask_witness :
  all_digits (js "79") /\ length (js "79") <= 11
  /\ formatPhoneNumber (js "79") = progressive_mask (js "79").
Proof.
  assert (Hd : all_digits (js "79")) by (repeat constructor).
  assert (Hl : length (js "79") <= 11) by (vm_compute; lia).
  split; [exact Hd|]. split; [exact Hl|].
  exact (proj1 formatPhoneNumber_progressive_mask (js "79") Hd Hl).
Defined.

(** C9. The formatter is idempotent: formatting an already formatted
    value returns it unchanged, for every input string. *)
Theorem formatPhoneNumber_idempotent (s : jsstring) :
  formatPhoneNumber (formatPhoneNumber s) = formatPhoneNumber s.
Proof.
  rewrite (format_is_mask (formatPhoneNumber s)).
  rewrite (format_is_mask s).
  rewrite (digits_of_mask _ (remove_non_digits_digits s)).
  apply mask_of_significant.
Qed.

End PhoneMaskFacts.

(** ** Field validation *)

Section RegexFacts.

Import Regex.

Lemma test_alt (r s : regex) (w : jsstring) :
  test (Alt r s) w = test r w || test s w.
Proof.
  revert r s. induction w as [|c w IH]; intros r s; simpl; [reflexivity|].
  apply IH.
Qed.

Lemma test_seq_fail (r : regex) (w : jsstring) :
  test (Seq Fail r) w = false.
Proof. induction w as [|c w IH]; simpl; [reflexivity|exact IH]. Qed.

Lemma test_eps_star_class (cl : list class_item) (w : jsstring) :
  test (Seq Eps (Star (Class cl))) w = forallb (class_has cl) w.
Proof.
  induction w as [|c w IH]; simpl; [reflexivity|].
  rewrite test_alt, test_seq_fail. simpl.
  destruct (class_has cl c); [exact IH|apply test_seq_fail].
Qed.

(** [/^[...]+$/] accepts the non-empty strings over the class. *)
Lemma test_plus_class (cl : list class_item) (w : jsstring) :
  test (Plus (Class cl)) w
  = negb (Nat.eqb (length w) 0) && forallb (class_has cl) w.
Proof.
  destruct w as [|c w]; simpl; [reflexivity|].
  destruct (class_has cl c); [apply test_eps_star_class|apply test_seq_fail].
Qed.

End RegexFacts.

Section ValidationFacts.

Import Regex Validation.

Lemma validateField_name (v : jsstring) :
  valid (validateField (js "name") v)
  = (2 <=? length v) && forallb (class_has name_class) v.
Proof.
  unfold validateField.
  change (ValidationRules (js "name")) with (Some name_rule).
  cbn [required minLength pattern name_rule truthy_bool andb message].
  change (negb (2 =? 0)%Z) with true. cbn [andb].
  unfold name_pattern. rewrite test_plus_class.
  destruct (Z.ltb_spec (Z.of_nat (length v)) 2) as [Hlt|Hge];
    destruct (2 <=? length v) eqn:H2;
    try (apply Nat.leb_le in H2; lia);
    try (apply Nat.leb_gt in H2; lia); [reflexivity|].
  destruct (Nat.eqb_spec (length v) 0) as [H0|H0].
  - apply Nat.leb_le in H2; lia.
  - simpl. now destruct (forallb (class_has name_class) v).
Qed.

(** C6, as the code has it.  [validateField('name', v)] is valid exactly
    when [v] is non-empty, has at least two code units and consists only
    of the characters of [[а-яА-ЯёЁa-zA-Z\s-]]: the Russian letters
    U+0410 to U+044F, U+0401 and U+0451, the Latin letters, whitespace
    and the hyphen.  ['A'] is invalid and ['Anna Li'] is valid. *)
Theorem validateField_name_russian_latin :
  (forall v : jsstring,
      valid (validateField (js "name") v) = true
      <-> v <> [] /\ 2 <= length v
          /\ Forall (fun c => class_has name_class c = true) v)
  /\ valid (validateField (js "name") (js "A")) = false
  /\ valid (validateField (js "name") (js "Anna Li")) = true.
Proof.
  split; [|split; reflexivity].
  intros v. rewrite validateField_name, andb_true_iff, forallb_forall.
  rewrite Nat.leb_le, Forall_forall. split.
  - intros [Hl Hc]. repeat split; try assumption.
    intros ->. simpl in Hl. lia.
  - intros (_ & Hl & Hc). now split.
Qed.

Lemma validateField_name_russian_latin_witness :
  valid (validateField (js "name") (js "Яна")) = true.
Proof.
  apply (proj2 (proj1 validateField_name_russian_latin (js "Яна"))).
  split; [discriminate|]. split; [simpl; lia|].
  repeat constructor.
Defined.

(** C6, as stated, fails: the Ukrainian letter U+0456 lies in the
    Cyrillic block U+0400 to U+04FF, so the stated rule accepts the
    two-letter name made of it, and the code rejects it. *)
Lemma validateField_name_cyrillic_block_fails :
  ~ (valid (validateField (js "name") [1110%Z; 1110%Z]) = true
     <-> spec_name_valid [1110%Z; 1110%Z] = true).
Proof. intros [_ H]. specialize (H eq_refl). discriminate H. Qed.

End ValidationFacts.

(** ** CRM integration *)

Section CrmFacts.

Import Json Effects Validation Page.
Local Open Scope monad_scope.

Variable Env : Type.
Variable B : browser Env.

Lemma retry_loop_throw {A} (fn : M (world Env) A) attempts delay n i w w' e :
  fn w = (w', Throw e) ->
  retry_loop B fn attempts delay (S n) i w
  = if (i =? attempts - 1)%Z then (w', Throw e)
    else retry_loop B fn attempts delay n (i + 1)%Z
                    (after_wait B (delay * 2 ^ i) w').
Proof.
  intros H. cbn [retry_loop]. unfold try_catch, bind at 1. rewrite H.
  destruct (i =? attempts - 1)%Z; reflexivity.
Qed.

(** C2. With [attempts = 3] and [delay = 1000] a function that always
    throws is invoked exactly three times: on the initial world, on the
    world after a wait of 1000 ms, and on the world after a further wait
    of 2000 ms ([delay * 2^i] after the failed attempt [i]); nothing is
    awaited after the third attempt, whose error is the one thrown to
    the caller.  When the function leaves the timer log alone, the timers
    awaited are exactly 1000 and 2000. *)
Theorem retryWithBackoff_three_attempts
        {A} (fn : M (world Env) A) (w0 : world Env) :
  always_throws fn ->
  exists w1 e1 w2 e2 w3 e3,
    fn w0 = (w1, Throw e1)
    /\ fn (after_wait B 1000 w1) = (w2, Throw e2)
    /\ fn (after_wait B 2000 w2) = (w3, Throw e3)
    /\ retryWithBackoff B fn 3 1000 w0 = (w3, Throw e3)
    /\ ((forall w, waited (fst (fn w)) = waited w) ->
        waited w3 = waited w0 ++ [1000; 2000]%Z).
Proof.
  intros Hfn.
  destruct (Hfn w0) as (w1 & e1 & H1).
  destruct (Hfn (after_wait B 1000 w1)) as (w2 & e2 & H2).
  destruct (Hfn (after_wait B 2000 w2)) as (w3 & e3 & H3).
  exists w1, e1, w2, e2, w3, e3. repeat split; try assumption.
  - unfold retryWithBackoff. change (Z.to_nat 3) with 3%nat.
    erewrite retry_loop_throw by exact H1.
    change (0 =? 3 - 1)%Z with false. cbv iota.
    erewrite retry_loop_throw by exact H2.
    change (0 + 1 =? 3 - 1)%Z with false. cbv iota.
    erewrite retry_loop_throw by exact H3.
    reflexivity.
  - intros Hlog.
    pose proof (Hlog w0) as L1. rewrite H1 in L1.
    pose proof (Hlog (after_wait B 1000 w1)) as L2. rewrite H2 in L2.
    pose proof (Hlog (after_wait B 2000 w2)) as L3. rewrite H3 in L3.
    simpl in L1, L2, L3. rewrite L3, L2, L1, <- app_assoc. reflexivity.
Qed.

Lemma encodeURIComponent_error (s : jsstring) (e : exn) :
  encodeURIComponent s = Throw e -> e = URIError.
Proof.
  remember (length s) as n eqn:Hn.
  revert s Hn e. induction n as [n IH] using lt_wf_ind.
  intros [|c rest] Hn e; simpl; [discriminate|].
  assert (Hrest : forall e', encodeURIComponent rest = Throw e' ->
                             e' = URIError).
  { intros e'. apply (IH (length rest)); [subst n; simpl; lia|reflexivity]. }
  destruct (is_unreserved c).
  - destruct (encodeURIComponent rest) eqn:E; [discriminate|].
    intros H; injection H as <-. now apply Hrest.
  - destruct (is_low_surrogate c); [intros H; now injection H|].
    destruct (is_high_surrogate c).
    + destruct rest as [|c2 rest2]; [intros H; now injection H|].
      destruct (is_low_surrogate c2); [|intros H; now injection H].
      destruct (encodeURIComponent rest2) eqn:E; [discriminate|].
      intros H; injection H as <-.
      apply (IH (length rest2)) with (s := rest2);
        [subst n; simpl; lia|reflexivity|exact E].
    + destruct (encodeURIComponent rest) eqn:E; [discriminate|].
      intros H; injection H as <-. now apply Hrest.
Qed.

(** The email tier changes nothing outside or inside the page: it
    returns its success object, or fails with the [URIError] of
    [encodeURIComponent]. *)
Lemma sendViaEmail_cases (fd : FormData) (u : utm_params) (d : device_info)
      (w : world Env) :
  exists o, sendViaEmail B fd u d w = (w, o)
            /\ match o with
               | Ret r => success r = true
                          /\ method r = js "email_fallback"
               | Throw e => e = URIError
               end.
Proof.
  unfold sendViaEmail. cbv zeta.
  unfold bind at 1. unfold read at 1.
  unfold bind at 1. unfold lift at 1.
  match goal with
  | |- context [encodeURIComponent ?x] =>
    destruct (encodeURIComponent x) as [subject|e1] eqn:E1
  end.
  2:{ exists (Throw e1). split; [reflexivity|].
      now apply encodeURIComponent_error in E1. }
  unfold bind at 1. unfold lift at 1.
  match goal with
  | |- context [match encodeURIComponent ?x with _ => _ end] =>
    destruct (encodeURIComponent x) as [body|e2] eqn:E2
  end.
  2:{ exists (Throw e2). split; [reflexivity|].
      now apply encodeURIComponent_error in E2. }
  eexists (Ret _). split; [reflexivity|]. split; reflexivity.
Qed.

(** What the [catch] block of [createLead] does from the world [w]. *)
Lemma createLead_fallback (fd : FormData) (u : utm_params) (d : device_info)
      (w : world Env) :
  exists o,
    try_catch
      (emailResult <- sendViaEmail B fd u d ;;
       ret {| success := true;
              method := js "email_fallback";
              result_message :=
                js "Заявка отправлена на email (Bitrix24 недоступен)";
              warning := Some fallback_warning;
              leadId := None |})
      (fun _ => throw generic_failure) w = (w, o)
    /\ match o with
       | Ret r => success r = true /\ method r = js "email_fallback"
                  /\ warning r <> None /\ leadId r = None
       | Throw e => e = generic_failure
       end.
Proof.
  unfold try_catch, bind.
  destruct (sendViaEmail_cases fd u d w) as ([r|e] & -> & H).
  - eexists (Ret _). split; [reflexivity|].
    repeat split; [discriminate].
  - exists (Throw generic_failure). split; reflexivity.
Qed.

Lemma createLead_cases (fd : FormData) (w : world Env) :
  exists w' o,
    createLead B fd w = (w', o)
    /\ match o with
       | Ret r =>
         success r = true
         /\ ((method r = js "bitrix24" /\ leadId r <> None)
             \/ (method r = js "email_fallback" /\ warning r <> None))
       | Throw e => e = generic_failure
       end.
Proof.
  unfold createLead, getUTMParams, getDeviceInfo.
  unfold bind at 1, read at 1. unfold bind at 1, read at 1. cbv zeta.
  unfold try_catch at 1. unfold bind at 1, read at 1. unfold bind at 1.
  match goal with
  | |- context [retryWithBackoff B ?fn ?a ?dl w] =>
    destruct (retryWithBackoff B fn a dl w) as [w1 [res|e]]
  end.
  - unfold bind at 1, lift at 1.
    destruct (member res (js "result")) as [lead|e].
    + eexists _, (Ret _). split; [reflexivity|].
      split; [reflexivity|left; split; [reflexivity|discriminate]].
    + match goal with
      | |- context [sendViaEmail B fd ?u ?d] =>
        destruct (createLead_fallback fd u d w1) as ([r|e'] & Hrun & Ho)
      end.
      * eexists _, (Ret r). split; [exact Hrun|].
        destruct Ho as (Hs & Hm & Hw & _). auto.
      * eexists _, (Throw e'). split; [exact Hrun|exact Ho].
  - match goal with
    | |- context [sendViaEmail B fd ?u ?d] =>
      destruct (createLead_fallback fd u d w1) as ([r|e'] & Hrun & Ho)
    end.
    + eexists _, (Ret r). split; [exact Hrun|].
      destruct Ho as (Hs & Hm & Hw & _). auto.
    + eexists _, (Throw e'). split; [exact Hrun|exact Ho].
Qed.

(** C10, as the code has it.  For every form data [createLead] either
    returns a result whose [success] is true (method ['bitrix24'] with
    a [leadId] member, or ['email_fallback'] with a warning) or throws
    its generic error; it never returns a result whose [success] is
    false.  The email tier asks nothing of the outside and returns
    success unless [encodeURIComponent] rejects the subject or the body
    with a [URIError]. *)
Theorem createLead_success_or_throws (fd : FormData) (w : world Env) :
  (exists w' o,
      createLead B fd w = (w', o)
      /\ match o with
         | Ret r =>
           success r = true
           /\ ((method r = js "bitrix24" /\ leadId r <> None)
               \/ (method r = js "email_fallback" /\ warning r <> None))
         | Throw e => e = generic_failure
         end)
  /\ (forall u d w1,
         exists o, sendViaEmail B fd u d w1 = (w1, o)
                   /\ match o with
                      | Ret r => success r = true
                      | Throw e => e = URIError
                      end).
Proof.
  split; [apply createLead_cases|].
  intros u d w1.
  destruct (sendViaEmail_cases fd u d w1) as ([r|e] & Hrun & H);
    eexists; (split; [exact Hrun|]); [apply H|exact H].
Qed.

(** *** The tiers leave the user interface alone *)

Lemma keeps_ret {A} (a : A) : keeps_ui (@ret (world Env) A a).
Proof. intros w; reflexivity. Qed.

Lemma keeps_throw {A} (e : exn) : keeps_ui (@throw (world Env) A e).
Proof. intros w; reflexivity. Qed.

Lemma keeps_read {A} (f : world Env -> A) : keeps_ui (read f).
Proof. intros w; reflexivity. Qed.

Lemma keeps_lift {A} (o : outcome A) : keeps_ui (@lift (world Env) A o).
Proof. intros w; reflexivity. Qed.

Lemma keeps_sleep (ms : Z) : keeps_ui (sleep B ms).
Proof. intros w; reflexivity. Qed.

Lemma keeps_ask {A} (f : Env -> Env * outcome A) : keeps_ui (ask f).
Proof. intros w; unfold ask. now destruct (f (env w)). Qed.

Lemma keeps_bind {A C} (c : M (world Env) A) (k : A -> M (world Env) C) :
  keeps_ui c -> (forall a, keeps_ui (k a)) -> keeps_ui (bind c k).
Proof.
  intros Hc Hk w. unfold bind. specialize (Hc w).
  destruct (c w) as [w1 [a|e]]; simpl in *; [|exact Hc].
  now rewrite Hk.
Qed.

Lemma keeps_try {A} (c : M (world Env) A) (h : exn -> M (world Env) A) :
  keeps_ui c -> (forall e, keeps_ui (h e)) -> keeps_ui (try_catch c h).
Proof.
  intros Hc Hh w. unfold try_catch. specialize (Hc w).
  destruct (c w) as [w1 [a|e]]; simpl in *; [exact Hc|].
  now rewrite Hh.
Qed.

Create HintDb frame.
#[local] Hint Resolve keeps_ret keeps_throw keeps_read keeps_lift keeps_sleep
     keeps_ask : frame.

Ltac frame :=
  repeat first
         [ solve [auto with frame]
         | match goal with |- forall _, keeps_ui _ => intro end
         | apply keeps_bind
         | apply keeps_try
         | match goal with
           | |- keeps_ui (if ?b then _ else _) => destruct b
           | |- keeps_ui (match ?x with _ => _ end) => destruct x
           end ].

Lemma keeps_sendToBitrix24 (p : lead_payload) :
  keeps_ui (sendToBitrix24 B p).
Proof. unfold sendToBitrix24. frame. Qed.

#[local] Hint Resolve keeps_sendToBitrix24 : frame.

Lemma keeps_retry_loop {A} (fn : M (world Env) A) attempts delay n :
  keeps_ui fn -> forall i, keeps_ui (retry_loop B fn attempts delay n i).
Proof.
  intros Hfn. induction n as [|n IH]; intros i; cbn [retry_loop].
  - apply keeps_ret.
  - apply keeps_try; [frame; exact Hfn|].
    intros e. cbv zeta. destruct (i =? attempts - 1)%Z; frame.
Qed.

Lemma keeps_sendViaEmail fd u d : keeps_ui (sendViaEmail B fd u d).
Proof.
  intros w. destruct (sendViaEmail_cases fd u d w) as (o & -> & _).
  reflexivity.
Qed.

#[local] Hint Resolve keeps_retry_loop keeps_sendViaEmail : frame.

Lemma keeps_createLead (fd : FormData) : keeps_ui (createLead B fd).
Proof.
  unfold createLead, getUTMParams, getDeviceInfo, retryWithBackoff.
  frame.
Qed.

#[local] Hint Resolve keeps_createLead : frame.

Lemma keeps_submit_tiers (fd : FormData) : keeps_ui (submit_tiers B fd).
Proof. unfold submit_tiers. frame. Qed.

(** *** The email fallback, end to end *)





Lemma setFormState_state (s : FormState) (u : ui_state) :
  currentFormState (setFormState s u) = s.
Proof. unfold setFormState. simpl. now destruct (submitButton u). Qed.

Lemma setFormState_timers (s : FormState) (u : ui_state) :
  timers (setFormState s u) = timers u.
Proof. unfold setFormState. simpl. now destruct (submitButton u). Qed.

Lemma submit_prologue_valid (fd : FormData) (u : ui_state) :
  error_count (validateForm fd) = 0 ->
  exists u', submit_prologue fd u = (u', true) /\ timers u' = timers u.
Proof.
  intros Hvalid. unfold submit_prologue. rewrite Hvalid.
  cbn [Nat.ltb Nat.leb]. eexists. split; [reflexivity|].
  now rewrite setFormState_timers, setFormState_timers.
Qed.




(** What the two places that fall back to the CRM module return. *)
Lemma crm_or_rethrow (fd : FormData) (x : exn) (w w' : world Env)
      (r : SubmissionResult) :
  (if createLead_defined B then createLead B fd else throw x) w
  = (w', Ret r) ->
  success r = true
  /\ ((method r = js "bitrix24" /\ leadId r <> None)
      \/ (method r = js "email_fallback" /\ warning r <> None)).
Proof.
  destruct (createLead_defined B); [|discriminate].
  destruct (createLead_cases fd w) as (w1 & o & -> & Ho).
  intros H; injection H as <- ->. exact Ho.
Qed.

(** C7, as the code has it.  Every result the submission tiers produce
    has its [method] among ["gas"], ["bitrix24"], ["email_fallback"] and
    ["mock"] (and reports success). *)
Theorem submit_tiers_method (fd : FormData) (w w' : world Env)
        (r : SubmissionResult) :
  submit_tiers B fd w = (w', Ret r) ->
  In (method r)
     [js "gas"; js "bitrix24"; js "email_fallback"; js "mock"]
  /\ success r = true.
Proof.
  assert (Hcrm : forall x w1,
             (if createLead_defined B then createLead B fd else throw x) w1
             = (w', Ret r) ->
             In (method r)
                [js "gas"; js "bitrix24"; js "email_fallback"; js "mock"]
             /\ success r = true).
  { intros x w1 H. apply crm_or_rethrow in H.
    destruct H as (Hs & [(Hm & _)|(Hm & _)]); rewrite Hm; simpl; auto 10. }
  unfold submit_tiers. destruct (GAS_API B) as [call|].
  - unfold try_catch, bind at 1, ask.
    destruct (call fd (env w)) as [e [gasData|x]]; [|apply Hcrm].
    unfold bind at 1, lift at 1.
    destruct (member gasData (js "success")) as [ok|x]; [|apply Hcrm].
    destruct (truthy ok).
    + intros H; injection H as <- <-. simpl; auto 10.
    + unfold bind, lift.
      destruct (member gasData (js "error")) as [err|x]; apply Hcrm.
  - destruct (createLead_defined B) eqn:Hd.
    + intros H. exact (Hcrm TypeError w H).
    + intros H; injection H as <- <-. simpl; auto 10.
Qed.

End CrmFacts.


(** ** The CRM integration on concrete pages *)

Section CrmScenarios.

Import Json Effects Validation Page Scenario.

Lemma failing_request_throws : always_throws failing_request.
Proof. intros w. eexists _, _. reflexivity. Qed.

Lemma retryWithBackoff_three_attempts_witness :
  exists w3 e3,
    retryWithBackoff offline failing_request 3 1000 fresh = (w3, Throw e3)
    /\ waited w3 = [1000; 2000]%Z.
Proof.
  destruct (retryWithBackoff_three_attempts nat offline failing_request fresh
                                            failing_request_throws)
    as (w1 & e1 & w2 & e2 & w3 & e3 & _ & _ & _ & Hrun & Hlog).
  exists w3, e3. split; [exact Hrun|].
  apply Hlog. intros w. reflexivity.
Defined.




Lemma submit_tiers_method_witness :
  In (method accepted)
     [js "gas"; js "bitrix24"; js "email_fallback"; js "mock"]
  /\ success accepted = true.
Proof.
  assert (Hrun : submit_tiers online applicant fresh
                 = (with_env 1 fresh, Ret accepted))
    by (vm_compute; reflexivity).
  exact (submit_tiers_method nat online applicant fresh _ accepted Hrun).
Defined.

(** C7, as stated, fails: a form accepted by the primary backend yields
    a result whose method is ["gas"], none of ["primary"], ["crm"],
    ["email_fallback"] and ["mock"]. *)
Lemma submit_tiers_method_not_in_stated_set :
  exists w r,
    submit_tiers online applicant fresh = (w, Ret r)
    /\ ~ In (method r)
            [js "primary"; js "crm"; js "email_fallback"; js "mock"].
Proof.
  exists (with_env 1 fresh), accepted.
  split; [vm_compute; reflexivity|].
  vm_compute. intros [H|[H|[H|[H|[]]]]]; discriminate H.
Qed.

(** C10, as stated, fails in its reason: with half of a surrogate pair
    in the comment the email tier does not return success but throws,
    and [createLead] leaves through the [catch] branch of the email
    fallback with its generic error. *)
Lemma createLead_email_catch_reached :
  sendViaEmail offline applicant_lone_surrogate no_utm linux_firefox fresh
  = (fresh, Throw URIError)
  /\ snd (createLead offline applicant_lone_surrogate fresh)
     = Throw generic_failure.
Proof. split; vm_compute; reflexivity. Qed.

End CrmScenarios.

(** ** The form as a state machine *)

Section FormMachineFacts.

Import Json Effects Validation Page.

Lemma view_setFormState (s : FormState) (u : ui_state) :
  view (setFormState s u)
  = (s, option_map (fun _ => disables s) (submitButton u), timers u).
Proof.
  destruct u as [st [b|] fe sm tm an fo]; destruct s; reflexivity.
Qed.

Lemma view_clearFieldError (k : jsstring) (u : ui_state) :
  view (clearFieldError k u) = view u.
Proof. reflexivity. Qed.

Lemma view_showFieldError (k : jsstring) (t : shown_text) (u : ui_state) :
  view (showFieldError k t u) = view u.
Proof. reflexivity. Qed.

Lemma view_clearAllErrors (u : ui_state) : view (clearAllErrors u) = view u.
Proof. reflexivity. Qed.

(** [displayFormErrors] is the showing of each message, but for the
    focus it asks for. *)
Lemma displayFormErrors_fields (e : form_errors) (u : ui_state) :
  let shown :=
    fold_left (fun u p => showFieldError (fst p) (RuleMessage (snd p)) u)
              (error_entries e) u in
  field_errors (displayFormErrors e u) = field_errors shown
  /\ view (displayFormErrors e u) = view shown
  /\ analytics (displayFormErrors e u) = analytics shown
  /\ success_message (displayFormErrors e u) = success_message shown
  /\ focused (displayFormErrors e u)
     = focused shown ++ map fst (firstn 1 (error_entries e)).
Proof.
  cbv zeta. unfold displayFormErrors.
  destruct (error_entries e) as [|[k m] l].
  - cbn [firstn map]. rewrite app_nil_r. repeat split; reflexivity.
  - repeat split; reflexivity.
Qed.

Lemma view_displayFormErrors (e : form_errors) (u : ui_state) :
  view (displayFormErrors e u) = view u.
Proof.
  destruct (displayFormErrors_fields e u) as (_ & -> & _).
  generalize (error_entries e) as l.
  intros l. revert u. induction l as [|p l IH]; intros u; simpl;
    [reflexivity|].
  now rewrite IH, view_showFieldError.
Qed.

Lemma view_with_success x (u : ui_state) : view (with_success x u) = view u.
Proof. reflexivity. Qed.

Lemma view_with_analytics x (u : ui_state) :
  view (with_analytics x u) = view u.
Proof. reflexivity. Qed.

Lemma view_submit_prologue (fd : FormData) (u : ui_state) :
  view (fst (submit_prologue fd u))
  = (if snd (submit_prologue fd u) then SUBMITTING else ERROR,
     option_map (fun _ => snd (submit_prologue fd u)) (submitButton u),
     timers u).
Proof.
  unfold submit_prologue.
  destruct (0 <? error_count (validateForm fd)); cbn [fst snd];
    rewrite ?view_displayFormErrors, view_setFormState;
    destruct u as [st [b|] fe sm tm an fo]; reflexivity.
Qed.

Lemma view_submit_epilogue (a : bool) (fd : FormData)
      (o : outcome SubmissionResult) (u : ui_state) :
  view (submit_epilogue a fd o u)
  = match o with
    | Ret r =>
      if success r
      then (SUCCESS, option_map (fun _ => true) (submitButton u),
            timers u ++ [(5000%Z, ResetForm)])
      else (ERROR, option_map (fun _ => false) (submitButton u), timers u)
    | Throw _ =>
      (ERROR, option_map (fun _ => false) (submitButton u), timers u)
    end.
Proof.
  unfold submit_epilogue.
  destruct o as [r|e]; [destruct (success r)|]; destruct a;
    destruct u as [st [b|] fe sm tm an fo]; reflexivity.
Qed.

Lemma view_run_timer (task : timer_task) (u : ui_state) :
  view (run_timer task u)
  = (IDLE, option_map (fun _ => false) (submitButton u), timers u).
Proof.
  destruct task. destruct u as [st [b|] fe sm tm an fo]; reflexivity.
Qed.

Lemma at_rest_start (b : button) : at_rest (start (Some b)).
Proof. reflexivity. Qed.

Lemma at_rest_step (a : bool) (m m' : machine) (e : form_event) :
  at_rest m -> step a m e = Some m' -> at_rest m'.
Proof.
  unfold at_rest, step. intros Hm.
  destruct e as [fd|k o|].
  - unfold submit_enabled.
    destruct (submit_prologue fd (page m)) as [u' proceed] eqn:Hp.
    pose proof (view_submit_prologue fd (page m)) as Hv.
    rewrite Hp in Hv. cbn [fst snd] in Hv.
    unfold view in Hm. 
    destruct (submitButton (page m)) as [b|]; cbn [option_map negb] in *;
      [|now destruct (currentFormState (page m))].
    destruct (disabled b); cbn [negb];
      [discriminate|].
    intros H; injection H as <-. cbn [page in_flight]. rewrite Hv.
    destruct (currentFormState (page m)), (timers (page m)); try easy;
      rewrite Hm; destruct proceed; cbn; eauto.
  - destruct (nth_error (in_flight m) k) as [fd|] eqn:Hk; [|discriminate].
    intros H; injection H as <-. cbn [page in_flight].
    rewrite view_submit_epilogue. unfold view in Hm.
    destruct (currentFormState (page m));
      destruct (submitButton (page m)) as [b|]; cbn [option_map] in *;
      try easy;
      destruct (disabled b); try easy;
      destruct (timers (page m)) as [|t1 [|t2 ts]]; try easy;
      try (rewrite Hm in Hk; now destruct k).
    destruct Hm as [fd0 Hm]. rewrite Hm in *.
    destruct k as [|k]; [|now destruct k].
    destruct o as [r|x]; [destruct (success r)|]; reflexivity.
  - destruct (timers (page m)) as [|[ms task] rest] eqn:Ht; [discriminate|].
    intros H; injection H as <-. cbn [page in_flight].
    rewrite view_run_timer. unfold view in Hm. rewrite Ht in Hm.
    cbn [timers with_timers submitButton].
    destruct (currentFormState (page m));
      destruct (submitButton (page m)) as [b|]; cbn [option_map] in *;
      try easy;
      destruct (disabled b); easy.
Qed.

Lemma reachable_at_rest (a : bool) (b : button) (m : machine) :
  reachable a (Some b) m -> at_rest m.
Proof.
  induction 1 as [|m e m' _ IH Hstep];
    [apply at_rest_start|exact (at_rest_step a m m' e IH Hstep)].
Qed.

(** C8, as the code has it.  On a form with its submit button, in every
    state the events of the page can reach: a submit event is only taken when the form
    state is idle or error, and then no earlier attempt is in flight;
    and from the submitting state the only event taken is the settling
    of the attempt in flight, which puts the form into the success or
    the error state, so that no second attempt starts before. *)
Theorem form_state_invariant (a : bool) (b : button) (m : machine) :
  reachable a (Some b) m ->
  (forall fd m',
      step a m (UserSubmit fd) = Some m' ->
      (currentFormState (page m) = IDLE
       \/ currentFormState (page m) = ERROR)
      /\ in_flight m = [])
  /\ (currentFormState (page m) = SUBMITTING ->
      forall e m',
        step a m e = Some m' ->
        (exists o, e = AttemptSettles 0 o)
        /\ (currentFormState (page m') = SUCCESS
            \/ currentFormState (page m') = ERROR)
        /\ in_flight m' = []).
Proof.
  intros Hreach. pose proof (reachable_at_rest a b m Hreach) as Hm.
  unfold at_rest, view in Hm. split.
  - intros fd m'. unfold step, submit_enabled.
    destruct (submitButton (page m)) as [b1|]; cbn [option_map] in Hm;
      [|now destruct (currentFormState (page m))].
    destruct (disabled b1); [discriminate|]. intros _.
    destruct (currentFormState (page m)); try easy;
      destruct (timers (page m)); try easy; auto.
  - intros Hs e m' Hstep. rewrite Hs in Hm.
    destruct (submitButton (page m)) as [b1|] eqn:Hb; cbn [option_map] in Hm;
      [|easy].
    destruct (disabled b1) eqn:Hd; [|easy].
    destruct (timers (page m)) eqn:Ht; [|easy].
    destruct Hm as [fd0 Hm].
    destruct e as [fd|k o|]; unfold step in Hstep.
    + unfold submit_enabled in Hstep. now rewrite Hb, Hd in Hstep.
    + rewrite Hm in Hstep. destruct k as [|k]; [|now destruct k].
      cbn [nth_error remove_nth] in Hstep. injection Hstep as <-.
      split; [now exists o|]. cbn [page in_flight].
      split; [|reflexivity].
      change (currentFormState (submit_epilogue a fd0 o (page m)))
        with (fst (fst (view (submit_epilogue a fd0 o (page m))))).
      rewrite view_submit_epilogue.
      destruct o as [r|x]; [destruct (success r)|]; cbn [fst]; auto.
    + now rewrite Ht in Hstep.
Qed.

End FormMachineFacts.

Section FormScenarios.

Import Json Effects Validation Page Scenario.

Lemma form_state_invariant_witness :
  (currentFormState (page (start (Some idle_button))) = IDLE
   \/ currentFormState (page (start (Some idle_button))) = ERROR)
  /\ in_flight (start (Some idle_button)) = [].
Proof.
  assert (Hreach : reachable true (Some idle_button) (start (Some idle_button)))
    by apply reach_start.
  assert (Hstep : step true (start (Some idle_button)) (UserSubmit applicant)
                  = Some {| page := fst (submit_prologue
                                          applicant
                                          (page (start (Some idle_button))));
                            in_flight := [applicant] |})
    by (vm_compute; reflexivity).
  exact (proj1 (form_state_invariant true idle_button _ Hreach)
               applicant _ Hstep).
Defined.

(** C8, as stated, fails: on a form without a submit button nothing is
    disabled, so a second submit event is taken while the form state is
    submitting and the first attempt is still in flight; the state goes
    from submitting to submitting with no attempt completed. *)
Lemma double_submit_without_button :
  exists m1 m2,
    reachable true None m1
    /\ currentFormState (page m1) = SUBMITTING
    /\ step true m1 (UserSubmit applicant) = Some m2
    /\ currentFormState (page m2) = SUBMITTING
    /\ in_flight m2 = [applicant; applicant].
Proof.
  destruct (step true (start None) (UserSubmit applicant)) as [m1|] eqn:H1;
    [|vm_compute in H1; discriminate H1].
  destruct (step true m1 (UserSubmit applicant)) as [m2|] eqn:H2;
    [|vm_compute in H1; injection H1 as <-; vm_compute in H2;
      discriminate H2].
  exists m1, m2.
  split; [eapply reach_step; [apply reach_start|exact H1]|].
  vm_compute in H1. injection H1 as <-.
  split; [reflexivity|]. split; [exact H2|].
  vm_compute in H2. injection H2 as <-. split; reflexivity.
Qed.

End FormScenarios.

(** ** Settings integrity and recovery *)

Section IntegrityFacts.

Import Json Effects Blocks.

Lemma str_eqb_eq (a b : jsstring) : str_eqb a b = true <-> a = b.
Proof.
  revert b. induction a as [|x a IH]; intros [|y b]; simpl;
    try (split; [discriminate|discriminate]); [tauto|].
  unfold unit_eqb. rewrite andb_true_iff, Z.eqb_eq, IH.
  split; [intros [-> ->]; reflexivity|intros H; injection H; auto].
Qed.

Lemma ill_structured_spec (v : json) :
  ill_structured v = Ret false <-> well_formed_section v = true.
Proof.
  unfold ill_structured, well_formed_section.
  destruct v as [| | | | |ms]; cbn [member]; try (split; discriminate).
  destruct (truthy (lookup (js "title") ms)); cbn [negb andb];
    [|split; discriminate].
  destruct (lookup (js "enabled") ms) as [[| | | | |]|];
    cbn [typeof js_type_eqb negb andb]; try (split; discriminate).
  destruct (truthy (lookup (js "content") ms)); cbn [negb];
    split; (reflexivity || discriminate).
Qed.

Lemma check_structure_spec (es : list (jsstring * json)) :
  (exists r, check_structure es = Ret r /\ valid r = true)
  <-> forallb (fun e => well_formed_section (snd e)) es = true.
Proof.
  induction es as [|[k v] es IH]; cbn [check_structure forallb snd].
  - split; [reflexivity|]. intros _. now exists accept.
  - rewrite andb_true_iff, <- IH, <- ill_structured_spec.
    destruct (ill_structured v) as [[|]|e].
    + split; [intros (r & H & Hr); injection H as <-; discriminate Hr|].
      intros [H _]; discriminate H.
    + split; [intros H; split; [reflexivity|exact H]|intros [_ H]; exact H].
    + split; [intros (r & H & _); discriminate H|intros [H _]; discriminate H].
Qed.

(** With well formed sections a required name is falsy in the sections
    exactly when no member carries it. *)
Lemma falsy_is_absent (ms : list (jsstring * json)) (k : jsstring) :
  forallb (fun e => well_formed_section (snd e)) ms = true ->
  negb (truthy (lookup k ms)) = absent ms k.
Proof.
  unfold absent. induction ms as [|[k' v] ms IH]; cbn; [reflexivity|].
  rewrite andb_true_iff. intros [Hv Hms].
  destruct (str_eqb k' k); cbn; [|now apply IH].
  now destruct v.
Qed.

Lemma missing_of_object (ms : list (jsstring * json)) (names : list jsstring) :
  missing_of (Some (JObject ms)) names
  = Ret (filter (fun k => negb (truthy (lookup k ms))) names).
Proof.
  induction names as [|k names IH]; cbn [missing_of member filter];
    [reflexivity|].
  rewrite IH. reflexivity.
Qed.

Lemma missing_of_array (items : list json) (names : list jsstring) :
  missing_of (Some (JArray items)) names = Ret names.
Proof.
  induction names as [|k names IH]; cbn [missing_of member];
    [reflexivity|].
  rewrite IH. reflexivity.
Qed.

Lemma filter_ext_eq {A} (f g : A -> bool) (l : list A) :
  (forall a, f a = g a) -> filter f l = filter g l.
Proof.
  intros H. induction l as [|a l IH]; simpl; [reflexivity|].
  now rewrite H, IH.
Qed.

Lemma validateSettingsIntegrity_accepts (settings : json) :
  valid (validateSettingsIntegrity settings) = true
  <-> spec_accepts settings = true.
Proof.
  unfold validateSettingsIntegrity, validate_body, spec_accepts.
  destruct settings as [| | | | |doc]; cbn [member];
    try (split; discriminate).
  destruct (lookup (js "sections") doc) as [[| b | x | str | items | ms]|];
    try (split; discriminate).
  - destruct b; split; discriminate.
  - destruct x; split; discriminate.
  - destruct str; split; discriminate.
  - cbn [truthy typeof js_type_eqb negb orb keys entries].
    destruct (length (map fst (indexed 0 items)) =? 0);
      [split; discriminate|].
    rewrite missing_of_array. split; discriminate.
  - cbn [truthy typeof js_type_eqb negb orb keys entries].
    rewrite length_map, missing_of_object.
    destruct (length ms =? 0); cbn [negb andb]; [split; discriminate|].
    destruct (forallb (fun e => well_formed_section (snd e)) ms) eqn:Hwf.
    + rewrite (filter_ext_eq _ (absent ms) requiredSections
                             (fun k => falsy_is_absent ms k Hwf)).
      cbn [andb]. rewrite Nat.leb_antisym.
      destruct (length requiredSections
                <? 2 * length (filter (absent ms) requiredSections));
        [split; discriminate|].
      apply (proj2 (check_structure_spec ms)) in Hwf.
      destruct Hwf as (r & -> & Hr). now rewrite Hr.
    + cbn [andb]. split; [|discriminate].
      destruct (length requiredSections <? _); [discriminate|].
      destruct (check_structure ms) as [r|e] eqn:Hc; [|discriminate].
      intros Hr. assert (Hex : exists r, check_structure ms = Ret r
                                         /\ valid r = true) by eauto.
      apply check_structure_spec in Hex. congruence.
Qed.

End IntegrityFacts.

Section RecoveryFacts.

Import Json Effects Blocks.

Variable Env : Type.
Variable B : browser Env.

Lemma quiet_ret {A} (a : A) : quiet (@ret (world Env) A a).
Proof. intros w; split; reflexivity. Qed.

Lemma quiet_throw {A} (e : exn) : quiet (@throw (world Env) A e).
Proof. intros w; split; reflexivity. Qed.

Lemma quiet_read {A} (f : world Env -> A) : quiet (read f).
Proof. intros w; split; reflexivity. Qed.

Lemma quiet_lift {A} (o : outcome A) : quiet (@lift (world Env) A o).
Proof. intros w; split; reflexivity. Qed.

Lemma quiet_ask {A} (f : Env -> Env * outcome A) : quiet (ask f).
Proof. intros w; unfold ask. now destruct (f (env w)). Qed.

Lemma quiet_dom (f : page_dom -> page_dom) :
  quiet (update (with_dom (Env := Env) f)).
Proof. intros w; split; reflexivity. Qed.

Lemma quiet_bind {A C} (c : M (world Env) A) (k : A -> M (world Env) C) :
  quiet c -> (forall a, quiet (k a)) -> quiet (bind c k).
Proof.
  intros Hc Hk w. unfold bind. specialize (Hc w).
  destruct (c w) as [w1 [a|e]]; cbn [fst] in *; [|exact Hc].
  destruct (Hk a w1) as [H1 H2]. destruct Hc as [H3 H4].
  split; congruence.
Qed.

Lemma quiet_try {A} (c : M (world Env) A) (h : exn -> M (world Env) A) :
  quiet c -> (forall e, quiet (h e)) -> quiet (try_catch c h).
Proof.
  intros Hc Hh w. unfold try_catch. specialize (Hc w).
  destruct (c w) as [w1 [a|e]]; cbn [fst] in *; [exact Hc|].
  destruct (Hh e w1) as [H1 H2]. destruct Hc as [H3 H4].
  split; congruence.
Qed.

Lemma quiet_for_each {A} (f : A -> M (world Env) unit) (l : list A) :
  (forall a, quiet (f a)) -> quiet (for_each f l).
Proof.
  intros Hf. induction l as [|a l IH]; cbn [for_each].
  - apply quiet_ret.
  - apply quiet_bind; [apply Hf|intros _; exact IH].
Qed.

Create HintDb quiet.
#[local] Hint Resolve quiet_ret quiet_throw quiet_read quiet_lift quiet_ask
     quiet_dom : quiet.

Ltac quiet :=
  repeat first
         [ solve [auto with quiet]
         | match goal with |- forall _, quiet _ => intro end
         | apply quiet_bind
         | apply quiet_try
         | apply quiet_for_each
         | match goal with
           | |- quiet (if ?b then _ else _) => destruct b
           | |- quiet (match ?x with _ => _ end) => destruct x
           end ].

Lemma quiet_showAllSections : quiet (showAllSections (Env := Env)).
Proof. unfold showAllSections. quiet. Qed.

Lemma quiet_applySectionsSettings : quiet (applySectionsSettings B).
Proof. unfold applySectionsSettings, handlePricingInPrograms. quiet. Qed.

(** *** Showing every section *)

Lemma for_each_show (l : list jsstring) (w : world Env) :
  for_each (fun x => update (with_dom (show x))) l w
  = (with_dom (show_list l) w, Ret tt).
Proof.
  revert w. induction l as [|x l IH]; intros w; cbn [for_each].
  - now destruct w.
  - unfold bind, update at 1. rewrite IH. reflexivity.
Qed.

Lemma showAllSections_run (w : world Env) :
  showAllSections w = (with_dom (show_list all_sections) w, Ret tt).
Proof. unfold showAllSections. apply for_each_show. Qed.

Lemma set_display_In (selector value k v : jsstring) (d : page_dom) :
  In (k, v) (set_display selector value d) ->
  (k = selector /\ v = value) \/ (k <> selector /\ In (k, v) d).
Proof.
  unfold set_display. rewrite in_map_iff. intros ([k' v'] & Heq & Hin).
  cbn [fst] in Heq.
  destruct (str_eqb k' selector) eqn:E.
  - apply str_eqb_eq in E. injection Heq as <- <-. now left.
  - injection Heq as <- <-. right. split; [|exact Hin].
    intros ->. rewrite (proj2 (str_eqb_eq selector selector) eq_refl) in E.
    discriminate E.
Qed.

(** One step of [showAllSections] displays the section it names and
    hides nothing. *)
Lemma show_step (selector k v : jsstring) (d : page_dom) :
  In (k, v) (show selector d) ->
  (k = selector /\ v = js "") \/ (k <> selector /\ In (k, v) d).
Proof.
  unfold show.
  destruct (has_element selector d) eqn:E; [apply set_display_In|].
  intros Hin. right. split; [|exact Hin]. intros ->.
  unfold has_element in E.
  assert (Hex : existsb (fun e => str_eqb (fst e) selector) d = true).
  { apply existsb_exists. exists (selector, v). split; [exact Hin|].
    now apply str_eqb_eq. }
  congruence.
Qed.

Lemma show_list_visible (l : list jsstring) (d : page_dom) (k v : jsstring) :
  In (k, v) (show_list l d) ->
  (In k l /\ v = js "") \/ (~ In k l /\ In (k, v) d).
Proof.
  unfold show_list.
  revert d. induction l as [|x l IH]; intros d; cbn [fold_left].
  - intros H. right. split; [intros []|exact H].
  - intros H. apply IH in H. destruct H as [[Hk Hv]|[Hk Hin]].
    + left. split; [now right|exact Hv].
    + apply show_step in Hin. destruct Hin as [[-> ->]|[Hne Hin]].
      * left. split; [now left|reflexivity].
      * right. split; [|exact Hin]. intros [->|H]; [now apply Hne|now apply Hk].
Qed.

Lemma shown_visible (d : page_dom) :
  all_visible (show_list all_sections d).
Proof.
  intros k v Hk Hin.
  destruct (show_list_visible all_sections d k v Hin) as [[_ Hv]|[Hn _]];
    [exact Hv|exact (False_ind _ (Hn Hk))].
Qed.

(** *** Recovery from the default document *)

Lemma saveRecoveredSettings_run (doc : json) (w : world Env) :
  saveRecoveredSettings B doc w = (saved B doc w, Ret tt).
Proof.
  unfold saveRecoveredSettings, saved, try_catch.
  destruct (save_data B) as [call|]; [|reflexivity].
  unfold bind, update, ask, ret. cbn [env with_request].
  destruct (call (js "settings.json") doc (env w)) as [e [[]|x]];
    reflexivity.
Qed.

(** What a save leaves as it was, and what it adds. *)
Lemma saved_frame (doc : json) (w : world Env) :
  requests (saved B doc w) = requests w ++ save_requests B doc
  /\ sectionsSettings (saved B doc w) = sectionsSettings w
  /\ dom (saved B doc w) = dom w.
Proof.
  unfold saved, save_requests.
  destruct (save_data B) as [call|]; cbn; [repeat split|].
  rewrite app_nil_r. repeat split.
Qed.

(** What [recoverFromDefault] does, by the answer to its fetch. *)
Lemma recoverFromDefault_unfold (w : world Env) :
  recoverFromDefault B w
  = let w1 := with_env (fst (fetch_json B (js "data/settings-default.json")
                                        (env w)))
                       (with_request (Fetch (js "data/settings-default.json")) w)
    in
    match snd (fetch_json B (js "data/settings-default.json") (env w)) with
    | Throw _ => showAllSections w1
    | Ret doc =>
      match member (Some doc) (js "sections") with
      | Throw _ => showAllSections w1
      | Ret sections =>
        if truthy sections then
          match keys sections with
          | Throw _ => showAllSections w1
          | Ret ks =>
            if 0 <? length ks then
              match applySectionsSettings
                      B (fst (saveRecoveredSettings
                                B doc (with_settings sections w1))) with
              | (w', Ret a) => (w', Ret a)
              | (w', Throw _) => showAllSections w'
              end
            else showAllSections w1
          end
        else showAllSections w1
      end
    end.
Proof.
  unfold recoverFromDefault, try_catch, fetch.
  unfold bind at 1. unfold bind at 1. unfold update at 1, ask at 1.
  cbn [env with_request]. cbv zeta.
  destruct (fetch_json B (js "data/settings-default.json") (env w))
    as [e1 [doc|x]]; cbn [fst snd]; [|reflexivity].
  unfold bind at 1, lift at 1.
  destruct (member (Some doc) (js "sections")) as [sections|x];
    [|reflexivity].
  unfold bind at 1, lift at 1.
  destruct (truthy sections); cbn [andb].
  - destruct (keys sections) as [ks|x]; [|reflexivity].
    destruct (0 <? length ks).
    + unfold bind at 1, update at 1. unfold bind at 1.
      rewrite saveRecoveredSettings_run. cbn [fst].
      reflexivity.
    + rewrite showAllSections_run. reflexivity.
  - rewrite showAllSections_run. reflexivity.
Qed.

Lemma recoverFromDefault_returns (w : world Env) :
  snd (recoverFromDefault B w) = Ret tt.
Proof.
  rewrite recoverFromDefault_unfold. cbv zeta.
  repeat match goal with
         | |- snd (showAllSections ?x) = _ =>
           rewrite showAllSections_run; reflexivity
         | |- snd (match ?x with _ => _ end) = _ => destruct x
         | |- snd (if ?x then _ else _) = _ => destruct x
         | |- snd (_, Ret ?a) = _ => destruct a; reflexivity
         end.
Qed.

Lemma loadSectionsSettings_unfold (w : world Env) :
  loadSectionsSettings B w
  = let w1 := with_env (fst (fetch_json B (js "data/settings.json") (env w)))
                       (with_request (Fetch (js "data/settings.json")) w)
    in
    match snd (fetch_json B (js "data/settings.json") (env w)) with
    | Throw _ => recoverFromDefault B w1
    | Ret settings =>
      if negb (valid (validateSettingsIntegrity settings))
      then recoverFromDefault B w1
      else
        match member (Some settings) (js "sections") with
        | Throw _ => recoverFromDefault B w1
        | Ret sections =>
          match applySectionsSettings B (with_settings sections w1) with
          | (w', Ret a) => (w', Ret a)
          | (w', Throw _) => recoverFromDefault B w'
          end
        end
    end.
Proof.
  unfold loadSectionsSettings, try_catch, fetch.
  unfold bind at 1. unfold bind at 1. unfold update at 1, ask at 1.
  cbn [env with_request]. cbv zeta.
  destruct (fetch_json B (js "data/settings.json") (env w))
    as [e1 [settings|x]]; cbn [fst snd]; [|reflexivity].
  destruct (negb (valid (validateSettingsIntegrity settings))).
  - pose proof (recoverFromDefault_returns
                  (with_env e1 (with_request (Fetch (js "data/settings.json")) w)))
      as Hr.
    destruct (recoverFromDefault B _) as [w2 [a|x]]; [reflexivity|].
    discriminate Hr.
  - unfold bind at 1, lift at 1.
    destruct (member (Some settings) (js "sections")) as [sections|x];
      [|reflexivity].
    unfold bind at 1, update at 1. reflexivity.
Qed.

Lemma recoverFromDefault_requests (w : world Env) :
  exists rest,
    requests (fst (recoverFromDefault B w))
    = requests w ++ Fetch (js "data/settings-default.json") :: rest.
Proof.
  rewrite recoverFromDefault_unfold. cbv zeta.
  set (w1 := with_env _ (with_request _ w)).
  assert (Hshow : exists rest,
             requests (fst (showAllSections w1))
             = requests w ++ Fetch (js "data/settings-default.json") :: rest).
  { exists []. rewrite showAllSections_run. reflexivity. }
  destruct (snd (fetch_json B _ (env w))) as [doc|x]; [|exact Hshow].
  destruct (member (Some doc) (js "sections")) as [sections|x]; [|exact Hshow].
  destruct (truthy sections); [|exact Hshow].
  destruct (keys sections) as [ks|x]; [|exact Hshow].
  destruct (0 <? length ks); [|exact Hshow].
  rewrite saveRecoveredSettings_run. cbn [fst].
  exists (save_requests B doc).
  destruct (saved_frame doc (with_settings sections w1)) as (Hsaved & _).
  match goal with
  | |- context [applySectionsSettings B ?x] =>
    pose proof (proj1 (quiet_applySectionsSettings x)) as Hq;
      destruct (applySectionsSettings B x) as [w' [a|e]]
  end; cbn [fst] in *.
  - rewrite Hq, Hsaved. subst w1.
    cbn [requests with_env with_request with_settings].
    now rewrite <- app_assoc.
  - rewrite showAllSections_run. cbn [fst requests with_dom].
    rewrite Hq, Hsaved.
    subst w1. cbn [requests with_env with_request with_settings].
    now rewrite <- app_assoc.
Qed.

Lemma spec_rejects (settings : json) :
  lacks_sections settings = true \/ most_required_absent settings = true ->
  spec_accepts settings = false.
Proof.
  unfold lacks_sections, most_required_absent, spec_accepts.
  destruct settings as [| | | | |doc]; try reflexivity.
  destruct (lookup (js "sections") doc) as [[| | | | |ms]|];
    try reflexivity; intros [H|H]; try discriminate H.
  rewrite Nat.leb_antisym, H. cbn [negb]. now rewrite andb_false_r.
Qed.

Lemma integrity_rejects (settings : json) :
  lacks_sections settings = true \/ most_required_absent settings = true ->
  valid (validateSettingsIntegrity settings) = false.
Proof.
  intros H. apply spec_rejects in H.
  destruct (valid (validateSettingsIntegrity settings)) eqn:E; [|reflexivity].
  apply validateSettingsIntegrity_accepts in E. congruence.
Qed.

Lemma load_rejected (w : world Env) :
  match snd (fetch_json B (js "data/settings.json") (env w)) with
  | Throw _ => True
  | Ret settings => valid (validateSettingsIntegrity settings) = false
  end ->
  loadSectionsSettings B w
  = recoverFromDefault
      B (with_env (fst (fetch_json B (js "data/settings.json") (env w)))
                  (with_request (Fetch (js "data/settings.json")) w))
  /\ exists rest,
      requests (fst (loadSectionsSettings B w))
      = requests w ++ [Fetch (js "data/settings.json");
                       Fetch (js "data/settings-default.json")] ++ rest.
Proof.
  intros H. rewrite loadSectionsSettings_unfold. cbv zeta.
  set (w1 := with_env _ (with_request _ w)).
  assert (Heq : match snd (fetch_json B (js "data/settings.json") (env w)) with
                | Throw _ => recoverFromDefault B w1
                | Ret settings =>
                  if negb (valid (validateSettingsIntegrity settings))
                  then recoverFromDefault B w1
                  else
                    match member (Some settings) (js "sections") with
                    | Throw _ => recoverFromDefault B w1
                    | Ret sections =>
                      match applySectionsSettings
                              B (with_settings sections w1) with
                      | (w', Ret a) => (w', Ret a)
                      | (w', Throw _) => recoverFromDefault B w'
                      end
                    end
                end = recoverFromDefault B w1).
  { destruct (snd (fetch_json B (js "data/settings.json") (env w)))
      as [settings|x]; [|reflexivity].
    now rewrite H. }
  rewrite Heq. split; [reflexivity|].
  destruct (recoverFromDefault_requests w1) as (rest & ->).
  exists rest. subst w1. cbn [requests with_env with_request].
  now rewrite <- app_assoc.
Qed.

Lemma nonempty_mapping_sections (doc : json) (sections : jsval) :
  nonempty_mapping doc = Some sections ->
  member (Some doc) (js "sections") = Ret sections
  /\ truthy sections = true
  /\ exists ks, keys sections = Ret ks /\ (0 <? length ks) = true.
Proof.
  unfold nonempty_mapping.
  destruct doc as [| | | | |ms]; try discriminate.
  cbn [member].
  destruct (lookup (js "sections") ms) as [[| | | | |[|m rest]]|];
    try discriminate.
  intros H; injection H as <-. repeat split.
  eexists. split; reflexivity.
Qed.

Lemma empty_default_shows (doc : json) (w1 : world Env) :
  empty_default doc = true ->
  match member (Some doc) (js "sections") with
  | Throw _ => showAllSections w1
  | Ret sections =>
    if truthy sections then
      match keys sections with
      | Throw _ => showAllSections w1
      | Ret ks =>
        if 0 <? length ks then
          match applySectionsSettings
                  B (fst (saveRecoveredSettings
                            B doc (with_settings sections w1))) with
          | (w', Ret a) => (w', Ret a)
          | (w', Throw _) => showAllSections w'
          end
        else showAllSections w1
      end
    else showAllSections w1
  end = showAllSections w1.
Proof.
  unfold empty_default.
  destruct doc as [| | | | |ms]; try reflexivity.
  cbn [member].
  destruct (lookup (js "sections") ms)
    as [[|b|x|[|c str]|[|item items]|[|m rest]]|];
    try discriminate; try reflexivity.
  - now destruct b.
  - now destruct x.
Qed.

(** Every other default document has sections with an entry, which is
    what [recoverFromDefault] tests for. *)
Lemma usable_default_sections (doc : json) :
  empty_default doc = false ->
  exists sections ks,
    member (Some doc) (js "sections") = Ret sections
    /\ truthy sections = true
    /\ keys sections = Ret ks /\ (0 <? length ks) = true.
Proof.
  unfold empty_default.
  destruct doc as [| | | | |ms]; try discriminate.
  cbn [member].
  destruct (lookup (js "sections") ms)
    as [[|b|x|[|c str]|[|item items]|[|m rest]]|];
    try discriminate; intros _; eexists _, _;
    (split; [reflexivity|]); (split; [reflexivity|]);
    (split; [reflexivity|]); reflexivity.
Qed.

End RecoveryFacts.

(** * Further properties of the code *)

(** ** Regular expressions *)

Section RegexSemantics.

Import Regex.

Lemma test_fail (w : jsstring) : test Fail w = false.
Proof. induction w as [|c w IH]; [reflexivity|exact IH]. Qed.

Lemma test_eps (w : jsstring) : test Eps w = true <-> w = [].
Proof.
  destruct w as [|c w]; simpl; [tauto|].
  rewrite test_fail. split; discriminate.
Qed.

(** A sequence matches the strings that split into a match of each
    part. *)
Lemma test_seq (r s : regex) (w : jsstring) :
  test (Seq r s) w = true
  <-> exists u v, w = u ++ v /\ test r u = true /\ test s v = true.
Proof.
  revert r s. induction w as [|c w IH]; intros r s.
  - simpl. rewrite andb_true_iff. split.
    + intros [Hr Hs]. now exists [], [].
    + intros (u & v & Hw & Hr & Hs).
      symmetry in Hw. apply app_eq_nil in Hw. destruct Hw as [-> ->]. auto.
  - cbn [test deriv].
    assert (Hleft : test (Seq (deriv c r) s) w = true
                    <-> exists u v, c :: w = (c :: u) ++ v
                                    /\ test r (c :: u) = true
                                    /\ test s v = true).
    { rewrite IH. split; intros (u & v & Hw & Hr & Hs); exists u, v.
      - subst w. auto.
      - injection Hw as ->. auto. }
    destruct (nullable r) eqn:Hn.
    + rewrite test_alt, orb_true_iff, Hleft. split.
      * intros [(u & v & Hw & Hr & Hs)|Hs]; [now exists (c :: u), v|].
        exists [], (c :: w). auto.
      * intros ([|c' u] & v & Hw & Hr & Hs).
        -- right. simpl in Hw. now subst v.
        -- left. simpl in Hw. injection Hw as <- ->. now exists u, v.
    + rewrite Hleft. split.
      * intros (u & v & Hw & Hr & Hs). now exists (c :: u), v.
      * intros ([|c' u] & v & Hw & Hr & Hs).
        -- simpl in Hr. congruence.
        -- simpl in Hw. injection Hw as <- ->. now exists u, v.
Qed.

Lemma test_class (cl : list class_item) (w : jsstring) :
  test (Class cl) w = true <-> exists c, w = [c] /\ class_has cl c = true.
Proof.
  destruct w as [|c w]; simpl.
  - split; [discriminate|]. intros (c & H & _). discriminate H.
  - destruct (class_has cl c) eqn:Hc.
    + rewrite test_eps. split.
      * intros ->. now exists c.
      * intros (c' & H & _). now injection H.
    + rewrite test_fail. split; [discriminate|].
      intros (c' & H & Hc'). injection H as -> ->. congruence.
Qed.

Lemma test_lit (k : code_unit) (w : jsstring) :
  test (Lit k) w = true <-> w = [k].
Proof.
  unfold Lit. rewrite test_class. split.
  - intros (c & -> & Hc). simpl in Hc. rewrite orb_false_r in Hc.
    apply Z.eqb_eq in Hc. now subst.
  - intros ->. exists k. split; [reflexivity|].
    simpl. unfold unit_eqb. now rewrite Z.eqb_refl.
Qed.

(** [[...]{n}] matches the strings of [n] characters of the class. *)
Lemma test_times_class (cl : list class_item) (n : nat) (w : jsstring) :
  test (Times n (Class cl)) w = true
  <-> length w = n /\ Forall (fun c => class_has cl c = true) w.
Proof.
  revert w. induction n as [|n IH]; intros w; cbn [Times].
  - rewrite test_eps. split.
    + intros ->. split; [reflexivity|constructor].
    + intros [H _]. now apply length_zero_iff_nil.
  - rewrite test_seq. split.
    + intros (u & v & -> & Hu & Hv).
      apply test_class in Hu. destruct Hu as (c & -> & Hc).
      apply IH in Hv. destruct Hv as [Hl Hf].
      split; [simpl; now rewrite Hl|now constructor].
    + intros [Hl Hf]. destruct w as [|c w]; [discriminate|].
      inversion Hf; subst. exists [c], w. split; [reflexivity|].
      split; [apply test_class; now exists c|].
      apply IH. split; [now injection Hl|assumption].
Qed.

End RegexSemantics.

(** ** The phone field *)

Section PhoneFieldFacts.

Import Regex Validation PhoneMask PhoneField.

Lemma test_lit_seq (k : code_unit) (r : regex) (w : jsstring) :
  test (Seq (Lit k) r) w = true <-> exists v, w = k :: v /\ test r v = true.
Proof.
  rewrite test_seq. split.
  - intros (u & v & -> & Hu & Hv). apply test_lit in Hu. subst u.
    now exists v.
  - intros (v & -> & Hv). exists [k], v.
    split; [reflexivity|]. split; [now apply test_lit|exact Hv].
Qed.

Lemma digit_class (w : jsstring) :
  Forall (fun c => class_has [Digit] c = true) w <-> all_digits w.
Proof.
  unfold all_digits. split; intros H; induction H; constructor; auto;
    simpl in *; [now rewrite orb_false_r in H|now rewrite orb_false_r].
Qed.

Lemma test_digits (n : nat) (w : jsstring) :
  test (Times n (Class [Digit])) w = true <-> length w = n /\ all_digits w.
Proof. now rewrite test_times_class, digit_class. Qed.

Lemma test_digits_seq (n : nat) (r : regex) (w : jsstring) :
  test (Seq (Times n (Class [Digit])) r) w = true
  <-> exists a v, w = a ++ v /\ length a = n /\ all_digits a
                  /\ test r v = true.
Proof.
  rewrite test_seq. split.
  - intros (u & v & -> & Hu & Hv). apply test_digits in Hu.
    exists u, v. tauto.
  - intros (a & v & -> & Hl & Ha & Hv). exists a, v.
    split; [reflexivity|]. split; [now apply test_digits|exact Hv].
Qed.

Lemma validateField_phone (v : jsstring) :
  valid (validateField (js "phone") v) = test phone_pattern v.
Proof.
  unfold validateField.
  change (ValidationRules (js "phone")) with (Some phone_rule).
  cbn [required minLength pattern phone_rule truthy_bool andb].
  now destruct (test phone_pattern v).
Qed.

Lemma all_digits_app (a b : jsstring) :
  all_digits (a ++ b) <-> all_digits a /\ all_digits b.
Proof. unfold all_digits. apply Forall_app. Qed.

Lemma phone_pattern_shape (v : jsstring) :
  test phone_pattern v = true
  <-> exists a b c d,
      v = complete_number a b c d
      /\ length a = 3 /\ length b = 3 /\ length c = 2 /\ length d = 2
      /\ all_digits (a ++ b ++ c ++ d).
Proof.
  unfold phone_pattern, complete_number.
  change (u "+") with 43%Z. change (u "7") with 55%Z.
  change (u " ") with 32%Z. change (u "(") with 40%Z.
  change (u ")") with 41%Z. change (u "-") with 45%Z.
  change (js "+7 (") with [43; 55; 32; 40]%Z.
  change (js ") ") with [41; 32]%Z. change (js "-") with [45%Z].
  split.
  - intros H.
    apply test_lit_seq in H. destruct H as (v1 & -> & H).
    apply test_lit_seq in H. destruct H as (v2 & -> & H).
    apply test_lit_seq in H. destruct H as (v3 & -> & H).
    apply test_lit_seq in H. destruct H as (v4 & -> & H).
    apply test_digits_seq in H. destruct H as (a & v5 & -> & Hla & Ha & H).
    apply test_lit_seq in H. destruct H as (v6 & -> & H).
    apply test_lit_seq in H. destruct H as (v7 & -> & H).
    apply test_digits_seq in H. destruct H as (b & v8 & -> & Hlb & Hb & H).
    apply test_lit_seq in H. destruct H as (v9 & -> & H).
    apply test_digits_seq in H. destruct H as (c & v10 & -> & Hlc & Hc & H).
    apply test_lit_seq in H. destruct H as (d & -> & H).
    apply test_digits in H. destruct H as [Hld Hd].
    exists a, b, c, d. repeat split; try assumption.
    rewrite !all_digits_app. tauto.
  - intros (a & b & c & d & -> & Hla & Hlb & Hlc & Hld & Hall).
    rewrite !all_digits_app in Hall. destruct Hall as (Ha & Hb & Hc & Hd).
    cbn [app].
    apply test_lit_seq. eexists. split; [reflexivity|].
    apply test_lit_seq. eexists. split; [reflexivity|].
    apply test_lit_seq. eexists. split; [reflexivity|].
    apply test_lit_seq. eexists. split; [reflexivity|].
    apply test_digits_seq. exists a. eexists. split; [reflexivity|].
    split; [exact Hla|]. split; [exact Ha|].
    apply test_lit_seq. eexists. split; [reflexivity|].
    apply test_lit_seq. eexists. split; [reflexivity|].
    apply test_digits_seq. exists b. eexists. split; [reflexivity|].
    split; [exact Hlb|]. split; [exact Hb|].
    apply test_lit_seq. eexists. split; [reflexivity|].
    apply test_digits_seq. exists c. eexists. split; [reflexivity|].
    split; [exact Hlc|]. split; [exact Hc|].
    apply test_lit_seq. eexists. split; [reflexivity|].
    apply test_digits. now split.
Qed.

Lemma phone_pattern_length (v : jsstring) :
  test phone_pattern v = true -> length v = 18.
Proof.
  intros H. apply phone_pattern_shape in H.
  destruct H as (a & b & c & d & -> & Ha & Hb & Hc & Hd & _).
  unfold complete_number. rewrite !length_app, Ha, Hb, Hc, Hd.
  reflexivity.
Qed.

Lemma validateField_phone_verdict (v : jsstring) :
  validateField (js "phone") v
  = if test phone_pattern v then ok else invalid (message phone_rule).
Proof.
  unfold validateField.
  change (ValidationRules (js "phone")) with (Some phone_rule).
  cbn [required minLength pattern phone_rule truthy_bool andb].
  now destruct (test phone_pattern v).
Qed.

(** X1. The phone rule accepts exactly the complete numbers
    [+7 (AAA) BBB-CC-DD] with digits in the four groups, and reports no
    message for them; every other value, the empty one included, is
    invalid with the message of the phone rule. *)
Theorem validateField_phone_complete (v : jsstring) :
  (valid (validateField (js "phone") v) = true
   <-> exists a b c d,
      v = complete_number a b c d
      /\ length a = 3 /\ length b = 3 /\ length c = 2 /\ length d = 2
      /\ all_digits (a ++ b ++ c ++ d))
  /\ validateField (js "phone") v
     = (if valid (validateField (js "phone") v)
        then {| valid := true; error_message := None |}
        else {| valid := false;
                error_message :=
                  Some (js "Введите полный номер телефона в формате +7 (999) 123-45-67") |}).
Proof.
  split.
  - rewrite validateField_phone. apply phone_pattern_shape.
  - rewrite validateField_phone_verdict.
    now destruct (test phone_pattern v).
Qed.

Lemma validateField_phone_complete_witness :
  valid (validateField (js "phone") (js "+7 (999) 123-45-67")) = true
  /\ validateField (js "phone") []
     = invalid (js "Введите полный номер телефона в формате +7 (999) 123-45-67").
Proof.
  split.
  - apply (proj1 (validateField_phone_complete (js "+7 (999) 123-45-67"))).
    exists (js "999"), (js "123"), (js "45"), (js "67").
    split; [reflexivity|]. repeat (split; [reflexivity|]).
    vm_compute. repeat constructor.
  - exact (proj2 (validateField_phone_complete [])).
Defined.

Ltac eval_literals :=
  repeat match goal with
         | |- context [js ?s] =>
           let v := eval vm_compute in (js s) in change (js s) with v
         end.

Ltac upto_eleven r :=
  destruct r as [|? [|? [|? [|? [|? [|? [|? [|? [|? [|? [|? r]]]]]]]]]]].

Ltac each_digit :=
  repeat match goal with
         | H : Forall _ (_ :: _) |- _ =>
           let Hc := fresh "Hc" in
           let Hr := fresh "Hr" in
           inversion H as [|? ? Hc Hr]; clear H; subst
         end.

Lemma short_mask_invalid (w : jsstring) :
  length w <> 18 -> test phone_pattern w = true <-> False.
Proof.
  intros Hl. split; [|tauto]. intros H.
  now apply phone_pattern_length in H.
Qed.

Lemma formatted_pattern (v : jsstring) :
  test phone_pattern (formatPhoneNumber v) = true
  <-> 11 <= length (normalize_lead (remove_non_digits v)).
Proof.
  rewrite format_is_mask.
  pose proof (remove_non_digits_digits v) as Hd.
  destruct (remove_non_digits v) as [|c r].
  - split; [discriminate|cbn; lia].
  - destruct (normalize_lead_seven c r Hd) as (t & Hn & Ht).
    unfold progressive_mask, significant_digits. rewrite Hn. clear Hn Hd.
    unfold all_digits in Ht. eval_literals.
    upto_eleven t; each_digit; cbn [firstn skipn positions once length
      Nat.leb Nat.sub app];
      try (rewrite short_mask_invalid by (cbn; lia); cbn; lia).
    + split; [cbn; lia|intros _]. apply phone_pattern_shape.
      eexists [_; _; _], [_; _; _], [_; _], [_; _].
      split; [reflexivity|]. repeat (split; [reflexivity|]).
      repeat constructor; assumption.
    + split; [cbn; lia|intros _]. apply phone_pattern_shape.
      eexists [_; _; _], [_; _; _], [_; _], [_; _].
      split; [reflexivity|]. repeat (split; [reflexivity|]).
      repeat constructor; assumption.
Qed.

(** X2. What the formatter returns passes the phone rule exactly when
    the input holds eleven digits or more, counted after a leading 8
    has become 7 and any other leading digit but 7 has got a 7 in
    front. *)
Theorem formatted_phone_valid (v : jsstring) :
  valid (validateField (js "phone") (formatPhoneNumber v)) = true
  <-> 11 <= length (normalize_lead (remove_non_digits v)).
Proof. rewrite validateField_phone. apply formatted_pattern. Qed.

Lemma formatted_phone_valid_witness :
  valid (validateField (js "phone") (formatPhoneNumber (js "8 999 1234567")))
  = true.
Proof.
  apply (proj2 (formatted_phone_valid (js "8 999 1234567"))).
  vm_compute. lia.
Defined.

Lemma is_prefix_refl (s : jsstring) : is_prefix s s.
Proof. exists []. now rewrite app_nil_r. Qed.

Lemma is_prefix_trans (a b c : jsstring) :
  is_prefix a b -> is_prefix b c -> is_prefix a c.
Proof.
  intros [x ->] [y ->]. exists (x ++ y). now rewrite app_assoc.
Qed.

Lemma mask_grows (d : jsstring) (c : code_unit) :
  is_prefix (progressive_mask d) (progressive_mask (d ++ [c])).
Proof.
  destruct d as [|x r]; [now exists (progressive_mask [c])|].
  unfold progressive_mask, significant_digits.
  cbn [app normalize_lead]. eval_literals.
  destruct (unit_eqb x 56%Z); [|destruct (unit_eqb x 55%Z)];
    upto_eleven r;
    cbn [firstn skipn positions once length Nat.leb Nat.sub app];
    eexists; cbn [app]; try reflexivity; now rewrite app_nil_r.
Qed.

Lemma mask_prefix (e d : jsstring) :
  is_prefix (progressive_mask d) (progressive_mask (d ++ e)).
Proof.
  revert d. induction e as [|c e IH]; intros d.
  - rewrite app_nil_r. apply is_prefix_refl.
  - apply is_prefix_trans with (progressive_mask (d ++ [c])).
    + apply mask_grows.
    + replace (d ++ c :: e) with ((d ++ [c]) ++ e)
        by now rewrite <- app_assoc.
      apply IH.
Qed.

(** X3. Typing on never rewrites what the mask already shows: the
    formatted value of a text is an initial part of the formatted value
    of every continuation of the text. *)
Theorem formatPhoneNumber_prefix (s t : jsstring) :
  is_prefix (formatPhoneNumber s) (formatPhoneNumber (s ++ t)).
Proof.
  rewrite !format_is_mask. unfold remove_non_digits.
  rewrite filter_app. apply mask_prefix.
Qed.

Lemma mask_char_digit (c : code_unit) :
  is_digit c = true -> mask_char c = true.
Proof. intros H. unfold mask_char. now rewrite H. Qed.

(** X4. The formatter returns at most 18 characters, all of them digits
    or the punctuation of the mask, and it returns the empty string
    exactly for a text without a digit. *)
Theorem formatPhoneNumber_range (v : jsstring) :
  length (formatPhoneNumber v) <= 18
  /\ Forall (fun c => mask_char c = true) (formatPhoneNumber v)
  /\ (formatPhoneNumber v = [] <-> remove_non_digits v = []).
Proof.
  rewrite format_is_mask.
  pose proof (remove_non_digits_digits v) as Hd.
  destruct (remove_non_digits v) as [|c r].
  - split; [cbn; lia|]. split; [constructor|tauto].
  - destruct (normalize_lead_seven c r Hd) as (t & Hn & Ht).
    unfold progressive_mask, significant_digits. rewrite Hn. clear Hn Hd.
    unfold all_digits in Ht. eval_literals.
    upto_eleven t; each_digit;
      cbn [firstn skipn positions once length Nat.leb Nat.sub app];
      (split; [lia|]);
      (split; [|split; discriminate]);
      repeat (apply Forall_cons;
              [first [reflexivity|apply mask_char_digit; assumption]|]);
      apply Forall_nil.
Qed.

(** *** The listeners of the phone field *)

Lemma format_of_digits (t : jsstring) :
  formatPhoneNumber (remove_non_digits t) = formatPhoneNumber t.
Proof.
  rewrite !format_is_mask.
  now rewrite (remove_non_digits_all _ (remove_non_digits_digits t)).
Qed.

Lemma format_fixed (t : jsstring) :
  formatPhoneNumber (formatPhoneNumber t) = formatPhoneNumber t.
Proof.
  rewrite (format_is_mask (formatPhoneNumber t)), (format_is_mask t).
  rewrite (digits_of_mask _ (remove_non_digits_digits t)).
  apply mask_of_significant.
Qed.

(** X5. Pasting a text with a digit in it sets the field to the
    formatted text, whatever else the clipboard holds, and the [input]
    event the listener dispatches meets a value that is already
    formatted; pasting a text without a digit changes nothing. *)
Theorem on_paste_value (pastedText : jsstring) (cursorPosition : nat)
        (f : phone_input) :
  (remove_non_digits pastedText = [] ->
   on_paste pastedText cursorPosition f = f)
  /\ (remove_non_digits pastedText <> [] ->
      value (on_paste pastedText cursorPosition f)
      = formatPhoneNumber pastedText
      /\ forall p, value (on_input p (on_paste pastedText cursorPosition f))
                   = formatPhoneNumber pastedText).
Proof.
  unfold on_paste. split.
  - now intros ->.
  - intros Hne.
    destruct (remove_non_digits pastedText) as [|c r] eqn:Hd;
      [contradiction|].
    cbn [truthy_str]. rewrite <- Hd, format_of_digits.
    unfold on_input. cbn [value isFormatting].
    destruct (isFormatting f); cbn [value isFormatting]; rewrite ?format_fixed;
      (split; [reflexivity|intros p; cbn [value]; now rewrite ?format_fixed]).
Qed.

Lemma on_paste_value_witness :
  value (on_paste (js "tel: 8 (999) 123-45-67") 0 FurtherScenario.untouched)
  = js "+7 (999) 123-45-67".
Proof.
  refine (proj1 (proj2 (on_paste_value (js "tel: 8 (999) 123-45-67") 0
                                       FurtherScenario.untouched) _)).
  vm_compute. discriminate.
Defined.

(** X6. Of the keys that stand for one character the [keydown] listener
    lets exactly the digits through, wherever the caret is. *)
Theorem keydown_digits_only (c : code_unit) (cursorPosition : nat) :
  keydown_prevented [c] cursorPosition = negb (is_digit c).
Proof.
  unfold keydown_prevented, allowedKeys. eval_literals.
  cbn [str_eqb existsb]. rewrite !andb_false_r. cbn [orb andb negb].
  unfold test. cbn [fold_left deriv].
  change (class_has [Digit] c) with (is_digit c || false).
  now destruct (is_digit c).
Qed.

Lemma digit_not_space (c : code_unit) :
  is_digit c = true -> is_space c = false.
Proof.
  unfold is_digit, is_space. intros H.
  apply andb_true_iff in H. destruct H as [H1 H2].
  apply Z.leb_le in H1, H2.
  repeat match goal with
         | |- context [(?a =? ?b)%Z] =>
           rewrite (proj2 (Z.eqb_neq a b)) by lia
         | |- context [(?a <=? ?b)%Z] =>
           first [ rewrite (proj2 (Z.leb_gt a b)) by lia
                 | rewrite (proj2 (Z.leb_le a b)) by lia ]
         end.
  reflexivity.
Qed.

Lemma phone_error_cleared (u : Page.ui_state) (m : Page.shown_text) :
  ~ In (js "phone", m)
       (Page.field_errors (Page.clearFieldError (js "phone") u)).
Proof.
  unfold Page.clearFieldError. cbn [Page.field_errors Page.with_errors].
  intros H. apply filter_In in H. destruct H as [_ H]. discriminate H.
Qed.

Lemma phone_error_shown (u : Page.ui_state) (m m' : Page.shown_text) :
  In (js "phone", m')
     (Page.field_errors (Page.showFieldError (js "phone") m u))
  <-> m' = m.
Proof.
  unfold Page.showFieldError. cbn [Page.field_errors Page.with_errors].
  rewrite in_app_iff. split.
  - intros [H|[H|[]]].
    + now apply phone_error_cleared in H.
    + now injection H.
  - intros ->. right. now left.
Qed.

Lemma validateField_phone_result (v : jsstring) :
  validateField (js "phone") v
  = if test phone_pattern v then ok else invalid (message phone_rule).
Proof.
  unfold validateField.
  change (ValidationRules (js "phone")) with (Some phone_rule).
  cbn [required minLength pattern phone_rule truthy_bool andb].
  now destruct (test phone_pattern v).
Qed.

Lemma validate_phone_on_blur (x : jsstring) (u : Page.ui_state) :
  (exists m, In (js "phone", m)
                (Page.field_errors (validate_on_blur (js "phone") x u)))
  <-> test phone_pattern (trim x) = false.
Proof.
  unfold validate_on_blur. rewrite validateField_phone_result.
  destruct (test phone_pattern (trim x)).
  - cbn [negb valid ok]. split; [|discriminate]. intros [m H].
    now apply phone_error_cleared in H.
  - cbn [negb valid error_message invalid].
    split; [reflexivity|]. intros _.
    exists (Page.RuleMessage (message phone_rule)).
    now apply phone_error_shown.
Qed.

(** X7. Entering the empty phone field and leaving it again without
    typing leaves the field empty, not the prefilled prefix, and marks
    it with the message of the phone rule. *)
Theorem focus_then_leave (currentPosition : nat) (f : phone_input)
        (u : Page.ui_state) :
  value f = [] ->
  value (on_focus currentPosition f) = js "+7 ("
  /\ value (fst (leave_phone (on_focus currentPosition f) u)) = []
  /\ In (js "phone", Page.RuleMessage (message phone_rule))
        (Page.field_errors
           (snd (leave_phone (on_focus currentPosition f) u))).
Proof.
  intros Hv. unfold leave_phone, on_focus. rewrite Hv.
  cbn [truthy_str negb orb value on_blur].
  split; [reflexivity|].
  change (str_eqb (js "+7 (") (js "+7 (")) with true.
  cbn [orb value fst snd]. split; [reflexivity|].
  apply phone_error_shown. reflexivity.
Qed.

Lemma focus_then_leave_witness :
  value (fst (leave_phone (on_focus 0 FurtherScenario.untouched)
                          FurtherScenario.blank_page)) = [].
Proof.
  refine (proj1 (proj2 (focus_then_leave 0 FurtherScenario.untouched
                                         FurtherScenario.blank_page _))).
  reflexivity.
Defined.

Lemma trim_id (s : jsstring) :
  is_space (hd 0%Z s) = false -> is_space (last s 0%Z) = false ->
  trim s = s.
Proof.
  intros H1 H2. unfold trim. destruct s as [|a l]; [reflexivity|].
  cbn [hd] in H1. cbn [trim_start]. rewrite H1.
  assert (E : rev (a :: l)
              = last (a :: l) 0%Z :: rev (removelast (a :: l))).
  { rewrite (app_removelast_last (l:=a :: l) 0%Z) at 1 by discriminate.
    now rewrite rev_app_distr. }
  rewrite E. cbn [trim_start]. rewrite H2, <- E. apply rev_involutive.
Qed.

(** What the listeners of the [blur] event find in a formatted value. *)
Lemma mask_at_blur (v : jsstring) :
  let m := formatPhoneNumber v in
  let n := normalize_lead (remove_non_digits v) in
  trim m = m
  /\ str_eqb m (js "+7 (") || str_eqb m (js "+7") || str_eqb m (js "+")
     = (length n =? 1)
  /\ (m = [] <-> length n = 0).
Proof.
  cbv zeta. rewrite format_is_mask.
  pose proof (remove_non_digits_digits v) as Hd.
  destruct (remove_non_digits v) as [|c r].
  - repeat split; reflexivity.
  - destruct (normalize_lead_seven c r Hd) as (t & Hn & Ht).
    unfold progressive_mask, significant_digits. rewrite Hn. clear Hn Hd.
    unfold all_digits in Ht. eval_literals.
    upto_eleven t; each_digit;
      cbn [firstn skipn positions once length Nat.leb Nat.sub app];
      (split; [apply trim_id;
               [reflexivity
               |cbn [last];
                first [reflexivity|apply digit_not_space; assumption]]|]);
      (split; [vm_compute; reflexivity|split; discriminate]).
Qed.

Lemma phone_message_on_blur (x : jsstring) (u : Page.ui_state)
      (m : Page.shown_text) :
  In (js "phone", m) (Page.field_errors (validate_on_blur (js "phone") x u))
  <-> m = Page.RuleMessage (message phone_rule)
      /\ test phone_pattern (trim x) = false.
Proof.
  unfold validate_on_blur. rewrite validateField_phone_result.
  destruct (test phone_pattern (trim x)).
  - cbn [negb valid ok]. split; [|intros [_ H]; discriminate H].
    intros H. now apply phone_error_cleared in H.
  - cbn [negb valid error_message invalid].
    rewrite phone_error_shown. tauto.
Qed.

(** X8. Leaving the phone field with a formatted value in it: the
    field is emptied exactly when the value is the bare [+7] of a single
    digit (or was empty), trimming changes nothing of the value, and
    what is shown on the field afterwards is the message of the phone
    rule, exactly when fewer than eleven digits were entered, and
    nothing otherwise. *)
Theorem leave_phone_formatted (v : jsstring) (f : phone_input)
        (u : Page.ui_state) :
  value f = formatPhoneNumber v ->
  let n := normalize_lead (remove_non_digits v) in
  (value (fst (leave_phone f u)) = [] <-> length n <= 1)
  /\ trim (value f) = value f
  /\ trim (value (fst (leave_phone f u))) = value (fst (leave_phone f u))
  /\ (forall m,
         In (js "phone", m) (Page.field_errors (snd (leave_phone f u)))
         <-> m = Page.RuleMessage
                   (js "Введите полный номер телефона в формате +7 (999) 123-45-67")
             /\ length n < 11).
Proof.
  intros Hv n. destruct (mask_at_blur v) as (Htrim & Hblur & Hempty).
  fold n in Hblur, Hempty.
  split; [|split; [now rewrite Hv|split]].
  - unfold leave_phone, on_blur. rewrite Hv, Hblur. cbn [fst].
    destruct (Nat.eqb_spec (length n) 1) as [H1|H1]; cbn [value].
    + split; [lia|reflexivity].
    + rewrite Hv, Hempty. lia.
  - unfold leave_phone, on_blur. rewrite Hv, Hblur. cbn [fst].
    destruct (length n =? 1); cbn [value]; [reflexivity|].
    now rewrite Hv.
  - intros m. unfold leave_phone, on_blur. rewrite Hv, Hblur.
    cbn [fst snd]. rewrite phone_message_on_blur.
    change (message phone_rule)
      with (js "Введите полный номер телефона в формате +7 (999) 123-45-67").
    destruct (Nat.eqb_spec (length n) 1) as [H1|H1]; cbn [value].
    + split; (intros [Hm _]; split; [exact Hm|]); [lia|reflexivity].
    + rewrite Hv, Htrim.
      pose proof (formatted_pattern v) as Hp. fold n in Hp.
      destruct (test phone_pattern (formatPhoneNumber v)).
      * split; [intros [_ H]; discriminate H|]. intros [_ Hlt].
        assert (11 <= length n) by now apply Hp. lia.
      * split; (intros [Hm _]; split; [exact Hm|]); [|reflexivity].
        destruct (Nat.lt_ge_cases (length n) 11) as [Hlt|Hge];
          [exact Hlt|]. apply Hp in Hge. discriminate.
Qed.

Lemma leave_phone_formatted_witness :
  In (js "phone",
      Page.RuleMessage
        (js "Введите полный номер телефона в формате +7 (999) 123-45-67"))
     (Page.field_errors
        (snd (leave_phone (FurtherScenario.typed (js "+7 (999) 12"))
                          FurtherScenario.blank_page))).
Proof.
  refine (proj2 (proj2 (proj2 (proj2 (leave_phone_formatted
                          (js "99912")
                          (FurtherScenario.typed (js "+7 (999) 12"))
                          FurtherScenario.blank_page _)) ) _) _).
  - reflexivity.
  - split; [reflexivity|]. vm_compute. lia.
Defined.

End PhoneFieldFacts.

(** ** The submit handler *)

Section SubmitFacts.

Import Json Effects Validation Page.
Local Open Scope monad_scope.

Variable Env : Type.
Variable B : browser Env.

Lemma In_clearFieldError (k k' : jsstring) (m : shown_text) (u : ui_state) :
  In (k, m) (field_errors (clearFieldError k' u))
  <-> In (k, m) (field_errors u) /\ k <> k'.
Proof.
  unfold clearFieldError. cbn [field_errors with_errors].
  rewrite filter_In. cbn [fst]. rewrite negb_true_iff.
  split; intros [H1 H2]; (split; [exact H1|]).
  - intros ->. rewrite (proj2 (str_eqb_eq k' k') eq_refl) in H2.
    discriminate.
  - destruct (str_eqb k k') eqn:E; [|reflexivity].
    apply str_eqb_eq in E. contradiction.
Qed.

Lemma In_showFieldError (k k' : jsstring) (m m' : shown_text)
      (u : ui_state) :
  In (k, m) (field_errors (showFieldError k' m' u))
  <-> (In (k, m) (field_errors u) /\ k <> k') \/ (k = k' /\ m = m').
Proof.
  unfold showFieldError. cbn [field_errors with_errors].
  rewrite in_app_iff, In_clearFieldError. cbn [In].
  split.
  - intros [H|[H|[]]]; [now left|]. injection H as -> ->. now right.
  - intros [H|[-> ->]]; [now left|]. right. now left.
Qed.

Lemma In_clear_each (names : list jsstring) (k : jsstring)
      (m : shown_text) (u : ui_state) :
  In (k, m) (field_errors
               (fold_left (fun u fieldName => clearFieldError fieldName u)
                          names u))
  <-> In (k, m) (field_errors u) /\ ~ In k names.
Proof.
  revert u. induction names as [|n names IH]; intros u; cbn [fold_left In].
  - tauto.
  - rewrite IH, In_clearFieldError. intuition congruence.
Qed.

Lemma In_show_each (es : list (jsstring * jsstring)) (k : jsstring)
      (m : shown_text) (u : ui_state) :
  NoDup (map fst es) ->
  In (k, m) (field_errors
               (fold_left
                  (fun u p => showFieldError (fst p) (RuleMessage (snd p)) u)
                  es u))
  <-> (In (k, m) (field_errors u) /\ ~ In k (map fst es))
      \/ exists msg, m = RuleMessage msg /\ In (k, msg) es.
Proof.
  revert u. induction es as [|[k0 m0] es IH]; intros u Hnd;
    cbn [fold_left map In fst snd].
  - split; [tauto|]. intros [H|(msg & _ & [])]. exact (proj1 H).
  - inversion Hnd as [|? ? Hnew Hrest]; subst.
    rewrite (IH _ Hrest), In_showFieldError. split.
    + intros [[[[Hin Hk]|[-> ->]] Hnot]|(msg & -> & Hin)].
      * left. split; [exact Hin|]. intros [E|E]; [now subst|contradiction].
      * right. exists m0. split; [reflexivity|now left].
      * right. exists msg. split; [reflexivity|now right].
    + intros [[Hin Hnot]|(msg & -> & [E|Hin])].
      * left. split; [|tauto]. left. split; [exact Hin|].
        intros ->. tauto.
      * injection E as -> ->. left. split; [now right|exact Hnew].
      * right. now exists msg.
Qed.

Ltac show_literals :=
  repeat match goal with
         | |- context [js ?s] =>
           let v := eval vm_compute in (js s) in change (js s) with v
         end.

Lemma error_entries_keys (e : form_errors) :
  NoDup (map fst (error_entries e))
  /\ forall k, In k (map fst (error_entries e)) ->
               In k [js "name"; js "phone"; js "program"].
Proof.
  unfold error_entries. show_literals.
  destruct (err_name e), (err_phone e), (err_program e);
    cbn [flat_map snd fst app map]; split;
    try (repeat constructor; cbn [In]; intuition discriminate);
    intros k; cbn [In]; tauto.
Qed.

Lemma field_errors_setFormState (s : FormState) (u : ui_state) :
  field_errors (setFormState s u) = field_errors u.
Proof. destruct u as [st [b|] fe sm tm an fo]; destruct s; reflexivity. Qed.

Lemma untouched_by_setFormState (s : FormState) (u : ui_state) :
  analytics (setFormState s u) = analytics u
  /\ success_message (setFormState s u) = success_message u.
Proof.
  destruct u as [st [b|] fe sm tm an fo]; destruct s; split; reflexivity.
Qed.

Lemma untouched_by_displayFormErrors (e : form_errors) (u : ui_state) :
  analytics (displayFormErrors e u) = analytics u
  /\ success_message (displayFormErrors e u) = success_message u.
Proof.
  destruct (displayFormErrors_fields e u) as (_ & _ & -> & -> & _).
  generalize (error_entries e) as l.
  intros l. revert u. induction l as [|p l IH]; intros u; cbn [fold_left];
    [split; reflexivity|].
  destruct (IH (showFieldError (fst p) (RuleMessage (snd p)) u))
    as [-> ->]. split; reflexivity.
Qed.

Lemma focused_show_each (es : list (jsstring * jsstring)) (u : ui_state) :
  focused (fold_left
             (fun u p => showFieldError (fst p) (RuleMessage (snd p)) u)
             es u)
  = focused u.
Proof.
  revert u. induction es as [|p l IH]; intros u; cbn [fold_left];
    [reflexivity|].
  now rewrite IH.
Qed.

Lemma focused_setFormState (s : FormState) (u : ui_state) :
  focused (setFormState s u) = focused u.
Proof. destruct u as [st [b|] fe sm tm an fo]; destruct s; reflexivity. Qed.

(** The first key of an errors object that has one. *)
Lemma first_error_entry (e : form_errors) :
  0 < error_count e ->
  map fst (firstn 1 (error_entries e))
  = [ match err_name e, err_phone e with
      | Some _, _ => js "name"
      | None, Some _ => js "phone"
      | None, None => js "program"
      end ].
Proof.
  unfold error_count, error_entries.
  destruct (err_name e), (err_phone e), (err_program e);
    cbn [flat_map snd fst filter length app firstn map];
    intros H; try reflexivity. inversion H.
Qed.

(** X9. A form that fails validation is not sent: the handler returns
    without asking anything of the outside and without waiting, leaves
    the form in the error state with the submit button enabled, sets no
    timer and calls neither of the analytics hooks itself, and shows for
    each failing field the message of its rule and nothing else on the
    three validated fields.  It then calls [focus()] once, on the first
    failing field in the order name, phone, program; what the focus
    listeners of that field do is theirs. *)
Theorem invalid_form_not_sent (fd : FormData) (w : world Env) :
  0 < error_count (validateForm fd) ->
  exists w',
    handleFormSubmit B fd w = (w', Ret tt)
    /\ env w' = env w /\ waited w' = waited w /\ config w' = config w
    /\ view (ui w')
       = (ERROR, option_map (fun _ => false) (submitButton (ui w)),
          timers (ui w))
    /\ analytics (ui w') = analytics (ui w)
    /\ success_message (ui w') = None
    /\ focused (ui w')
       = focused (ui w)
           ++ [ match err_name (validateForm fd),
                      err_phone (validateForm fd) with
                | Some _, _ => js "name"
                | None, Some _ => js "phone"
                | None, None => js "program"
                end ]
    /\ forall k m,
        In (k, m) (field_errors (ui w'))
        <-> (In (k, m) (field_errors (ui w))
             /\ ~ In k [js "name"; js "phone"; js "program"])
            \/ exists msg, m = RuleMessage msg
                           /\ In (k, msg) (error_entries (validateForm fd)).
Proof.
  intros Hbad. apply Nat.ltb_lt in Hbad.
  pose proof (view_submit_prologue fd (ui w)) as Hview.
  unfold handleFormSubmit. revert Hview. unfold submit_prologue.
  rewrite Hbad. cbn [fst snd]. intros Hview.
  eexists. split; [reflexivity|]. cbn [env waited config ui with_ui].
  repeat (split; [reflexivity|]).
  split; [exact Hview|].
  destruct (untouched_by_displayFormErrors
              (validateForm fd)
              (setFormState ERROR
                 (setFormState VALIDATING
                    (with_success None (clearAllErrors (ui w))))))
    as [-> ->].
  destruct (untouched_by_setFormState
              ERROR (setFormState VALIDATING
                       (with_success None (clearAllErrors (ui w)))))
    as [-> ->].
  destruct (untouched_by_setFormState
              VALIDATING (with_success None (clearAllErrors (ui w))))
    as [-> ->].
  split; [reflexivity|]. split; [reflexivity|].
  destruct (displayFormErrors_fields
              (validateForm fd)
              (setFormState ERROR
                 (setFormState VALIDATING
                    (with_success None (clearAllErrors (ui w))))))
    as (-> & _ & _ & _ & ->).
  split.
  { rewrite focused_show_each, !focused_setFormState.
    rewrite first_error_entry by now apply Nat.ltb_lt.
    reflexivity. }
  intros k m. destruct (error_entries_keys (validateForm fd)) as [Hnd Hsub].
  rewrite (In_show_each _ _ _ _ Hnd).
  rewrite !field_errors_setFormState.
  change (field_errors (with_success None (clearAllErrors (ui w))))
    with (field_errors (clearAllErrors (ui w))).
  unfold clearAllErrors. rewrite In_clear_each.
  specialize (Hsub k). tauto.
Qed.

Lemma submit_tiers_success (fd : FormData) (w w' : world Env)
      (r : SubmissionResult) :
  submit_tiers B fd w = (w', Ret r) -> success r = true.
Proof.
  assert (Hcrm : forall x w1,
             (if createLead_defined B then createLead B fd else throw x) w1
             = (w', Ret r) -> success r = true).
  { intros x w1 H. now apply crm_or_rethrow in H. }
  unfold submit_tiers. destruct (GAS_API B) as [call|].
  - unfold try_catch, bind at 1, ask.
    destruct (call fd (env w)) as [e [gasData|x]]; [|apply Hcrm].
    unfold bind at 1, lift at 1.
    destruct (member gasData (js "success")) as [ok|x]; [|apply Hcrm].
    destruct (truthy ok).
    + intros H; now injection H as <- <-.
    + unfold bind, lift.
      destruct (member gasData (js "error")) as [err|x]; apply Hcrm.
  - destruct (createLead_defined B) eqn:Hd.
    + intros H. exact (Hcrm TypeError w H).
    + intros H; now injection H as <- <-.
Qed.

Lemma success_message_prologue (fd : FormData) (u : ui_state) :
  success_message (fst (submit_prologue fd u)) = None.
Proof.
  unfold submit_prologue.
  destruct (0 <? error_count (validateForm fd)); cbn [fst].
  - destruct (untouched_by_displayFormErrors
                (validateForm fd)
                (setFormState ERROR
                   (setFormState VALIDATING
                      (with_success None (clearAllErrors u)))))
      as [_ ->].
    destruct (untouched_by_setFormState
                ERROR (setFormState VALIDATING
                         (with_success None (clearAllErrors u))))
      as [_ ->].
    now destruct (untouched_by_setFormState
                    VALIDATING (with_success None (clearAllErrors u)))
      as [_ ->].
  - destruct (untouched_by_setFormState
                SUBMITTING (setFormState VALIDATING
                              (with_success None (clearAllErrors u))))
      as [_ ->].
    now destruct (untouched_by_setFormState
                    VALIDATING (with_success None (clearAllErrors u)))
      as [_ ->].
Qed.

(** X10. A form that passes validation settles with its tiers: when
    they return, the form is in the success state with the submit
    button disabled, the success message shown and the reset timer of
    5000 ms pending; when they throw, the form is in the error state
    with the button enabled again, no timer added, and the error on the
    phone field.  The handler itself never throws, and the branch for a
    returned result without [success] is never taken. *)
Theorem valid_form_settles (fd : FormData) (w : world Env) :
  error_count (validateForm fd) = 0 ->
  exists w1 o w2,
    submit_tiers B fd (with_ui (fun _ => fst (submit_prologue fd (ui w))) w)
    = (w1, o)
    /\ handleFormSubmit B fd w = (w2, Ret tt)
    /\ env w2 = env w1 /\ waited w2 = waited w1
    /\ match o with
       | Ret r =>
         view (ui w2)
         = (SUCCESS, option_map (fun _ => true) (submitButton (ui w)),
            timers (ui w) ++ [(5000%Z, ResetForm)])
         /\ exists text note, success_message (ui w2) = Some (text, note)
       | Throw e =>
         view (ui w2)
         = (ERROR, option_map (fun _ => false) (submitButton (ui w)),
            timers (ui w))
         /\ success_message (ui w2) = None
         /\ In (js "phone",
                MessageOr e (js "Произошла ошибка при отправке. Попробуйте позже или позвоните нам."))
               (field_errors (ui w2))
       end.
Proof.
  intros Hvalid. unfold handleFormSubmit.
  pose proof (view_submit_prologue fd (ui w)) as Hview.
  pose proof (success_message_prologue fd (ui w)) as Hmsg.
  destruct (submit_prologue_valid fd (ui w) Hvalid) as (u' & Hp & _).
  rewrite Hp in *. cbn [fst snd] in *.
  pose proof (keeps_submit_tiers Env B fd (with_ui (fun _ => u') w)) as Hui.
  destruct (submit_tiers B fd (with_ui (fun _ => u') w)) as [w1 o] eqn:Hrun.
  cbn [fst ui with_ui] in Hui.
  exists w1, o. eexists. split; [reflexivity|]. split; [reflexivity|].
  cbn [env waited ui with_ui]. split; [reflexivity|].
  split; [reflexivity|]. rewrite Hui.
  assert (Hb : forall c : bool,
             option_map (fun _ : button => c) (submitButton u')
             = option_map (fun _ : button => c) (submitButton (ui w))).
  { intros c. unfold view in Hview.
    destruct (submitButton u'), (submitButton (ui w));
      cbn [option_map] in *; congruence. }
  assert (Ht : timers u' = timers (ui w)).
  { unfold view in Hview. congruence. }
  rewrite view_submit_epilogue. destruct o as [r|e].
  - rewrite (submit_tiers_success fd _ _ r Hrun), Hb, Ht.
    split; [reflexivity|].
    unfold submit_epilogue. rewrite (submit_tiers_success fd _ _ r Hrun).
    unfold setTimeout, showSuccessMessage.
    destruct (analytics_defined B);
      cbn [success_message with_timers with_analytics with_success];
      eauto.
  - rewrite Hb, Ht. split; [reflexivity|].
    unfold submit_epilogue. split.
    + unfold showFieldError, clearFieldError.
      destruct (analytics_defined B);
        cbn [success_message with_errors with_analytics];
        now rewrite (proj2 (untouched_by_setFormState ERROR u')).
    + apply In_showFieldError. right. split; reflexivity.
Qed.

End SubmitFacts.

(** ** Retries and the tiers of the CRM module *)

Section BackoffFacts.

Import Json Effects Validation Page Crm.
Local Open Scope monad_scope.

Variable Env : Type.
Variable B : browser Env.

Lemma schedule_from (delay i : Z) (n : nat) :
  map (fun k => (delay * 2 ^ (i + Z.of_nat k))%Z) (seq 0 (S n))
  = (delay * 2 ^ i)%Z
      :: map (fun k => (delay * 2 ^ (i + 1 + Z.of_nat k))%Z) (seq 0 n).
Proof.
  cbn [seq map]. rewrite Z.add_0_r. f_equal.
  rewrite <- seq_shift, map_map. apply map_ext. intros k.
  do 2 f_equal. lia.
Qed.

(** The loop from attempt [i] on, when every attempt fails. *)
Lemma retry_loop_schedule {A} (fn : M (world Env) A) (attempts delay : Z) :
  always_throws fn ->
  (forall w, waited (fst (fn w)) = waited w) ->
  forall n i w,
    (i + Z.of_nat (S n) = attempts)%Z ->
    exists w' e,
      retry_loop B fn attempts delay (S n) i w = (w', Throw e)
      /\ waited w'
         = waited w
             ++ map (fun k => (delay * 2 ^ (i + Z.of_nat k))%Z) (seq 0 n).
Proof.
  intros Hfn Hlog. induction n as [|n IH]; intros i w Hi.
  - destruct (Hfn w) as (w1 & e & H1).
    rewrite (retry_loop_throw Env B fn attempts delay 0 i w w1 e H1).
    rewrite (proj2 (Z.eqb_eq i (attempts - 1))) by lia.
    exists w1, e. split; [reflexivity|].
    pose proof (Hlog w) as L. rewrite H1 in L. cbn [fst] in L.
    cbn [seq map]. now rewrite app_nil_r.
  - destruct (Hfn w) as (w1 & e & H1).
    rewrite (retry_loop_throw Env B fn attempts delay (S n) i w w1 e H1).
    rewrite (proj2 (Z.eqb_neq i (attempts - 1))) by lia.
    destruct (IH (i + 1)%Z (after_wait B (delay * 2 ^ i) w1))
      as (w' & e' & Hrun & Hw); [lia|].
    exists w', e'. split; [exact Hrun|].
    rewrite Hw, schedule_from.
    pose proof (Hlog w) as L. rewrite H1 in L. cbn [fst] in L.
    unfold after_wait, sleep, update. cbn [fst waited].
    now rewrite L, <- app_assoc.
Qed.

(** X11. For any positive number of attempts and any delay, a function
    that fails at every attempt makes [retryWithBackoff] throw, after
    waiting [delay * 2^i] behind each attempt [i] but the last and
    nothing else. *)
Theorem retryWithBackoff_schedule {A} (fn : M (world Env) A)
        (attempts delay : Z) (w : world Env) :
  always_throws fn ->
  (forall w, waited (fst (fn w)) = waited w) ->
  (1 <= attempts)%Z ->
  exists w' e,
    retryWithBackoff B fn attempts delay w = (w', Throw e)
    /\ waited w' = waited w ++ backoff_schedule attempts delay.
Proof.
  intros Hfn Hlog Hpos. unfold retryWithBackoff, backoff_schedule.
  destruct (Z.to_nat attempts) as [|n] eqn:Hn; [lia|].
  destruct (retry_loop_schedule fn attempts delay Hfn Hlog n 0%Z w)
    as (w' & e & Hrun & Hw); [lia|].
  exists w', e. split; [exact Hrun|]. rewrite Hw.
  replace (S n - 1) with n by lia. reflexivity.
Qed.

(** X12. With no attempt allowed ([retryAttempts] zero or negative) the
    CRM is not contacted at all: [retryWithBackoff] falls out of its
    loop with [undefined], reading the lead id of that fails, and
    [createLead] goes on with the email tier at once, without any
    request or wait. *)
Theorem createLead_no_attempts (fd : FormData) (w : world Env) :
  (retryAttempts (config w) <= 0)%Z ->
  (forall {A} (fn : M (world Env) A) delay,
      retryWithBackoff B fn (retryAttempts (config w)) delay w
      = (w, Ret None))
  /\ exists o,
      createLead B fd w = (w, o)
      /\ match o with
         | Ret r => method r = js "email_fallback"
                    /\ warning r = Some fallback_warning
         | Throw e => e = generic_failure
         end.
Proof.
  intros Hnone.
  assert (Hn : Z.to_nat (retryAttempts (config w)) = 0) by lia.
  split.
  - intros A fn delay. unfold retryWithBackoff. now rewrite Hn.
  - unfold createLead, getUTMParams, getDeviceInfo.
    unfold bind at 1, read at 1. unfold bind at 1, read at 1. cbv zeta.
    unfold try_catch at 1. unfold bind at 1, read at 1. unfold bind at 1.
    unfold retryWithBackoff. rewrite Hn. cbn [retry_loop].
    unfold ret at 1. unfold bind at 1, lift at 1. cbn [member].
    match goal with
    | |- context [sendViaEmail B fd ?u ?d] =>
      destruct (sendViaEmail_cases Env B fd u d w) as ([r|e'] & Hrun & Ho)
    end.
    + eexists (Ret _). unfold try_catch, bind. rewrite Hrun.
      split; [reflexivity|]. split; reflexivity.
    + exists (Throw generic_failure). unfold try_catch, bind. rewrite Hrun.
      split; reflexivity.
Qed.

Lemma sendToBitrix24_unconfigured (p : lead_payload) (w : world Env) :
  webhookUrl (config w) = [] ->
  sendToBitrix24 B p w = (w, Throw not_configured).
Proof.
  intros H. unfold sendToBitrix24, bind, read. now rewrite H.
Qed.

Lemma retry_loop_unconfigured (p : lead_payload) (attempts delay : Z) :
  forall n i w,
    webhookUrl (config w) = [] ->
    (i + Z.of_nat (S n) = attempts)%Z ->
    retry_loop B (sendToBitrix24 B p) attempts delay (S n) i w
    = (after_waits
         B (map (fun k => (delay * 2 ^ (i + Z.of_nat k))%Z) (seq 0 n)) w,
       Throw not_configured).
Proof.
  induction n as [|n IH]; intros i w Hcfg Hi.
  - rewrite (retry_loop_throw Env B _ attempts delay 0 i w w not_configured
                              (sendToBitrix24_unconfigured p w Hcfg)).
    rewrite (proj2 (Z.eqb_eq i (attempts - 1))) by lia.
    unfold after_waits, elapsed. cbn [seq map fold_left].
    rewrite app_nil_r. now destruct w.
  - rewrite (retry_loop_throw Env B _ attempts delay (S n) i w w
                              not_configured
                              (sendToBitrix24_unconfigured p w Hcfg)).
    rewrite (proj2 (Z.eqb_neq i (attempts - 1))) by lia.
    rewrite IH; [|exact Hcfg|lia].
    rewrite schedule_from. unfold after_waits, after_wait, sleep, update,
      elapsed.
    cbn [fst env waited config ui fold_left].
    now rewrite <- app_assoc.
Qed.

(** X13. With no webhook configured no request is ever made, but the
    retries still run their course: [createLead] waits through the
    whole backoff schedule, the outside being left to itself meanwhile,
    and only then turns to the email tier. *)
Theorem createLead_unconfigured (fd : FormData) (w : world Env) :
  webhookUrl (config w) = [] ->
  (1 <= retryAttempts (config w))%Z ->
  exists o,
    createLead B fd w
    = (after_waits B (backoff_schedule (retryAttempts (config w))
                                       (retryDelay (config w))) w, o)
    /\ match o with
       | Ret r => method r = js "email_fallback"
                  /\ warning r = Some fallback_warning
       | Throw e => e = generic_failure
       end.
Proof.
  intros Hcfg Hpos.
  unfold createLead, getUTMParams, getDeviceInfo.
  unfold bind at 1, read at 1. unfold bind at 1, read at 1. cbv zeta.
  unfold try_catch at 1. unfold bind at 1, read at 1. unfold bind at 1.
  unfold retryWithBackoff, backoff_schedule.
  destruct (Z.to_nat (retryAttempts (config w))) as [|n] eqn:Hn; [lia|].
  rewrite retry_loop_unconfigured; [|exact Hcfg|lia].
  replace (S n - 1) with n by lia. cbn [Z.add].
  match goal with
  | |- context [after_waits B ?l w] => set (w1 := after_waits B l w)
  end.
  cbv beta iota.
  match goal with
  | |- context [sendViaEmail B fd ?u ?d] =>
    destruct (sendViaEmail_cases Env B fd u d w1) as ([r|e'] & Hrun & Ho)
  end.
  - eexists (Ret _). unfold try_catch, bind. rewrite Hrun.
    split; [reflexivity|]. split; reflexivity.
  - exists (Throw generic_failure). unfold try_catch, bind. rewrite Hrun.
    split; reflexivity.
Qed.

(** X14. When the first request to the CRM is answered with an OK
    response whose body carries no truthy [error], [createLead] makes
    that one request, waits for nothing, and returns the result of the
    method [bitrix24] with the [result] member of the body as lead
    id. *)
Theorem createLead_first_attempt (fd : FormData) (w : world Env)
        (e1 : Env) (resp : http_response) (data : json) (err : jsval) :
  truthy_str (webhookUrl (config w)) = true ->
  (1 <= retryAttempts (config w))%Z ->
  (forall url p, fetch_post B url p (env w) = (e1, Ret resp)) ->
  resp_ok resp = true ->
  resp_json resp = Ret data ->
  member (Some data) (js "error") = Ret err ->
  truthy err = false ->
  exists lead,
    member (Some data) (js "result") = Ret lead
    /\ createLead B fd w
       = (with_env e1 w,
          Ret {| success := true;
                 leadId := Some lead;
                 method := js "bitrix24";
                 result_message := js "Заявка успешно отправлена в Bitrix24";
                 warning := None |}).
Proof.
  intros Hcfg Hpos Hfetch Hok Hjson Herr Hfalsy.
  assert (Hlead : exists lead, member (Some data) (js "result") = Ret lead).
  { destruct data; cbn [member] in *; try discriminate; eauto. }
  destruct Hlead as [lead Hlead]. exists lead. split; [exact Hlead|].
  unfold createLead, getUTMParams, getDeviceInfo.
  unfold bind at 1, read at 1. unfold bind at 1, read at 1. cbv zeta.
  unfold try_catch at 1. unfold bind at 1, read at 1. unfold bind at 1.
  unfold retryWithBackoff.
  destruct (Z.to_nat (retryAttempts (config w))) as [|n] eqn:Hn; [lia|].
  cbn [retry_loop]. unfold try_catch at 1. unfold bind at 1.
  match goal with
  | |- context [sendToBitrix24 B ?p w] =>
    assert (Hsend : sendToBitrix24 B p w = (with_env e1 w, Ret data))
  end.
  { unfold sendToBitrix24. unfold bind at 1, read at 1. rewrite Hcfg.
    cbn [negb]. unfold bind at 1, ask. rewrite Hfetch. rewrite Hok.
    cbn [negb]. rewrite Hjson. unfold bind at 1, lift at 1.
    rewrite Herr. unfold bind at 1, lift at 1. rewrite Hfalsy.
    reflexivity. }
  rewrite Hsend. unfold ret at 1. unfold bind at 1, lift at 1.
  rewrite Hlead. reflexivity.
Qed.

Lemma starts_with_app (a b c : jsstring) :
  starts_with (a ++ b) (a ++ c) = starts_with b c.
Proof.
  induction a as [|x a IH]; [reflexivity|].
  cbn [app starts_with]. unfold unit_eqb. now rewrite Z.eqb_refl, IH.
Qed.

Lemma starts_with_prefix (a c : jsstring) : starts_with a (a ++ c) = true.
Proof.
  rewrite <- (app_nil_r a) at 1. rewrite starts_with_app. reflexivity.
Qed.

Lemma endpoint_url (hook : jsstring) :
  let url := hook ++ (if ends_with (js "/") hook then js "" else js "/")
                  ++ js "crm.lead.add" in
  ends_with (js "/crm.lead.add") url = true
  /\ starts_with hook url = true.
Proof.
  cbv zeta. split; [|apply starts_with_prefix].
  unfold ends_with at 1. rewrite !rev_app_distr.
  change (rev (js "/crm.lead.add")) with (rev (js "crm.lead.add") ++ [47%Z]).
  rewrite <- app_assoc, starts_with_app.
  destruct (ends_with (js "/") hook) eqn:E.
  - exact E.
  - reflexivity.
Qed.

(** X15. [sendToBitrix24] returns a body only when a webhook is
    configured, the one request it makes (to the webhook followed by
    [/crm.lead.add], a slash being added only where the webhook does
    not end in one) was answered with an OK response, that body was
    parsed, is neither [null] nor carries a truthy [error]; everything
    else is an exception. *)
Theorem sendToBitrix24_returns (p : lead_payload) (w w' : world Env)
        (data : json) :
  sendToBitrix24 B p w = (w', Ret data) ->
  truthy_str (webhookUrl (config w)) = true
  /\ exists url resp err,
      ends_with (js "/crm.lead.add") url = true
      /\ starts_with (webhookUrl (config w)) url = true
      /\ fetch_post B url p (env w) = (env w', Ret resp)
      /\ w' = with_env (env w') w
      /\ resp_ok resp = true
      /\ resp_json resp = Ret data
      /\ member (Some data) (js "error") = Ret err
      /\ truthy err = false.
Proof.
  unfold sendToBitrix24. unfold bind at 1, read at 1.
  destruct (truthy_str (webhookUrl (config w))) eqn:Hcfg; cbn [negb];
    [|discriminate].
  destruct (endpoint_url (webhookUrl (config w))) as [Hend Hstart].
  cbv zeta in Hend, Hstart. unfold bind at 1, ask.
  match goal with
  | |- context [fetch_post B ?url p (env w)] =>
    set (u := url) in *;
      destruct (fetch_post B u p (env w)) as [e1 [resp|x]] eqn:Hfetch
  end; [|discriminate].
  destruct (resp_ok resp) eqn:Hok; cbn [negb]; [|discriminate].
  unfold bind at 1, lift at 1.
  destruct (resp_json resp) as [d|x] eqn:Hjson; [|discriminate].
  unfold bind at 1, lift at 1.
  destruct (member (Some d) (js "error")) as [err|x] eqn:Herr;
    [|discriminate].
  destruct (truthy err) eqn:Hfalsy.
  - unfold bind, lift.
    destruct (member (Some d) (js "error_description")); discriminate.
  - intros H; injection H as <- <-. split; [reflexivity|].
    exists u, resp, err. cbn [env with_env]. repeat split; assumption.
Qed.

(** *** The email tier on well-formed text *)

Lemma plain_app (a b : jsstring) : plain (a ++ b) = plain a && plain b.
Proof. apply forallb_app. Qed.

Lemma encodeURIComponent_plain (s : jsstring) :
  plain s = true -> exists t, encodeURIComponent s = Ret t.
Proof.
  induction s as [|c rest IH]; [now exists []|].
  cbn [plain forallb]. intros H. apply andb_true_iff in H.
  destruct H as [Hc Hrest]. destruct (IH Hrest) as [t Ht].
  apply negb_true_iff, orb_false_iff in Hc. destruct Hc as [Hhigh Hlow].
  simpl. rewrite Ht, Hhigh, Hlow.
  destruct (is_unreserved c); eauto.
Qed.

Lemma getProgramName_plain (p : jsstring) :
  plain p = true -> plain (getProgramName p) = true.
Proof.
  intros H. unfold getProgramName.
  destruct (str_eqb p (js "heroes")); [reflexivity|].
  destruct (str_eqb p (js "ancients")); [reflexivity|].
  destruct (str_eqb p (js "not_sure")); [reflexivity|exact H].
Qed.

Lemma not_given_plain (s : jsstring) :
  plain s = true -> plain (not_given s) = true.
Proof.
  intros H. unfold not_given.
  destruct (truthy_str s); [exact H|reflexivity].
Qed.

Ltac plainly :=
  repeat match goal with
         | |- plain (_ ++ _) = true => rewrite plain_app
         | |- _ && _ = true => apply andb_true_intro; split
         | |- plain (getProgramName _) = true => apply getProgramName_plain
         | |- plain (not_given _) = true => apply not_given_plain
         | |- plain (if ?b then _ else _) = true => destruct b
         | |- plain (js _) = true => vm_compute; reflexivity
         | |- plain nl = true => reflexivity
         | |- plain _ = true => assumption
         end.

Lemma sendViaEmail_plain (fd : FormData) (u : utm_params) (d : device_info)
      (w : world Env) :
  plain_form fd = true ->
  plain (utm_source u) = true -> plain (utm_medium u) = true ->
  plain (utm_campaign u) = true ->
  plain (device_type d) = true -> plain (device_os d) = true ->
  plain (device_browser d) = true ->
  plain (locale_now B (env w)) = true ->
  exists r, sendViaEmail B fd u d w = (w, Ret r).
Proof.
  unfold plain_form. intros Hfd Hs Hm Hc Ht Ho Hb Hnow.
  apply andb_true_iff in Hfd. destruct Hfd as [Hfd Hcomment].
  apply andb_true_iff in Hfd. destruct Hfd as [Hfd Hchildren].
  apply andb_true_iff in Hfd. destruct Hfd as [Hfd Hprogram].
  apply andb_true_iff in Hfd. destruct Hfd as [Hname Hphone].
  unfold sendViaEmail. cbv zeta.
  unfold bind at 1. unfold read at 1.
  unfold bind at 1. unfold lift at 1.
  match goal with
  | |- context [encodeURIComponent ?x] =>
    destruct (encodeURIComponent_plain x) as [subject ->]; [plainly|]
  end.
  unfold bind at 1. unfold lift at 1.
  match goal with
  | |- context [match encodeURIComponent ?x with _ => _ end] =>
    destruct (encodeURIComponent_plain x) as [body ->]; [plainly|]
  end.
  eexists. reflexivity.
Qed.

Lemma getDeviceInfo_plain (w : world Env) :
  exists d, getDeviceInfo B w = (w, Ret d)
            /\ plain (device_type d) = true /\ plain (device_os d) = true
            /\ plain (device_browser d) = true.
Proof.
  unfold getDeviceInfo, read. eexists. split; [reflexivity|].
  cbv zeta. cbn [device_type device_os device_browser].
  repeat split; plainly.
Qed.

Lemma getUTMParams_plain (w : world Env) :
  (forall e k v, query_param B e k = Some v -> plain v = true) ->
  exists u, getUTMParams B w = (w, Ret u)
            /\ plain (utm_source u) = true /\ plain (utm_medium u) = true
            /\ plain (utm_campaign u) = true.
Proof.
  intros Hq. unfold getUTMParams, read. eexists. split; [reflexivity|].
  cbv zeta. cbn [utm_source utm_medium utm_campaign]. unfold or_empty.
  repeat split;
    match goal with
    | |- plain (match query_param B ?e ?k with _ => _ end) = true =>
      destruct (query_param B e k) as [v|] eqn:E;
        [exact (Hq e k v E)|reflexivity]
    end.
Qed.

(** X16. On text without surrogate code units (in the form, the UTM
    tags of the address and the clock's text) the email tier always
    returns, so [createLead] never throws: whatever the CRM does, the
    visitor's lead is reported as sent. *)
Theorem createLead_plain_text (fd : FormData) (w : world Env) :
  plain_form fd = true ->
  (forall e, plain (locale_now B e) = true) ->
  (forall e k v, query_param B e k = Some v -> plain v = true) ->
  exists w' r, createLead B fd w = (w', Ret r) /\ success r = true.
Proof.
  intros Hfd Hnow Hq.
  destruct (getUTMParams_plain w Hq) as (u & Hu & Hs & Hm & Hc).
  destruct (getDeviceInfo_plain w) as (d & Hd & Ht & Ho & Hb).
  unfold createLead. unfold bind at 1. rewrite Hu.
  unfold bind at 1. rewrite Hd. cbv zeta.
  unfold try_catch at 1. unfold bind at 1, read at 1. unfold bind at 1.
  assert (Hmail : forall w1, exists r,
               sendViaEmail B fd u d w1 = (w1, Ret r)).
  { intros w1. apply sendViaEmail_plain; auto. }
  match goal with
  | |- context [retryWithBackoff B ?fn ?a ?dl w] =>
    destruct (retryWithBackoff B fn a dl w) as [w1 [res|e]]
  end.
  - unfold bind at 1, lift at 1.
    destruct (member res (js "result")) as [lead|e].
    + eexists _, _. split; reflexivity.
    + destruct (Hmail w1) as [r Hr]. unfold try_catch, bind. rewrite Hr.
      eexists _, _. split; reflexivity.
  - destruct (Hmail w1) as [r Hr]. unfold try_catch, bind. rewrite Hr.
    eexists _, _. split; reflexivity.
Qed.

End BackoffFacts.

Section BackoffScenarios.

Import Json Effects Validation Page Crm Scenario FurtherScenario.

Lemma retryWithBackoff_schedule_witness :
  exists w' e,
    retryWithBackoff offline failing_request 4 500 fresh = (w', Throw e)
    /\ waited w' = waited fresh ++ backoff_schedule 4 500.
Proof.
  assert (Hlog : forall w : world nat,
             waited (fst (failing_request w)) = waited w)
    by (intros w; reflexivity).
  assert (Hpos : (1 <= 4)%Z) by lia.
  exact (retryWithBackoff_schedule nat offline failing_request 4 500 fresh
                                   failing_request_throws Hlog Hpos).
Defined.

Lemma createLead_no_attempts_witness :
  exists o,
    createLead offline applicant no_retry = (no_retry, o)
    /\ match o with
       | Ret r => method r = js "email_fallback"
                  /\ warning r = Some fallback_warning
       | Throw e => e = generic_failure
       end.
Proof.
  assert (Hnone : (retryAttempts (config no_retry) <= 0)%Z)
    by (vm_compute; discriminate).
  exact (proj2 (createLead_no_attempts nat offline applicant no_retry
                                       Hnone)).
Defined.

Lemma createLead_unconfigured_witness :
  exists o,
    createLead offline applicant unconfigured
    = (after_waits offline (backoff_schedule 3 1000) unconfigured, o)
    /\ match o with
       | Ret r => method r = js "email_fallback"
                  /\ warning r = Some fallback_warning
       | Throw e => e = generic_failure
       end.
Proof.
  assert (Hcfg : webhookUrl (config unconfigured) = []) by reflexivity.
  assert (Hpos : (1 <= retryAttempts (config unconfigured))%Z)
    by (vm_compute; discriminate).
  exact (createLead_unconfigured nat offline applicant unconfigured
                                 Hcfg Hpos).
Defined.

Lemma createLead_first_attempt_witness :
  exists lead,
    member (Some lead_body) (js "result") = Ret lead
    /\ createLead crm_online applicant fresh
       = (with_env 1 fresh,
          Ret {| success := true;
                 leadId := Some lead;
                 method := js "bitrix24";
                 result_message := js "Заявка успешно отправлена в Bitrix24";
                 warning := None |}).
Proof.
  refine (createLead_first_attempt
            nat crm_online applicant fresh 1
            {| resp_ok := true;
               resp_status := 200;
               resp_statusText := js "OK";
               resp_json := Ret lead_body |}
            lead_body None _ _ _ _ _ _ _).
  - vm_compute. reflexivity.
  - vm_compute. discriminate.
  - intros url p. reflexivity.
  - reflexivity.
  - reflexivity.
  - vm_compute. reflexivity.
  - reflexivity.
Defined.

Lemma sendToBitrix24_returns_witness :
  truthy_str (webhookUrl (config fresh)) = true.
Proof.
  assert (Hrun : sendToBitrix24 crm_online
                   (createLeadPayload applicant no_utm linux_firefox) fresh
                 = (with_env 1 fresh, Ret lead_body))
    by (vm_compute; reflexivity).
  exact (proj1 (sendToBitrix24_returns nat crm_online _ fresh _ lead_body
                                       Hrun)).
Defined.

Lemma createLead_plain_text_witness :
  exists w' r,
    createLead offline applicant fresh = (w', Ret r) /\ success r = true.
Proof.
  assert (Hfd : plain_form applicant = true) by (vm_compute; reflexivity).
  assert (Hnow : forall e, plain (locale_now offline e) = true)
    by (intros e; vm_compute; reflexivity).
  assert (Hq : forall e k v,
             query_param offline e k = Some v -> plain v = true)
    by (intros e k v H; discriminate H).
  exact (createLead_plain_text nat offline applicant fresh Hfd Hnow Hq).
Defined.

End BackoffScenarios.

Section SubmitScenarios.

Import Json Effects Validation Page Scenario FurtherScenario.

Lemma invalid_form_not_sent_witness :
  exists w',
    handleFormSubmit offline hasty fresh = (w', Ret tt)
    /\ env w' = env fresh /\ waited w' = waited fresh
    /\ focused (ui w') = [js "name"].
Proof.
  assert (Hbad : 0 < error_count (validateForm hasty))
    by (vm_compute; lia).
  destruct (invalid_form_not_sent nat offline hasty fresh Hbad)
    as (w' & Hrun & He & Hw & _ & _ & _ & _ & Hf & _).
  exists w'. repeat split; assumption.
Defined.

Lemma valid_form_settles_witness :
  exists w2, handleFormSubmit online applicant fresh = (w2, Ret tt).
Proof.
  assert (Hvalid : error_count (validateForm applicant) = 0)
    by (vm_compute; reflexivity).
  destruct (valid_form_settles nat online applicant fresh Hvalid)
    as (w1 & o & w2 & _ & Hrun & _).
  exists w2. exact Hrun.
Defined.

End SubmitScenarios.

(** ** The loader of the block settings *)

Section LoaderFacts.

Import Json Effects Blocks BlocksEvents.
Local Open Scope monad_scope.

Variable Env : Type.
Variable B : browser Env.

(** What [recoverFromDefault] asks of the outside. *)
Lemma recoverFromDefault_shape (w : world Env) :
  snd (recoverFromDefault B w) = Ret tt
  /\ exists tail,
      requests (fst (recoverFromDefault B w))
      = requests w ++ Fetch (js "data/settings-default.json") :: tail
      /\ (tail = [] \/ exists doc, tail = [Save (js "settings.json") doc]).
Proof.
  split; [apply recoverFromDefault_returns|].
  rewrite recoverFromDefault_unfold. cbv zeta.
  set (w1 := with_env _ (with_request _ w)).
  assert (Hshow : exists tail,
             requests (fst (showAllSections w1))
             = requests w ++ Fetch (js "data/settings-default.json") :: tail
             /\ (tail = []
                 \/ exists doc, tail = [Save (js "settings.json") doc])).
  { exists []. rewrite showAllSections_run. split; [reflexivity|now left]. }
  destruct (snd (fetch_json B _ (env w))) as [doc|x]; [|exact Hshow].
  destruct (member (Some doc) (js "sections")) as [sections|x]; [|exact Hshow].
  destruct (truthy sections); [|exact Hshow].
  destruct (keys sections) as [ks|x]; [|exact Hshow].
  destruct (0 <? length ks); [|exact Hshow].
  rewrite saveRecoveredSettings_run. cbn [fst].
  exists (save_requests B doc).
  destruct (saved_frame Env B doc (with_settings sections w1))
    as (Hsaved & _).
  split;
    [|unfold save_requests; destruct (save_data B);
      [right; now exists doc|now left]].
  match goal with
  | |- context [applySectionsSettings B ?x] =>
    pose proof (proj1 (quiet_applySectionsSettings Env B x)) as Hq;
      destruct (applySectionsSettings B x) as [w' [a|e]]
  end; cbn [fst] in *.
  - rewrite Hq, Hsaved. subst w1.
    cbn [requests with_env with_request with_settings].
    now rewrite <- app_assoc.
  - rewrite showAllSections_run. cbn [fst requests with_dom].
    rewrite Hq, Hsaved.
    subst w1. cbn [requests with_env with_request with_settings].
    now rewrite <- app_assoc.
Qed.

(** X17. Loading the block settings never throws, whatever the network,
    the documents and the hydration of the texts do, and it asks the
    outside for the settings document first and then for nothing more,
    or for the default document, or for the default document and one
    save under the name [settings.json]. *)
Theorem loadSectionsSettings_requests (w : world Env) :
  snd (loadSectionsSettings B w) = Ret tt
  /\ exists tail,
      requests (fst (loadSectionsSettings B w))
      = requests w ++ Fetch (js "data/settings.json") :: tail
      /\ (tail = []
          \/ tail = [Fetch (js "data/settings-default.json")]
          \/ exists doc,
              tail = [Fetch (js "data/settings-default.json");
                      Save (js "settings.json") doc]).
Proof.
  rewrite loadSectionsSettings_unfold. cbv zeta.
  set (w1 := with_env _ (with_request _ w)).
  assert (Hrec : forall w2,
             requests w2 = requests w ++ [Fetch (js "data/settings.json")] ->
             snd (recoverFromDefault B w2) = Ret tt
             /\ exists tail,
                 requests (fst (recoverFromDefault B w2))
                 = requests w ++ Fetch (js "data/settings.json") :: tail
                 /\ (tail = []
                     \/ tail = [Fetch (js "data/settings-default.json")]
                     \/ exists doc,
                         tail = [Fetch (js "data/settings-default.json");
                                 Save (js "settings.json") doc])).
  { intros w2 H2.
    destruct (recoverFromDefault_shape w2) as (Hret & tail & Hreq & Htail).
    split; [exact Hret|].
    exists (Fetch (js "data/settings-default.json") :: tail).
    split; [rewrite Hreq, H2, <- app_assoc; reflexivity|].
    destruct Htail as [->|[doc ->]]; [now right; left|].
    right; right. now exists doc. }
  assert (H1 : requests w1
               = requests w ++ [Fetch (js "data/settings.json")])
    by reflexivity.
  destruct (snd (fetch_json B _ (env w))) as [settings|x];
    [|exact (Hrec w1 H1)].
  destruct (negb (valid (validateSettingsIntegrity settings)));
    [exact (Hrec w1 H1)|].
  destruct (member (Some settings) (js "sections")) as [sections|x];
    [|exact (Hrec w1 H1)].
  pose proof (proj1 (quiet_applySectionsSettings
                       Env B (with_settings sections w1))) as Hq.
  destruct (applySectionsSettings B (with_settings sections w1))
    as [w' [[]|e]]; cbn [fst snd] in *.
  - split; [reflexivity|]. exists []. split; [|now left].
    rewrite Hq. exact H1.
  - apply Hrec. rewrite Hq. exact H1.
Qed.

(** *** The stored settings and the page events that read them *)

Lemma valid_has_keys (settings : json) (sections : jsval) :
  valid (validateSettingsIntegrity settings) = true ->
  member (Some settings) (js "sections") = Ret sections ->
  exists ks, keys sections = Ret ks /\ 0 < length ks.
Proof.
  unfold validateSettingsIntegrity, validate_body. intros Hv Hm.
  rewrite Hm in Hv.
  destruct (negb (truthy sections)
            || negb (js_type_eqb (typeof sections) TObject));
    [discriminate|].
  destruct (keys sections) as [ks|x]; [|discriminate].
  exists ks. split; [reflexivity|].
  destruct ks; [discriminate|cbn; lia].
Qed.

Lemma recoverFromDefault_settings (w : world Env) :
  sectionsSettings (fst (recoverFromDefault B w)) = sectionsSettings w
  \/ exists ks,
      keys (sectionsSettings (fst (recoverFromDefault B w))) = Ret ks
      /\ 0 < length ks.
Proof.
  rewrite recoverFromDefault_unfold. cbv zeta.
  set (w1 := with_env _ (with_request _ w)).
  assert (Hshow : sectionsSettings (fst (showAllSections w1))
                  = sectionsSettings w)
    by (rewrite showAllSections_run; reflexivity).
  destruct (snd (fetch_json B _ (env w))) as [doc|x]; [|now left].
  destruct (member (Some doc) (js "sections")) as [sections|x]; [|now left].
  destruct (truthy sections); [|now left].
  destruct (keys sections) as [ks|x] eqn:Hk; [|now left].
  destruct (0 <? length ks) eqn:Hn; [|now left].
  right. exists ks. apply Nat.ltb_lt in Hn. split; [|exact Hn].
  rewrite saveRecoveredSettings_run. cbn [fst].
  destruct (saved_frame Env B doc (with_settings sections w1))
    as (_ & Hsaved & _).
  match goal with
  | |- context [applySectionsSettings B ?x] =>
    pose proof (proj2 (quiet_applySectionsSettings Env B x)) as Hq;
      destruct (applySectionsSettings B x) as [w' [a|e]]
  end; cbn [fst] in *.
  - rewrite Hq, Hsaved. exact Hk.
  - rewrite showAllSections_run. cbn [fst sectionsSettings with_dom].
    rewrite Hq, Hsaved. exact Hk.
Qed.

Lemma loadSectionsSettings_settings (w : world Env) :
  sectionsSettings (fst (loadSectionsSettings B w)) = sectionsSettings w
  \/ exists ks,
      keys (sectionsSettings (fst (loadSectionsSettings B w))) = Ret ks
      /\ 0 < length ks.
Proof.
  rewrite loadSectionsSettings_unfold. cbv zeta.
  set (w1 := with_env _ (with_request _ w)).
  assert (Hrec : sectionsSettings (fst (recoverFromDefault B w1))
                 = sectionsSettings w
                 \/ exists ks,
                     keys (sectionsSettings (fst (recoverFromDefault B w1)))
                     = Ret ks /\ 0 < length ks)
    by exact (recoverFromDefault_settings w1).
  destruct (snd (fetch_json B _ (env w))) as [settings|x]; [|exact Hrec].
  destruct (valid (validateSettingsIntegrity settings)) eqn:Hv;
    cbn [negb]; [|exact Hrec].
  destruct (member (Some settings) (js "sections")) as [sections|x] eqn:Hm;
    [|exact Hrec].
  destruct (valid_has_keys settings sections Hv Hm) as (ks & Hk & Hn).
  pose proof (proj2 (quiet_applySectionsSettings
                       Env B (with_settings sections w1))) as Hq.
  destruct (applySectionsSettings B (with_settings sections w1))
    as [w' [a|e]]; cbn [fst] in *.
  - right. exists ks. rewrite Hq. now split.
  - destruct (recoverFromDefault_settings w') as [Hsame|Hnew].
    + right. exists ks. rewrite Hsame, Hq. now split.
    + now right.
Qed.

(** X19. On a page that starts without stored settings, after the
    loader has run either nothing is stored still, and then the
    periodic check loads again while the [programsLoaded] listener does
    nothing; or settings with at least one key are stored, and then the
    periodic check does nothing and changes nothing, while the
    [programsLoaded] listener applies the settings again.  Neither of the two ever fails
    on reading the stored settings. *)
Theorem page_events_after_load (w : world Env) :
  keys (sectionsSettings w) = Ret [] ->
  let w' := fst (loadSectionsSettings B w) in
  (sectionsSettings w' = sectionsSettings w
   /\ periodic_check B w' = loadSectionsSettings B w'
   /\ on_programsLoaded B w' = (w', Ret tt))
  \/ ((exists ks, keys (sectionsSettings w') = Ret ks /\ 0 < length ks)
      /\ periodic_check B w' = (w', Ret tt)
      /\ on_programsLoaded B w' = applySectionsSettings B w').
Proof.
  intros Hempty w'.
  destruct (loadSectionsSettings_settings w) as [Hsame|(ks & Hk & Hn)];
    fold w' in Hsame || fold w' in Hk.
  - left. split; [exact Hsame|].
    unfold periodic_check, on_programsLoaded, bind, read, lift.
    rewrite Hsame, Hempty. split; reflexivity.
  - right. split; [now exists ks|].
    unfold periodic_check, on_programsLoaded, bind, read, lift.
    rewrite Hk.
    destruct ks as [|k ks]; [cbn in Hn; lia|]. split; reflexivity.
Qed.

(** X20. A settings document that passes the integrity check is still
    replaced when applying it to the page throws: the loader turns to
    the default document, and if that has a non-empty sections mapping
    it is the default's sections that are stored; with the adapter
    loaded the default document is also sent to be saved under the name
    [settings.json], over the valid document, and without the adapter
    nothing is saved. *)
Theorem valid_settings_overwritten (w w2 : world Env) (settings doc : json)
        (sections secs : jsval) (x : exn) :
  snd (fetch_json B (js "data/settings.json") (env w)) = Ret settings ->
  valid (validateSettingsIntegrity settings) = true ->
  member (Some settings) (js "sections") = Ret sections ->
  applySectionsSettings
    B (with_settings
         sections
         (with_env (fst (fetch_json B (js "data/settings.json") (env w)))
                   (with_request (Fetch (js "data/settings.json")) w)))
  = (w2, Throw x) ->
  snd (fetch_json B (js "data/settings-default.json") (env w2)) = Ret doc ->
  nonempty_mapping doc = Some secs ->
  requests (fst (loadSectionsSettings B w))
  = requests w
      ++ [Fetch (js "data/settings.json");
          Fetch (js "data/settings-default.json")]
      ++ match save_data B with
         | Some _ => [Save (js "settings.json") doc]
         | None => []
         end
  /\ sectionsSettings (fst (loadSectionsSettings B w)) = secs.
Proof.
  intros Hfetch Hvalid Hmem Happly Hdefault Hmap.
  destruct (nonempty_mapping_sections doc secs Hmap)
    as (Hmem2 & Htruthy & ks & Hkeys & Hlen).
  pose proof (proj1 (quiet_applySectionsSettings
                       Env B
                       (with_settings
                          sections
                          (with_env
                             (fst (fetch_json B (js "data/settings.json")
                                              (env w)))
                             (with_request (Fetch (js "data/settings.json"))
                                           w))))) as Hq.
  rewrite Happly in Hq. cbn [fst requests with_settings with_env with_request]
    in Hq.
  rewrite loadSectionsSettings_unfold. cbv zeta.
  rewrite Hfetch, Hvalid. cbn [negb]. rewrite Hmem, Happly.
  rewrite recoverFromDefault_unfold. cbv zeta.
  rewrite Hdefault, Hmem2, Htruthy, Hkeys, Hlen.
  rewrite saveRecoveredSettings_run. cbn [fst].
  match goal with
  | |- context [saved B doc ?y] =>
    destruct (saved_frame Env B doc y) as (Hsr & Hss & _)
  end.
  change (match save_data B with
          | Some _ => [Save (js "settings.json") doc]
          | None => []
          end) with (save_requests B doc).
  match goal with
  | |- context [applySectionsSettings B ?y] =>
    destruct (quiet_applySectionsSettings Env B y) as [Hr Hs];
      destruct (applySectionsSettings B y) as [w' [a|e]]
  end; cbn [fst] in *.
  - rewrite Hr, Hs, Hsr, Hss.
    cbn [requests sectionsSettings with_env with_request with_settings].
    rewrite Hq, <- !app_assoc. split; reflexivity.
  - rewrite showAllSections_run.
    cbn [fst requests sectionsSettings with_dom]. rewrite Hr, Hs, Hsr, Hss.
    cbn [requests sectionsSettings with_env with_request with_settings].
    rewrite Hq, <- !app_assoc. split; reflexivity.
Qed.

End LoaderFacts.

(** ** What the settings make of the page *)

Section VisibilityFacts.

Import Json Effects Blocks BlocksEvents.
Local Open Scope monad_scope.

Variable Env : Type.
Variable B : browser Env.

Lemma applySectionsSettings_loop :
  applySectionsSettings B
  = (for_each (apply_entry B) sectionMap ;; @handlePricingInPrograms Env).
Proof. reflexivity. Qed.

Lemma has_element_In (selector v : jsstring) (d : page_dom) :
  In (selector, v) d -> has_element selector d = true.
Proof.
  intros H. unfold has_element. apply existsb_exists.
  exists (selector, v). split; [exact H|]. now apply str_eqb_eq.
Qed.

Lemma set_display_other (selector value k v : jsstring) (d : page_dom) :
  k <> selector ->
  In (k, v) (set_display selector value d) <-> In (k, v) d.
Proof.
  intros Hk. unfold set_display. rewrite in_map_iff. split.
  - intros ([k0 v0] & E & Hin). cbn [fst] in E.
    destruct (str_eqb k0 selector) eqn:Es.
    + apply str_eqb_eq in Es. injection E as <- _. contradiction.
    + now injection E as <- <-.
  - intros Hin. exists (k, v). split; [|exact Hin]. cbn [fst].
    destruct (str_eqb k selector) eqn:Es; [|reflexivity].
    apply str_eqb_eq in Es. contradiction.
Qed.

(** What one entry of the section map leaves behind. *)
Lemma apply_entry_done (key selector : jsstring) (w w1 : world Env) :
  apply_entry B (key, selector) w = (w1, Ret tt) ->
  sectionsSettings w1 = sectionsSettings w
  /\ (forall v, In (selector, v) (dom w1) ->
                wanted_display (sectionsSettings w) key = Some v)
  /\ (forall k v, k <> selector ->
                  In (k, v) (dom w1) <-> In (k, v) (dom w)).
Proof.
  unfold apply_entry, wanted_display.
  unfold bind at 1, read at 1.
  destruct (has_element selector (dom w)) eqn:Hel.
  - unfold bind at 1, read at 1. unfold bind at 1, lift at 1.
    destruct (member (sectionsSettings w) key) as [setting|x];
      [|discriminate].
    unfold bind at 1, lift at 1.
    destruct (disabled_by setting) as [[|]|x]; [| |discriminate].
    + unfold update. intros H; injection H as <-.
      cbn [sectionsSettings dom with_dom]. split; [reflexivity|]. split.
      * intros v Hin. apply set_display_In in Hin.
        destruct Hin as [[_ ->]|[Hne _]]; [reflexivity|congruence].
      * intros k v Hk. now apply set_display_other.
    + unfold bind at 1, update at 1.
      set (w2 := with_dom (set_display selector (js "")) w).
      assert (Hrest : forall w3 : world Env,
                 sectionsSettings w3 = sectionsSettings w2 ->
                 dom w3 = dom w2 ->
                 sectionsSettings w3 = sectionsSettings w
                 /\ (forall v, In (selector, v) (dom w3) -> Some (js "") = Some v)
                 /\ (forall k v, k <> selector ->
                                 In (k, v) (dom w3) <-> In (k, v) (dom w))).
      { intros w3 Hs Hd. rewrite Hs, Hd. subst w2.
        cbn [sectionsSettings dom with_dom]. split; [reflexivity|]. split.
        - intros v Hin. apply set_display_In in Hin.
          destruct Hin as [[_ ->]|[Hne _]]; [reflexivity|congruence].
        - intros k v Hk. now apply set_display_other. }
      destruct (truthy setting).
      * unfold bind at 1, lift at 1.
        destruct (member setting (js "content")) as [content|x];
          [|discriminate].
        destruct (truthy content).
        -- unfold ask.
           destruct (applyContentChanges B key content (env w2))
             as [e1 [[]|x]]; [|discriminate].
           intros H; injection H as <-. now apply Hrest.
        -- intros H; injection H as <-. now apply Hrest.
      * intros H; injection H as <-. now apply Hrest.
  - intros H; injection H as <-. split; [reflexivity|]. split; [|tauto].
    intros v Hin. apply has_element_In in Hin. congruence.
Qed.

Lemma for_each_done (l : list (jsstring * jsstring)) :
  NoDup (map snd l) ->
  forall w w',
    for_each (apply_entry B) l w = (w', Ret tt) ->
    sectionsSettings w' = sectionsSettings w
    /\ (forall key selector v,
           In (key, selector) l -> In (selector, v) (dom w') ->
           wanted_display (sectionsSettings w) key = Some v)
    /\ (forall k v, ~ In k (map snd l) ->
                    In (k, v) (dom w') <-> In (k, v) (dom w)).
Proof.
  induction l as [|[key0 sel0] rest IH]; intros Hnd w w'.
  - intros H; injection H as <-. split; [reflexivity|].
    split; [intros ? ? ? []|intros; reflexivity].
  - cbn [for_each map snd] in *. inversion Hnd as [|? ? Hnew Hrest]; subst.
    unfold bind at 1.
    destruct (apply_entry B (key0, sel0) w) as [w1 [[]|x]] eqn:Hstep;
      [|discriminate].
    intros Hloop. apply apply_entry_done in Hstep.
    destruct Hstep as (Hs1 & Hsel1 & Hoth1).
    destruct (IH Hrest w1 w' Hloop) as (Hs & Hsel & Hoth).
    split; [congruence|]. split.
    + intros key selector v [E|Hin] Hv.
      * injection E as <- <-. apply Hsel1. now apply Hoth.
      * rewrite <- Hs1. now apply (Hsel key selector v).
    + intros k v Hk. cbn [In] in Hk.
      rewrite (Hoth k v) by tauto. apply Hoth1. intros ->. tauto.
Qed.

Lemma sectionMap_selectors : NoDup (map snd sectionMap).
Proof.
  vm_compute.
  repeat (apply NoDup_cons; [cbn [In]; intuition discriminate|]).
  apply NoDup_nil.
Qed.

Lemma same_selector (l : list (jsstring * jsstring))
      (k1 k2 selector : jsstring) :
  NoDup (map snd l) ->
  In (k1, selector) l -> In (k2, selector) l -> k1 = k2.
Proof.
  induction l as [|[k s] rest IH]; intros Hnd H1 H2; [contradiction|].
  cbn [map snd] in Hnd. inversion Hnd as [|? ? Hnew Hrest]; subst.
  destruct H1 as [E1|H1], H2 as [E2|H2].
  - congruence.
  - injection E1 as -> ->. exfalso. apply Hnew.
    apply in_map_iff. now exists (k2, selector).
  - injection E2 as -> ->. exfalso. apply Hnew.
    apply in_map_iff. now exists (k1, selector).
  - now apply IH.
Qed.

(** What the page looks like when [applySectionsSettings] has
    completed. *)
Lemma applySectionsSettings_done (w w' : world Env) :
  applySectionsSettings B w = (w', Ret tt) ->
  sectionsSettings w' = sectionsSettings w
  /\ (forall key selector v,
         In (key, selector) sectionMap -> In (selector, v) (dom w') ->
         wanted_display (sectionsSettings w) key = Some v)
  /\ (forall k v, ~ In k (map snd sectionMap) ->
                  In (k, v) (dom w') <-> In (k, v) (dom w)).
Proof.
  rewrite applySectionsSettings_loop. unfold bind at 1.
  destruct (for_each (apply_entry B) sectionMap w) as [w1 [[]|x]] eqn:Hloop;
    [|discriminate].
  destruct (for_each_done sectionMap sectionMap_selectors w w1 Hloop)
    as (Hs & Hsel & Hoth).
  unfold handlePricingInPrograms.
  unfold bind at 1, read at 1. unfold bind at 1, lift at 1.
  destruct (member (sectionsSettings w1) (js "pricing")) as [ps|x] eqn:Hps;
    [|discriminate].
  unfold bind at 1, lift at 1.
  destruct (disabled_by ps) as [[|]|x] eqn:Hoff; [| |discriminate].
  - unfold update. intros H; injection H as <-.
    cbn [sectionsSettings dom with_dom].
    split; [exact Hs|].
    destruct (has_element (js "#pricing") (dom w1)) eqn:Hel;
      [|split; assumption].
    split.
    + intros key selector v Hin Hv.
      destruct (list_eq_dec Z.eq_dec selector (js "#pricing")) as [->|Hne].
      * assert (key = js "pricing") as ->.
        { apply (same_selector sectionMap key (js "pricing") (js "#pricing")
                               sectionMap_selectors Hin).
          vm_compute. tauto. }
        apply set_display_In in Hv.
        destruct Hv as [[_ ->]|[Hne _]]; [|congruence].
        unfold wanted_display. rewrite <- Hs, Hps, Hoff. reflexivity.
      * apply (Hsel key selector v Hin).
        now apply (set_display_other (js "#pricing") (js "none")).
    + intros k v Hk. rewrite <- (Hoth k v Hk).
      apply set_display_other. intros ->. apply Hk. vm_compute. tauto.
  - intros H; injection H as <-. split; [exact Hs|split; assumption].
Qed.

(** X18. When [applySectionsSettings] completes, every element of the
    section map that the page has is hidden ([display] ['none']) if its
    section has a setting with [enabled === false] and shown ([display]
    ['']) otherwise; every other element keeps its display, and the
    stored settings are untouched. *)
Theorem applySectionsSettings_visibility (w w' : world Env) :
  applySectionsSettings B w = (w', Ret tt) ->
  sectionsSettings w' = sectionsSettings w
  /\ (forall key selector v,
         In (key, selector) sectionMap -> In (selector, v) (dom w') ->
         wanted_display (sectionsSettings w) key = Some v)
  /\ (forall k v, ~ In k (map snd sectionMap) ->
                  In (k, v) (dom w') <-> In (k, v) (dom w)).
Proof. exact (applySectionsSettings_done w w'). Qed.

End VisibilityFacts.

Section LoaderScenarios.

Import Json Effects Blocks BlocksEvents Scenario FurtherScenario.

Lemma applySectionsSettings_visibility_witness :
  wanted_display (Some good_sections) (js "pricing") = Some (js "none").
Proof.
  assert (Hrun : applySectionsSettings (serving None None) blocks_loaded
                 = (fst (applySectionsSettings (serving None None)
                                               blocks_loaded), Ret tt))
    by (vm_compute; reflexivity).
  refine (proj1 (proj2 (applySectionsSettings_visibility
                          nat (serving None None) blocks_loaded _ Hrun))
                (js "pricing") (js "#pricing") (js "none") _ _).
  - vm_compute. tauto.
  - vm_compute. tauto.
Defined.

Lemma page_events_after_load_witness :
  (sectionsSettings (fst (loadSectionsSettings (serving None None)
                                               blocks_fresh))
   = sectionsSettings blocks_fresh
   /\ periodic_check (serving None None)
                     (fst (loadSectionsSettings (serving None None)
                                                blocks_fresh))
      = loadSectionsSettings
          (serving None None)
          (fst (loadSectionsSettings (serving None None) blocks_fresh))
   /\ on_programsLoaded (serving None None)
                        (fst (loadSectionsSettings (serving None None)
                                                   blocks_fresh))
      = (fst (loadSectionsSettings (serving None None) blocks_fresh),
         Ret tt))
  \/ ((exists ks,
          keys (sectionsSettings
                  (fst (loadSectionsSettings (serving None None)
                                             blocks_fresh))) = Ret ks
          /\ 0 < length ks)
      /\ periodic_check (serving None None)
                        (fst (loadSectionsSettings (serving None None)
                                                   blocks_fresh))
         = (fst (loadSectionsSettings (serving None None) blocks_fresh),
            Ret tt)
      /\ on_programsLoaded (serving None None)
                           (fst (loadSectionsSettings (serving None None)
                                                      blocks_fresh))
         = applySectionsSettings
             (serving None None)
             (fst (loadSectionsSettings (serving None None) blocks_fresh))).
Proof.
  assert (Hempty : keys (sectionsSettings blocks_fresh) = Ret [])
    by reflexivity.
  exact (page_events_after_load nat (serving None None) blocks_fresh Hempty).
Defined.

Lemma valid_settings_overwritten_witness :
  requests (fst (loadSectionsSettings brittle blocks_fresh))
  = [Fetch (js "data/settings.json");
     Fetch (js "data/settings-default.json");
     Save (js "settings.json") good_settings]
  /\ sectionsSettings (fst (loadSectionsSettings brittle blocks_fresh))
     = Some good_sections.
Proof.
  refine (valid_settings_overwritten
            nat brittle blocks_fresh _ good_settings good_settings
            (Some good_sections) (Some good_sections) TypeError
            _ _ _ _ _ _).
  - reflexivity.
  - vm_compute. reflexivity.
  - reflexivity.
  - vm_compute. reflexivity.
  - reflexivity.
  - reflexivity.
Defined.

End LoaderScenarios.

(** ** The analytics queue *)

Section AnalyticsFacts.

Import Json Analytics.

Lemma trackEvent_queued (eventName : jsstring) (params : event_params)
      (s : state) :
  truthy (enabled s) = true -> metrikaInitialized s = false ->
  trackEvent eventName params s
  = with_queue (eventQueue s ++ [(eventName, params)]) s.
Proof. intros He Hi. unfold trackEvent. now rewrite He, Hi. Qed.

Lemma trackEvent_sent (eventName : jsstring) (params : event_params)
      (s : state) :
  truthy (enabled s) = true -> metrikaInitialized s = true ->
  ym_defined s = true ->
  trackEvent eventName params s
  = call_ym (YmReachGoal (counterId s) eventName params) s.
Proof. intros He Hi Hy. unfold trackEvent. now rewrite He, Hi, Hy. Qed.

(** Tracking a list of events before the initialization. *)
Lemma track_all_queued (evs : list event) (s : state) :
  truthy (enabled s) = true -> metrikaInitialized s = false ->
  fold_left (fun s (ev : event) => trackEvent (fst ev) (snd ev) s) evs s
  = with_queue (eventQueue s ++ evs) s.
Proof.
  revert s. induction evs as [|ev evs IH]; intros s He Hi; cbn [fold_left].
  - rewrite app_nil_r. now destruct s.
  - destruct ev as [eventName params]. cbn [fst snd].
    rewrite trackEvent_queued by assumption.
    rewrite IH by assumption. unfold with_queue; cbn.
    now rewrite <- app_assoc.
Qed.

(** Tracking a list of events after it. *)
Lemma track_all_sent (evs : list event) (s : state) :
  truthy (enabled s) = true -> metrikaInitialized s = true ->
  ym_defined s = true ->
  fold_left (fun s (ev : event) => trackEvent (fst ev) (snd ev) s) evs s
  = {| enabled := enabled s;
       counterId := counterId s;
       metrikaInitialized := metrikaInitialized s;
       eventQueue := eventQueue s;
       scrollDepthTracked := scrollDepthTracked s;
       ym_defined := ym_defined s;
       ym_calls :=
         ym_calls s
         ++ map (fun ev : event => YmReachGoal (counterId s) (fst ev) (snd ev))
                evs |}.
Proof.
  revert s. induction evs as [|ev evs IH]; intros s He Hi Hy;
    cbn [fold_left map].
  - rewrite app_nil_r. now destruct s.
  - rewrite trackEvent_sent by assumption.
    rewrite IH by assumption. unfold call_ym; cbn.
    now rewrite <- app_assoc.
Qed.

Lemma processEventQueue_flush (s : state) :
  truthy (enabled s) = true -> metrikaInitialized s = true ->
  ym_defined s = true ->
  processEventQueue s
  = {| enabled := enabled s;
       counterId := counterId s;
       metrikaInitialized := true;
       eventQueue := [];
       scrollDepthTracked := scrollDepthTracked s;
       ym_defined := true;
       ym_calls :=
         ym_calls s
         ++ map (fun ev : event => YmReachGoal (counterId s) (fst ev) (snd ev))
                (eventQueue s) |}.
Proof.
  intros He Hi Hy. unfold processEventQueue.
  destruct (eventQueue s) as [|ev q] eqn:Hq.
  - cbn. rewrite app_nil_r. destruct s; cbn in *. now subst.
  - cbn [length Nat.ltb Nat.leb]. rewrite <- Hq.
    rewrite track_all_sent by assumption.
    unfold with_queue; cbn. now rewrite Hi, Hy.
Qed.

Lemma initYandexMetrika_flush (s : state) :
  truthy (enabled s) = true -> truthy (counterId s) = true ->
  initYandexMetrika s
  = {| enabled := enabled s;
       counterId := counterId s;
       metrikaInitialized := true;
       eventQueue := [];
       scrollDepthTracked := scrollDepthTracked s;
       ym_defined := true;
       ym_calls :=
         (ym_calls s
          ++ (if ym_defined s then [] else [YmInit (counterId s)]))
         ++ map (fun ev : event => YmReachGoal (counterId s) (fst ev) (snd ev))
                (eventQueue s) |}.
Proof.
  intros He Hc. unfold initYandexMetrika. rewrite He, Hc. cbn [negb orb].
  destruct (ym_defined s) eqn:Hy.
  - rewrite processEventQueue_flush; [|exact He|reflexivity|exact Hy].
    cbn. now rewrite app_nil_r.
  - cbv zeta. rewrite processEventQueue_flush; [|exact He|reflexivity..].
    reflexivity.
Qed.

(** X21. With analytics enabled and a counter configured, the events
    tracked before the initialization are kept back, and the
    initialization delivers them all to the counter, once each and in
    the order they were tracked, right behind the call that sets the
    counter up (made only when the page had no [ym] yet); the queue is
    empty afterwards. *)
Theorem queued_events_delivered (s : state) (evs : list event) :
  truthy (enabled s) = true -> truthy (counterId s) = true ->
  metrikaInitialized s = false ->
  let s1 :=
    fold_left (fun s (ev : event) => trackEvent (fst ev) (snd ev) s) evs s in
  let s2 := initYandexMetrika s1 in
  ym_calls s1 = ym_calls s
  /\ metrikaInitialized s2 = true
  /\ eventQueue s2 = []
  /\ ym_calls s2
     = ym_calls s
         ++ (if ym_defined s then [] else [YmInit (counterId s)])
         ++ map (fun ev : event => YmReachGoal (counterId s) (fst ev) (snd ev))
                (eventQueue s ++ evs).
Proof.
  intros He Hc Hi s1 s2. subst s2 s1.
  rewrite track_all_queued by assumption.
  split; [reflexivity|].
  rewrite initYandexMetrika_flush by assumption.
  cbn. rewrite <- app_assoc. repeat split.
Qed.

(** What a call leaves of the state when analytics is disabled. *)
Lemma run_call_disabled (c : call) (s : state) :
  truthy (enabled s) = false ->
  enabled (run_call s c) = enabled s
  /\ ym_calls (run_call s c) = ym_calls s
  /\ eventQueue (run_call s c) = eventQueue s
  /\ metrikaInitialized (run_call s c) = metrikaInitialized s
  /\ ym_defined (run_call s c) = ym_defined s.
Proof.
  intros He.
  assert (Hscroll : forall p s0,
             truthy (enabled s0) = false ->
             enabled (trackScrollDepth p s0) = enabled s0
             /\ ym_calls (trackScrollDepth p s0) = ym_calls s0
             /\ eventQueue (trackScrollDepth p s0) = eventQueue s0
             /\ metrikaInitialized (trackScrollDepth p s0)
                = metrikaInitialized s0
             /\ ym_defined (trackScrollDepth p s0) = ym_defined s0).
  { intros p s0 H0. unfold trackScrollDepth, trackEvent.
    destruct (depth_tracked p s0); [repeat split|].
    cbn [enabled mark_depth]. rewrite H0. repeat split. }
  destruct c as [eventName params| |p|at_least]; cbn [run_call].
  - unfold trackEvent. rewrite He. repeat split.
  - unfold initYandexMetrika. rewrite He. repeat split.
  - now apply Hscroll.
  - unfold checkScrollDepth.
    assert (Hm : forall m s0,
               truthy (enabled s0) = false ->
               let s1 := if at_least m && negb (depth_tracked m s0)
                         then trackScrollDepth m s0 else s0 in
               enabled s1 = enabled s0
               /\ ym_calls s1 = ym_calls s0
               /\ eventQueue s1 = eventQueue s0
               /\ metrikaInitialized s1 = metrikaInitialized s0
               /\ ym_defined s1 = ym_defined s0).
    { intros m s0 H0. cbv zeta.
      destruct (at_least m && negb (depth_tracked m s0));
        [now apply Hscroll|repeat split]. }
    destruct (Hm 25%Z s He) as (E1 & C1 & Q1 & I1 & Y1).
    set (s1 := if at_least 25%Z && _ then _ else s) in *.
    assert (He1 : truthy (enabled s1) = false) by now rewrite E1.
    destruct (Hm 50%Z s1 He1) as (E2 & C2 & Q2 & I2 & Y2).
    set (s2 := if at_least 50%Z && _ then _ else s1) in *.
    assert (He2 : truthy (enabled s2) = false) by now rewrite E2.
    destruct (Hm 75%Z s2 He2) as (E3 & C3 & Q3 & I3 & Y3).
    set (s3 := if at_least 75%Z && _ then _ else s2) in *.
    assert (He3 : truthy (enabled s3) = false) by now rewrite E3.
    destruct (Hm 100%Z s3 He3) as (E4 & C4 & Q4 & I4 & Y4).
    repeat split; congruence.
Qed.

(** X22. While analytics is disabled nothing the page does with the
    module reaches the counter or the queue: whatever is tracked, also
    by the scroll listener, and however often the initialization runs,
    [ym] is never called or created, no event is queued, and the module
    stays uninitialized. *)
Theorem disabled_analytics_silent (calls : list call) (s : state) :
  truthy (enabled s) = false ->
  ym_calls (run calls s) = ym_calls s
  /\ eventQueue (run calls s) = eventQueue s
  /\ metrikaInitialized (run calls s) = metrikaInitialized s
  /\ ym_defined (run calls s) = ym_defined s.
Proof.
  unfold run. revert s.
  induction calls as [|c calls IH]; intros s He; cbn [fold_left].
  - repeat split.
  - destruct (run_call_disabled c s He) as (E & C & Q & I & Y).
    destruct (IH (run_call s c)) as (C' & Q' & I' & Y');
      [now rewrite E|].
    repeat split; congruence.
Qed.

(** *** A configuration without counter *)

Lemma only_queues_refl (s : state) : only_queues s s.
Proof.
  unfold only_queues. repeat split. exists []. now rewrite app_nil_r.
Qed.

Lemma only_queues_trans (s s1 s2 : state) :
  only_queues s s1 -> only_queues s1 s2 -> only_queues s s2.
Proof.
  intros (E1 & C1 & I1 & Y1 & D1 & a1 & Q1) (E2 & C2 & I2 & Y2 & D2 & a2 & Q2).
  unfold only_queues. repeat split; try congruence.
  exists (a1 ++ a2). now rewrite Q2, Q1, app_assoc.
Qed.

Lemma trackScrollDepth_only_queues (p : Z) (s : state) :
  truthy (enabled s) = true -> metrikaInitialized s = false ->
  only_queues s (trackScrollDepth p s).
Proof.
  intros He Hi. unfold trackScrollDepth.
  destruct (depth_tracked p s); [apply only_queues_refl|].
  rewrite trackEvent_queued by assumption.
  unfold only_queues; cbn. repeat split. eauto.
Qed.

Lemma run_call_only_queues (c : call) (s : state) :
  truthy (enabled s) = true -> truthy (counterId s) = false ->
  metrikaInitialized s = false ->
  only_queues s (run_call s c)
  /\ forall eventName v,
      c = Track eventName v ->
      eventQueue (run_call s c) = eventQueue s ++ [(eventName, Params v)].
Proof.
  intros He Hc Hi. split.
  - destruct c as [eventName params| |p|at_least]; cbn [run_call].
    + rewrite trackEvent_queued by assumption.
      unfold only_queues; cbn. repeat split. eauto.
    + unfold initYandexMetrika. rewrite He, Hc. apply only_queues_refl.
    + now apply trackScrollDepth_only_queues.
    + unfold checkScrollDepth.
      assert (Hm : forall m s0,
                 only_queues s s0 ->
                 only_queues s (if at_least m && negb (depth_tracked m s0)
                                then trackScrollDepth m s0 else s0)).
      { intros m s0 H0.
        destruct (at_least m && negb (depth_tracked m s0)); [|exact H0].
        apply only_queues_trans with s0; [exact H0|].
        destruct H0 as (E0 & _ & I0 & _).
        apply trackScrollDepth_only_queues; congruence. }
      repeat apply Hm. apply only_queues_refl.
  - intros eventName v ->. cbn [run_call].
    now rewrite trackEvent_queued by assumption.
Qed.

(** X23. With analytics enabled but no counter configured the module
    never initializes: whatever the page does, [ym] is neither created
    nor called, and every tracked event is added to a queue that is
    never emptied. *)
Theorem no_counter_events_pile_up (calls : list call) (s : state) :
  truthy (enabled s) = true -> truthy (counterId s) = false ->
  metrikaInitialized s = false ->
  ym_calls (run calls s) = ym_calls s
  /\ ym_defined (run calls s) = ym_defined s
  /\ metrikaInitialized (run calls s) = false
  /\ exists added,
      eventQueue (run calls s) = eventQueue s ++ added
      /\ forall eventName v,
          In (Track eventName v) calls -> In (eventName, Params v) added.
Proof.
  unfold run. revert s.
  induction calls as [|c calls IH]; intros s He Hc Hi; cbn [fold_left].
  - repeat split; [exact Hi|]. exists []. rewrite app_nil_r.
    split; [reflexivity|intros ? ? []].
  - destruct (run_call_only_queues c s He Hc Hi)
      as ((E & C & I & Y & D & a1 & Q) & Hlast).
    destruct (IH (run_call s c)) as (Y' & D' & I' & a2 & Q' & Hin);
      [congruence..|].
    repeat split; try congruence.
    exists (a1 ++ a2). split; [now rewrite Q', Q, app_assoc|].
    intros eventName v [->|Hlater].
    + pose proof (Hlast eventName v eq_refl) as Hb.
      rewrite Q in Hb. apply app_inv_head in Hb. subst a1.
      apply in_or_app. left. now left.
    + apply in_or_app. right. now apply Hin.
Qed.

(** *** Scroll milestones *)

Lemma scroll_events_app (a b : list event) :
  scroll_events (a ++ b) = scroll_events a ++ scroll_events b.
Proof. unfold scroll_events. now rewrite filter_app, map_app. Qed.

Lemma goals_app (a b : list ym_call) : goals (a ++ b) = goals a ++ goals b.
Proof. apply flat_map_app. Qed.

Lemma goals_reached (counter : jsval) (evs : list event) :
  goals (map (fun ev : event => YmReachGoal counter (fst ev) (snd ev)) evs)
  = evs.
Proof.
  induction evs as [|[n p] evs IH]; [reflexivity|].
  unfold goals in *. cbn [map flat_map fst snd app]. now rewrite IH.
Qed.

Lemma depth_untracked (p : Z) (s : state) :
  depth_tracked p s = false -> ~ In p (scrollDepthTracked s).
Proof.
  unfold depth_tracked. intros H Hin.
  assert (Ht : existsb (Z.eqb p) (scrollDepthTracked s) = true).
  { apply existsb_exists. exists p. split; [exact Hin|apply Z.eqb_refl]. }
  congruence.
Qed.

(** What tracking one event adds to the reported scroll events. *)
Lemma trackEvent_emitted (eventName : jsstring) (params : event_params)
      (s : state) :
  scrollDepthTracked (trackEvent eventName params s) = scrollDepthTracked s
  /\ (emitted (trackEvent eventName params s) = emitted s
      \/ exists a b,
          emitted s = a ++ b
          /\ emitted (trackEvent eventName params s)
             = a ++ scroll_events [(eventName, params)] ++ b).
Proof.
  unfold trackEvent.
  destruct (negb (truthy (enabled s))); [split; [reflexivity|now left]|].
  destruct (negb (metrikaInitialized s)).
  - split; [reflexivity|]. right.
    exists (emitted s), []. rewrite app_nil_r. split; [reflexivity|].
    unfold emitted; cbn [ym_calls eventQueue with_queue].
    now rewrite scroll_events_app, app_nil_r, app_assoc.
  - destruct (negb (ym_defined s)); [split; [reflexivity|now left]|].
    split; [reflexivity|]. right.
    exists (scroll_events (goals (ym_calls s))),
           (scroll_events (eventQueue s)).
    split; [reflexivity|].
    unfold emitted; cbn [ym_calls eventQueue call_ym].
    rewrite goals_app, scroll_events_app. cbn [goals flat_map app].
    now rewrite <- app_assoc.
Qed.

Lemma scroll_events_other (eventName : jsstring) (params : event_params) :
  str_eqb eventName (js "scroll_depth") = false ->
  scroll_events [(eventName, params)] = [].
Proof. intros H. unfold scroll_events. cbn [filter fst]. now rewrite H. Qed.

Lemma scroll_events_scroll (params : event_params) :
  scroll_events [(js "scroll_depth", params)] = [params].
Proof.
  unfold scroll_events. cbn [filter fst].
  now rewrite (proj2 (str_eqb_eq (js "scroll_depth") (js "scroll_depth"))
                     eq_refl).
Qed.

Lemma trackEvent_once_each (eventName : jsstring) (v : jsval) (s : state) :
  str_eqb eventName (js "scroll_depth") = false ->
  once_each s -> once_each (trackEvent eventName (Params v) s).
Proof.
  intros Hname [Hnd Hin]. unfold once_each.
  destruct (trackEvent_emitted eventName (Params v) s)
    as [-> [->|(a & b & Hab & ->)]]; [now split|].
  rewrite scroll_events_other by exact Hname.
  cbn [app]. rewrite <- Hab. now split.
Qed.

Lemma trackScrollDepth_once_each (p : Z) (s : state) :
  once_each s -> once_each (trackScrollDepth p s).
Proof.
  intros [Hnd Hin]. unfold trackScrollDepth.
  destruct (depth_tracked p s) eqn:Ht; [now split|].
  apply depth_untracked in Ht.
  assert (Hnew : ~ In (Percentage p) (emitted s)).
  { intros H. destruct (Hin _ H) as (q & Hq & Hm).
    injection Hq as ->. now apply Ht. }
  unfold once_each.
  destruct (trackEvent_emitted (js "scroll_depth") (Percentage p)
                               (mark_depth p s))
    as [-> [->|(a & b & Hab & ->)]];
    change (emitted (mark_depth p s)) with (emitted s) in *;
    cbn [scrollDepthTracked mark_depth].
  - split; [exact Hnd|]. intros x Hx.
    destruct (Hin x Hx) as (q & Hq & Hm). exists q. split; [exact Hq|].
    now right.
  - rewrite scroll_events_scroll. cbn [app].
    rewrite Hab in Hnd, Hin, Hnew. split.
    + apply (NoDup_Add (Add_app (Percentage p) a b)). now split.
    + intros x Hx. apply in_elt_inv in Hx.
      destruct Hx as [->|Hx].
      * exists p. split; [reflexivity|now left].
      * destruct (Hin x Hx) as (q & Hq & Hm). exists q.
        split; [exact Hq|now right].
Qed.

Lemma initYandexMetrika_once_each (s : state) :
  once_each s -> once_each (initYandexMetrika s).
Proof.
  intros Hs.
  destruct (truthy (enabled s)) eqn:He;
    [|unfold initYandexMetrika; now rewrite He].
  destruct (truthy (counterId s)) eqn:Hc;
    [|unfold initYandexMetrika; now rewrite He, Hc].
  rewrite initYandexMetrika_flush by assumption.
  destruct Hs as [Hnd Hin]. unfold once_each, emitted in *.
  cbn [ym_calls eventQueue scrollDepthTracked].
  rewrite !goals_app, goals_reached, !scroll_events_app.
  assert (Hinit : scroll_events
                    (goals (if ym_defined s then []
                            else [YmInit (counterId s)])) = [])
    by now destruct (ym_defined s).
  rewrite Hinit. change (scroll_events []) with (@nil event_params).
  rewrite !app_nil_r. now split.
Qed.

Lemma run_call_once_each (c : call) (s : state) :
  no_direct_scroll c = true ->
  once_each s -> once_each (run_call s c).
Proof.
  intros Hc Hs.
  destruct c as [eventName params| |p|at_least]; cbn [run_call].
  - apply trackEvent_once_each; [|exact Hs].
    cbn [no_direct_scroll] in Hc. now apply negb_true_iff in Hc.
  - now apply initYandexMetrika_once_each.
  - now apply trackScrollDepth_once_each.
  - unfold checkScrollDepth.
    assert (Hm : forall m s0,
               once_each s0 ->
               once_each (if at_least m && negb (depth_tracked m s0)
                          then trackScrollDepth m s0 else s0)).
    { intros m s0 H0.
      destruct (at_least m && negb (depth_tracked m s0)); [|exact H0].
      now apply trackScrollDepth_once_each. }
    repeat apply Hm. exact Hs.
Qed.

(** X24. From the loaded module on, whatever the page does and in
    whatever order (events of other names tracked, initialization run
    or run again, scroll positions reported through [trackScrollDepth]
    or the scroll listener), as long as it does not call [trackEvent]
    with the name [scroll_depth] itself: no two [scroll_depth] events
    with the same percentage are reported, neither to the counter nor
    to the queue nor once to each, and every reported one carries a
    percentage that is marked as tracked. *)
Theorem scroll_milestones_once
        (cfg_enabled cfg_counterId : jsval) (ym_exists : bool)
        (calls : list call) :
  forallb no_direct_scroll calls = true ->
  once_each (run calls (loaded cfg_enabled cfg_counterId ym_exists)).
Proof.
  assert (Hstart : once_each (loaded cfg_enabled cfg_counterId ym_exists)).
  { split; [apply NoDup_nil|intros p []]. }
  revert Hstart. generalize (loaded cfg_enabled cfg_counterId ym_exists).
  unfold run. induction calls as [|c calls IH]; intros s Hs Hcalls;
    cbn [fold_left].
  - exact Hs.
  - cbn [forallb] in Hcalls. apply andb_true_iff in Hcalls.
    destruct Hcalls as [Hc Hcalls].
    apply IH; [|exact Hcalls]. now apply run_call_once_each.
Qed.

End AnalyticsFacts.

Section AnalyticsScenarios.

Import Json Analytics FurtherScenario.

Lemma queued_events_delivered_witness :
  ym_calls
    (initYandexMetrika
       (fold_left (fun s (ev : event) => trackEvent (fst ev) (snd ev) s)
                  two_events metrika_on))
  = ym_calls metrika_on
      ++ (if ym_defined metrika_on then []
          else [YmInit (counterId metrika_on)])
      ++ map (fun ev : event =>
                YmReachGoal (counterId metrika_on) (fst ev) (snd ev))
             (eventQueue metrika_on ++ two_events).
Proof.
  exact (proj2 (proj2 (proj2 (queued_events_delivered
                                metrika_on two_events
                                eq_refl eq_refl eq_refl)))).
Defined.

Lemma disabled_analytics_silent_witness :
  ym_calls (run [Track (js "page_view") None; InitMetrika; ScrollTo 25]
                metrika_off)
  = ym_calls metrika_off.
Proof.
  exact (proj1 (disabled_analytics_silent
                  [Track (js "page_view") None; InitMetrika; ScrollTo 25]
                  metrika_off eq_refl)).
Defined.

Lemma no_counter_events_pile_up_witness :
  ym_calls (run [Track (js "page_view") None; InitMetrika]
                metrika_no_counter)
  = ym_calls metrika_no_counter.
Proof.
  exact (proj1 (no_counter_events_pile_up
                  [Track (js "page_view") None; InitMetrika]
                  metrika_no_counter eq_refl eq_refl eq_refl)).
Defined.

Lemma scroll_milestones_once_witness :
  once_each
    (run [ScrollTo 25; Track (js "page_view") None; CheckScroll (Z.geb 60);
          InitMetrika; ScrollTo 25; CheckScroll (Z.geb 60)]
         (loaded (Some (JBool true)) (Some (JString (js "12345"))) false)).
Proof.
  apply (scroll_milestones_once
           (Some (JBool true)) (Some (JString (js "12345"))) false).
  vm_compute. reflexivity.
Defined.

(** A [scroll_depth] event the page tracks itself is not held back by
    the marks: the same percentage is reported twice. *)
Example direct_scroll_event_repeats :
  emitted (run [ScrollTo 25; Track (js "scroll_depth") None;
                Track (js "scroll_depth") None]
               (loaded (Some (JBool true)) (Some (JString (js "12345")))
                       false))
  = [Percentage 25; Params None; Params None].
Proof. vm_compute. reflexivity. Qed.

End AnalyticsScenarios.

(** ** The adapter to the Apps Script backend *)

Section AdapterFacts.

Import Json Effects Adapter.

(** X25. Through the deployed adapter (no local server) the media list
    can only be asked for without filters: with any query string the
    endpoint matches no case of [gasApiCall], and [loadMedia] fails
    with the unknown-endpoint error before any request is made. *)
Theorem loadMedia_filtered_unknown (cfg : GAS_CONFIG) (q : jsstring) :
  USE_LOCAL_SERVER cfg = false ->
  loadMedia cfg None = Ret (Jsonp (js "get-media") NoParams)
  /\ loadMedia cfg (Some q)
     = Throw (Error (Text (js "Unknown endpoint: "
                              ++ js "/api/media" ++ js "?" ++ q))).
Proof.
  intros Hgas. unfold loadMedia, apiCall. rewrite Hgas. cbv zeta.
  split; [reflexivity|].
  unfold gasApiCall.
  change (js "/api/media" ++ js "?" ++ q)
    with (47 :: 97 :: 112 :: 105 :: 47 :: 109 :: 101 :: 100 :: 105 :: 97
             :: 63 :: q)%Z.
  reflexivity.
Qed.

Lemma clean_up_invariant (finish : jsonp_request -> jsonp_request)
      (o : outcome jsval) (r : jsonp_request) :
  finish = settle o ->
  callback_defined r = script_in_head r ->
  (promise r = None <-> callback_defined r = true) ->
  let r' := fst (clean_up_then finish r) in
  callback_defined r' = script_in_head r'
  /\ (promise r' = None <-> callback_defined r' = true)
  /\ callback_defined r' = false
  /\ promise r' <> None
  /\ (promise r <> None -> promise r' = promise r)
  /\ snd (clean_up_then finish r) = negb (script_in_head r).
Proof.
  intros -> Hsame Hpending. unfold clean_up_then, settle.
  destruct r as [cb sc [p|]]; cbn in *; subst cb.
  - destruct sc; cbn; [|repeat split; try discriminate; intros; tauto].
    destruct Hpending as [_ H]. now specialize (H eq_refl).
  - destruct sc; cbn;
      [repeat split; try discriminate; intros; congruence|].
    destruct Hpending as [H _]. now specialize (H eq_refl).
Qed.

Lemma jsonp_invariant (r : jsonp_request) :
  jsonp_reachable r ->
  callback_defined r = script_in_head r
  /\ (promise r = None <-> callback_defined r = true).
Proof.
  induction 1 as [|r e r' threw _ [Hsame Hpending] Hstep].
  - split; [reflexivity|]. split; reflexivity.
  - assert (Hclean : forall o,
               clean_up_then (settle o) r = (r', threw) ->
               callback_defined r' = script_in_head r'
               /\ (promise r' = None <-> callback_defined r' = true)).
    { intros o Hrun.
      pose proof (clean_up_invariant _ o r eq_refl Hsame Hpending) as H.
      cbv zeta in H. rewrite Hrun in H. cbn [fst] in H. tauto. }
    destruct e as [data| |]; cbn [jsonp_step] in Hstep.
    + destruct (callback_defined r); [|discriminate].
      injection Hstep as Hstep. exact (Hclean _ Hstep).
    + injection Hstep as Hstep. exact (Hclean _ Hstep).
    + destruct (callback_defined r) eqn:Hcb.
      * injection Hstep as Hstep. exact (Hclean _ Hstep).
      * injection Hstep as <- _. rewrite Hcb. now split.
Qed.

(** X26. A JSONP request keeps its callback and its script element on
    the page exactly while its promise is pending.  The first of
    response, load error and timeout settles the promise and removes
    both; what comes later leaves the promise as it is, the timeout
    silently, and a load error by failing on the missing script
    element, the only way a handler throws. *)
Theorem jsonp_settles_once (r : jsonp_request) :
  jsonp_reachable r ->
  (callback_defined r = script_in_head r
   /\ (promise r = None <-> callback_defined r = true))
  /\ forall e r' threw,
      jsonp_step r e = Some (r', threw) ->
      promise r' <> None
      /\ (promise r <> None -> promise r' = promise r)
      /\ (threw = true <-> e = LoadError /\ promise r <> None).
Proof.
  intros Hreach. destruct (jsonp_invariant r Hreach) as [Hsame Hpending].
  split; [now split|].
  intros e r' threw Hstep.
  assert (Hclean : forall o,
             clean_up_then (settle o) r = (r', threw) ->
             promise r' <> None
             /\ (promise r <> None -> promise r' = promise r)
             /\ threw = negb (callback_defined r)).
  { intros o Hrun.
    pose proof (clean_up_invariant _ o r eq_refl Hsame Hpending) as H.
    cbv zeta in H. rewrite Hrun in H. cbn [fst snd] in H.
    rewrite Hsame. tauto. }
  assert (Hsettled : promise r <> None <-> callback_defined r = false).
  { destruct (callback_defined r), (promise r); intuition congruence. }
  destruct e as [data| |]; cbn [jsonp_step] in Hstep.
  - destruct (callback_defined r) eqn:Hcb; [|discriminate].
    injection Hstep as Hstep.
    destruct (Hclean _ Hstep) as (Hdone & Hkeep & ->).
    split; [exact Hdone|]. split; [exact Hkeep|]. cbn.
    split; [discriminate|]. intros [E _]. discriminate E.
  - injection Hstep as Hstep.
    destruct (Hclean _ Hstep) as (Hdone & Hkeep & ->).
    split; [exact Hdone|]. split; [exact Hkeep|].
    rewrite Hsettled. destruct (callback_defined r); cbn;
      intuition congruence.
  - destruct (callback_defined r) eqn:Hcb.
    + injection Hstep as Hstep.
      destruct (Hclean _ Hstep) as (Hdone & Hkeep & ->).
      split; [exact Hdone|]. split; [exact Hkeep|]. cbn.
      split; [discriminate|]. intros [E _]. discriminate E.
    + injection Hstep as <- <-.
      split; [|split; [reflexivity|]].
      * apply Hsettled. reflexivity.
      * split; [discriminate|]. intros [E _]. discriminate E.
Qed.

End AdapterFacts.

Section AdapterScenarios.

Import Json Effects Adapter FurtherScenario.

Lemma loadMedia_filtered_unknown_witness :
  loadMedia deployed None = Ret (Jsonp (js "get-media") NoParams)
  /\ loadMedia deployed (Some (js "type=image"))
     = Throw (Error (Text (js "Unknown endpoint: "
                              ++ js "/api/media" ++ js "?"
                              ++ js "type=image"))).
Proof.
  exact (loadMedia_filtered_unknown deployed (js "type=image") eq_refl).
Defined.

Lemma jsonp_settles_once_witness :
  callback_defined requested = script_in_head requested
  /\ (promise requested = None <-> callback_defined requested = true).
Proof.
  exact (proj1 (jsonp_settles_once requested jsonp_start)).
Defined.

End AdapterScenarios.

(** ** What a valid form is, and the first tier *)

Section FormFacts.

Import Json Effects Regex Validation Page PhoneMask PhoneField.
Local Open Scope monad_scope.

Variable Env : Type.
Variable B : browser Env.

Lemma validateField_program (v : jsstring) :
  validateField (js "program") v
  = if truthy_str v then ok else invalid (message program_rule).
Proof.
  unfold validateField.
  change (ValidationRules (js "program")) with (Some program_rule).
  cbn [required minLength pattern program_rule truthy_bool andb].
  now destruct (truthy_str v).
Qed.

Lemma validateField_verdict (k v : jsstring) :
  validateField k v = ok \/ exists m, validateField k v = invalid m.
Proof.
  unfold validateField. destruct (ValidationRules k) as [rules|]; [|now left].
  destruct (truthy_bool (required rules) && negb (truthy_str v)); [eauto|].
  destruct (match minLength rules with
            | Some m => negb (m =? 0)%Z && (Z.of_nat (length v) <? m)%Z
            | None => false
            end); [eauto|].
  destruct (match pattern rules with
            | Some p => negb (test p v)
            | None => false
            end); eauto.
Qed.

Lemma error_of_none (k v : jsstring) :
  error_of (validateField k v) = None
  <-> valid (validateField k v) = true.
Proof.
  unfold error_of.
  destruct (validateField_verdict k v) as [->|[m ->]]; cbn;
    split; (reflexivity || discriminate).
Qed.

Lemma error_count_zero (e : form_errors) :
  error_count e = 0
  <-> err_name e = None /\ err_phone e = None /\ err_program e = None.
Proof.
  unfold error_count.
  destruct (err_name e), (err_phone e), (err_program e); cbn;
    intuition congruence.
Qed.

(** X27. [validateForm] reports no error exactly when the name has at
    least two characters, all of them Russian or Latin letters, white
    space or hyphens, the phone is a complete number
    [+7 (AAA) BBB-CC-DD], and a program is chosen; the number of
    children and the comment are not looked at. *)
Theorem validateForm_passes (fd : FormData) :
  error_count (validateForm fd) = 0
  <-> (2 <= length (name fd)
       /\ Forall (fun c => class_has name_class c = true) (name fd))
      /\ (exists a b c d,
             phone fd = complete_number a b c d
             /\ length a = 3 /\ length b = 3 /\ length c = 2 /\ length d = 2
             /\ all_digits (a ++ b ++ c ++ d))
      /\ program fd <> [].
Proof.
  rewrite error_count_zero. unfold validateForm.
  cbn [err_name err_phone err_program]. rewrite !error_of_none.
  rewrite validateField_name, validateField_phone, validateField_program.
  rewrite andb_true_iff, Nat.leb_le, forallb_forall, <- Forall_forall.
  rewrite phone_pattern_shape.
  assert (Hprogram : valid (if truthy_str (program fd) then ok
                            else invalid (message program_rule)) = true
                     <-> program fd <> []).
  { destruct (program fd); cbn; split; congruence. }
  rewrite Hprogram. reflexivity.
Qed.

(** X28. When the primary backend accepts a valid form, that one call
    is all the handler asks of the outside, also with the CRM module
    loaded: no lead is posted and nothing is waited for, the result is
    that of the method [gas], and the form ends in the success state
    with the message of the primary tier. *)
Theorem primary_accepts (fd : FormData) (w : world Env)
        (call : FormData -> Env -> Env * outcome jsval) :
  error_count (validateForm fd) = 0 ->
  GAS_API B = Some call ->
  gas_accepted (snd (call fd (env w))) = true ->
  (forall w0,
      env w0 = env w ->
      submit_tiers B fd w0
      = (with_env (fst (call fd (env w))) w0,
         Ret {| success := true;
                method := js "gas";
                result_message := js "Заявка успешно отправлена!";
                warning := None;
                leadId := None |}))
  /\ exists w2,
      handleFormSubmit B fd w = (w2, Ret tt)
      /\ env w2 = fst (call fd (env w))
      /\ waited w2 = waited w
      /\ config w2 = config w
      /\ currentFormState (ui w2) = SUCCESS
      /\ success_message (ui w2)
         = Some (js "Заявка успешно отправлена!", None).
Proof.
  intros Hvalid Hgas Hok.
  assert (Htiers : forall w0,
             env w0 = env w ->
             submit_tiers B fd w0
             = (with_env (fst (call fd (env w))) w0,
                Ret {| success := true;
                       method := js "gas";
                       result_message := js "Заявка успешно отправлена!";
                       warning := None;
                       leadId := None |})).
  { intros w0 He. unfold submit_tiers. rewrite Hgas.
    unfold try_catch, bind at 1, ask. rewrite He.
    unfold gas_accepted in Hok.
    destruct (call fd (env w)) as [e [gasData|x]]; cbn [fst snd] in *;
      [|discriminate].
    unfold bind at 1, lift at 1.
    destruct (member gasData (js "success")) as [v|x]; [|discriminate].
    now rewrite Hok. }
  split; [exact Htiers|].
  unfold handleFormSubmit.
  pose proof (success_message_prologue fd (ui w)) as Hmsg.
  destruct (submit_prologue_valid fd (ui w) Hvalid) as (u' & Hp & _).
  rewrite Hp in *. cbn [fst] in Hmsg.
  rewrite (Htiers (with_ui (fun _ => u') w) eq_refl).
  eexists. split; [reflexivity|].
  cbn [env waited config ui with_ui with_env].
  repeat (split; [reflexivity|]).
  unfold submit_epilogue. cbn [success result_message warning].
  unfold setTimeout, showSuccessMessage.
  split.
  - destruct (analytics_defined B);
      cbn [currentFormState with_timers with_analytics with_success];
      apply setFormState_state.
  - destruct (analytics_defined B);
      cbn [success_message with_timers with_analytics with_success];
      reflexivity.
Qed.

End FormFacts.

Section FormFactsScenarios.

Import Json Effects Validation Page Scenario.

Lemma validateForm_passes_witness :
  2 <= length (name applicant)
  /\ Forall (fun c => Regex.class_has name_class c = true) (name applicant).
Proof.
  refine (proj1 (proj1 (validateForm_passes applicant) _)).
  vm_compute. reflexivity.
Defined.

Lemma primary_accepts_witness :
  exists w2,
    handleFormSubmit online applicant fresh = (w2, Ret tt)
    /\ env w2 = 1
    /\ waited w2 = []
    /\ config w2 = config fresh
    /\ currentFormState (ui w2) = SUCCESS
    /\ success_message (ui w2)
       = Some (js "Заявка успешно отправлена!", None).
Proof.
  refine (proj2 (primary_accepts nat online applicant fresh _ _ eq_refl _)).
  - vm_compute. reflexivity.
  - reflexivity.
Defined.

End FormFactsScenarios.

(** ** What the integrity check reports *)

Section IntegrityReport.

Import Json Effects Blocks.

Lemma check_structure_first (es : list (jsstring * json)) (r : integrity)
      (key : jsstring) :
  check_structure es = Ret r ->
  error r = Some (InvalidStructure key) ->
  exists before section after,
    es = before ++ (key, section) :: after
    /\ forallb (fun e => well_formed_section (snd e)) before = true
    /\ ill_structured section = Ret true.
Proof.
  induction es as [|[k v] es IH]; cbn [check_structure].
  - intros H; injection H as <-. discriminate.
  - destruct (ill_structured v) as [[|]|x] eqn:Hv; [| |discriminate].
    + intros H; injection H as <-. cbn [error reject].
      intros H; injection H as <-.
      exists [], v, es. repeat split. exact Hv.
    + intros Hr He. destruct (IH Hr He) as (before & section & after
                                             & -> & Hwf & Hbad).
      exists ((k, v) :: before), section, after.
      split; [reflexivity|]. split; [|exact Hbad].
      cbn [forallb snd]. rewrite Hwf.
      apply ill_structured_spec in Hv. now rewrite Hv.
Qed.

(** X29. When the integrity check rejects a document for the structure
    of a section, the section it names is the first, in the order of the
    document, that lacks a title, a boolean [enabled] or a content; all
    sections before it are well formed, and it is not [null] (a [null]
    section is reported as a validation error instead). *)
Theorem invalid_structure_names_first (settings : json) (key : jsstring) :
  error (validateSettingsIntegrity settings) = Some (InvalidStructure key) ->
  valid (validateSettingsIntegrity settings) = false
  /\ exists sections es before section after,
      member (Some settings) (js "sections") = Ret sections
      /\ entries sections = Ret es
      /\ es = before ++ (key, section) :: after
      /\ forallb (fun e => well_formed_section (snd e)) before = true
      /\ well_formed_section section = false
      /\ section <> JNull.
Proof.
  unfold validateSettingsIntegrity, validate_body.
  destruct (member (Some settings) (js "sections")) as [sections|x];
    [|discriminate].
  destruct (negb (truthy sections)
            || negb (js_type_eqb (typeof sections) TObject));
    [discriminate|].
  destruct (keys sections) as [ks|x]; [|discriminate].
  destruct (length ks =? 0); [discriminate|].
  destruct (missing_of sections requiredSections) as [missing|x];
    [|discriminate].
  destruct (length requiredSections <? 2 * length missing);
    [discriminate|].
  destruct (entries sections) as [es|x] eqn:Hes; [|discriminate].
  destruct (check_structure es) as [r|x] eqn:Hr; [|discriminate].
  intros He.
  destruct (check_structure_first es r key Hr He)
    as (before & section & after & Hsplit & Hwf & Hbad).
  split.
  - destruct r as [[|] err]; [|reflexivity].
    assert (Hex : exists r0, check_structure es = Ret r0 /\ valid r0 = true)
      by (eexists; split; [exact Hr|reflexivity]).
    apply check_structure_spec in Hex. rewrite Hsplit in Hex.
    rewrite forallb_app in Hex. apply andb_true_iff in Hex.
    destruct Hex as [_ Hex]. cbn [forallb snd] in Hex.
    apply andb_true_iff in Hex. destruct Hex as [Hex _].
    apply ill_structured_spec in Hex. congruence.
  - exists sections, es, before, section, after.
    repeat split; try assumption; try reflexivity.
    + destruct (well_formed_section section) eqn:Hs; [|reflexivity].
      apply ill_structured_spec in Hs. congruence.
    + intros ->. discriminate Hbad.
Qed.

End IntegrityReport.

Section IntegrityReportScenarios.

Import Json Effects Blocks Scenario.

Lemma invalid_structure_names_first_witness :
  valid (validateSettingsIntegrity FurtherScenario.untitled_settings) = false.
Proof.
  refine (proj1 (invalid_structure_names_first
                   FurtherScenario.untitled_settings (js "gallery") _)).
  vm_compute. reflexivity.
Defined.

End IntegrityReportScenarios.

(** ** The loader and its recovery, end to end *)

Section SettingsClaims.

Import Json Effects Blocks BlocksEvents.
Local Open Scope monad_scope.

Variable Env : Type.
Variable B : browser Env.

Lemma valid_has_sections (settings : json) :
  valid (validateSettingsIntegrity settings) = true ->
  exists sections, member (Some settings) (js "sections") = Ret sections.
Proof.
  unfold validateSettingsIntegrity, validate_body.
  destruct (member (Some settings) (js "sections")) as [sections|x];
    [eauto|discriminate].
Qed.

(** C4, as the code has it.  The integrity check accepts a document
    exactly when it has a non-empty sections object whose sections all
    have a truthy title, a boolean [enabled] and truthy content, with at
    most half of the seven required sections missing.  A document
    without sections, or with more than half of the required sections
    absent, is rejected, and a rejected document makes the loader fetch
    the default document next.  A document that passes the check is
    stored and applied: when applying it completes, the one fetch is
    the only request, the stored settings are its sections, and every
    section element of the page is hidden or shown as these sections
    say; when applying it throws, the loader goes on as for a rejected
    document and fetches the default. *)
Theorem settings_integrity_and_routing :
  (forall settings,
      valid (validateSettingsIntegrity settings) = true
      <-> spec_accepts settings = true)
  /\ (forall settings,
         lacks_sections settings = true
         \/ most_required_absent settings = true ->
         valid (validateSettingsIntegrity settings) = false)
  /\ (forall (w : world Env) settings,
         snd (fetch_json B (js "data/settings.json") (env w)) = Ret settings ->
         valid (validateSettingsIntegrity settings) = false ->
         exists rest,
           requests (fst (loadSectionsSettings B w))
           = requests w ++ [Fetch (js "data/settings.json");
                            Fetch (js "data/settings-default.json")] ++ rest)
  /\ (forall (w : world Env) settings,
         snd (fetch_json B (js "data/settings.json") (env w)) = Ret settings ->
         valid (validateSettingsIntegrity settings) = true ->
         exists sections,
           member (Some settings) (js "sections") = Ret sections
           /\ match applySectionsSettings
                      B (with_settings
                           sections
                           (with_env
                              (fst (fetch_json B (js "data/settings.json")
                                               (env w)))
                              (with_request (Fetch (js "data/settings.json"))
                                            w))) with
              | (w', Ret _) =>
                loadSectionsSettings B w = (w', Ret tt)
                /\ requests w' = requests w ++ [Fetch (js "data/settings.json")]
                /\ sectionsSettings w' = sections
                /\ (forall key selector v,
                       In (key, selector) sectionMap ->
                       In (selector, v) (dom w') ->
                       wanted_display sections key = Some v)
                /\ (forall k v,
                       ~ In k (map snd sectionMap) ->
                       In (k, v) (dom w') <-> In (k, v) (dom w))
              | (w', Throw _) =>
                loadSectionsSettings B w = recoverFromDefault B w'
                /\ exists rest,
                    requests (fst (loadSectionsSettings B w))
                    = requests w
                        ++ [Fetch (js "data/settings.json");
                            Fetch (js "data/settings-default.json")] ++ rest
              end).
Proof.
  split; [exact validateSettingsIntegrity_accepts|].
  split; [exact integrity_rejects|]. split.
  - intros w settings Hfetch Hbad.
    apply load_rejected. now rewrite Hfetch.
  - intros w settings Hfetch Hok.
    destruct (valid_has_sections settings Hok) as [sections Hsec].
    exists sections. split; [exact Hsec|].
    rewrite loadSectionsSettings_unfold. cbv zeta.
    rewrite Hfetch, Hok. cbn [negb]. rewrite Hsec.
    match goal with
    | |- context [applySectionsSettings B ?x] =>
      set (w1 := x);
        destruct (quiet_applySectionsSettings Env B w1) as [Hr Hs];
        pose proof (applySectionsSettings_done Env B w1) as Hdone;
        destruct (applySectionsSettings B w1) as [w' [[]|e]]
    end; cbn [fst] in *.
    + destruct (Hdone w' eq_refl) as (_ & Hsel & Hoth).
      split; [reflexivity|]. split; [exact Hr|]. split; [exact Hs|].
      split; [exact Hsel|exact Hoth].
    + split; [reflexivity|].
      destruct (recoverFromDefault_requests Env B w') as (rest & ->).
      exists rest. rewrite Hr. subst w1.
      cbn [requests with_env with_request with_settings].
      now rewrite <- app_assoc.
Qed.

(** C5, as the code has it.  When the fetch of the settings fails or the
    integrity check rejects the document, the loader goes on as
    [recoverFromDefault] and the default document is the next one
    fetched.  When the default has sections with an entry, these become
    the stored settings; with the adapter loaded the default document is
    then sent to its save endpoint under the name of the primary
    document, whatever the endpoint answers, and without the adapter no
    request is made; the settings are applied to the page then, every
    section element hidden or shown as they say, and should applying
    them throw, every section is shown.  When the default has no such
    sections (it is no object, or its sections are absent, [null], a
    boolean, a number or without an entry) or its fetch fails, no
    settings are stored, nothing is saved, and every section element of
    the page is displayed. *)
Theorem recovery_fails_open (w : world Env) :
  (match snd (fetch_json B (js "data/settings.json") (env w)) with
   | Throw _ => True
   | Ret settings => valid (validateSettingsIntegrity settings) = false
   end ->
   loadSectionsSettings B w
   = recoverFromDefault
       B (with_env (fst (fetch_json B (js "data/settings.json") (env w)))
                   (with_request (Fetch (js "data/settings.json")) w))
   /\ exists rest,
       requests (fst (loadSectionsSettings B w))
       = requests w ++ [Fetch (js "data/settings.json");
                        Fetch (js "data/settings-default.json")] ++ rest)
  /\ (forall doc,
         snd (fetch_json B (js "data/settings-default.json") (env w))
         = Ret doc ->
         empty_default doc = false ->
         exists sections,
           member (Some doc) (js "sections") = Ret sections
           /\ let fetched :=
                fst (fetch_json B (js "data/settings-default.json") (env w)) in
              let w_saved :=
                saved B doc
                      (with_settings
                         sections
                         (with_env
                            fetched
                            (with_request
                               (Fetch (js "data/settings-default.json")) w)))
              in
              match save_data B with
              | Some call =>
                requests w_saved
                = requests w ++ [Fetch (js "data/settings-default.json");
                                 Save (js "settings.json") doc]
                /\ env w_saved = fst (call (js "settings.json") doc fetched)
              | None =>
                requests w_saved
                = requests w ++ [Fetch (js "data/settings-default.json")]
                /\ env w_saved = fetched
              end
              /\ sectionsSettings w_saved = sections
              /\ dom w_saved = dom w
              /\ match applySectionsSettings B w_saved with
                 | (w', Ret _) =>
                   recoverFromDefault B w = (w', Ret tt)
                   /\ requests w' = requests w_saved
                   /\ sectionsSettings w' = sections
                   /\ (forall key selector v,
                          In (key, selector) sectionMap ->
                          In (selector, v) (dom w') ->
                          wanted_display sections key = Some v)
                   /\ (forall k v,
                          ~ In k (map snd sectionMap) ->
                          In (k, v) (dom w') <-> In (k, v) (dom w))
                 | (w', Throw _) =>
                   recoverFromDefault B w = showAllSections w'
                   /\ snd (recoverFromDefault B w) = Ret tt
                   /\ requests (fst (recoverFromDefault B w))
                      = requests w_saved
                   /\ sectionsSettings (fst (recoverFromDefault B w))
                      = sections
                   /\ all_visible (dom (fst (recoverFromDefault B w)))
                 end)
  /\ (match snd (fetch_json B (js "data/settings-default.json") (env w)) with
      | Throw _ => True
      | Ret doc => empty_default doc = true
      end ->
      snd (recoverFromDefault B w) = Ret tt
      /\ all_visible (dom (fst (recoverFromDefault B w)))
      /\ sectionsSettings (fst (recoverFromDefault B w)) = sectionsSettings w
      /\ requests (fst (recoverFromDefault B w))
         = requests w ++ [Fetch (js "data/settings-default.json")]).
Proof.
  split; [apply load_rejected|]. split.
  - intros doc Hfetch Husable.
    destruct (usable_default_sections doc Husable)
      as (sections & ks & Hmem & Htruthy & Hkeys & Hlen).
    exists sections. split; [exact Hmem|]. cbv zeta.
    rewrite recoverFromDefault_unfold. cbv zeta.
    rewrite Hfetch, Hmem, Htruthy, Hkeys, Hlen.
    rewrite saveRecoveredSettings_run. cbn [fst].
    match goal with
    | |- context [applySectionsSettings B ?x] => set (w_saved := x)
    end.
    assert (Hsaved : match save_data B with
                     | Some call =>
                       requests w_saved
                       = requests w
                           ++ [Fetch (js "data/settings-default.json");
                               Save (js "settings.json") doc]
                       /\ env w_saved
                          = fst (call (js "settings.json") doc
                                      (fst (fetch_json
                                              B (js "data/settings-default.json")
                                              (env w))))
                     | None =>
                       requests w_saved
                       = requests w
                           ++ [Fetch (js "data/settings-default.json")]
                       /\ env w_saved
                          = fst (fetch_json B (js "data/settings-default.json")
                                            (env w))
                     end).
    { subst w_saved. unfold saved. destruct (save_data B) as [call|]; cbn;
        [rewrite <- app_assoc|]; split; reflexivity. }
    split; [exact Hsaved|].
    assert (Hss : sectionsSettings w_saved = sections)
      by (subst w_saved; unfold saved; now destruct (save_data B)).
    assert (Hsd : dom w_saved = dom w)
      by (subst w_saved; unfold saved; now destruct (save_data B)).
    split; [exact Hss|]. split; [exact Hsd|].
    destruct (quiet_applySectionsSettings Env B w_saved) as [Hr Hs].
    pose proof (applySectionsSettings_done Env B w_saved) as Hdone.
    destruct (applySectionsSettings B w_saved) as [w' [[]|e]];
      cbn [fst] in *.
    + destruct (Hdone w' eq_refl) as (_ & Hsel & Hoth).
      rewrite Hss in Hsel. rewrite Hsd in Hoth.
      split; [reflexivity|]. split; [exact Hr|].
      split; [now rewrite Hs|]. split; [exact Hsel|exact Hoth].
    + split; [reflexivity|]. rewrite showAllSections_run.
      cbn [fst snd dom requests sectionsSettings with_dom].
      split; [reflexivity|]. split; [exact Hr|].
      split; [now rewrite Hs|]. apply shown_visible.
  - intros Hempty. split; [apply recoverFromDefault_returns|].
    rewrite recoverFromDefault_unfold. cbv zeta.
    set (w1 := with_env _ (with_request _ w)).
    assert (Heq : match snd (fetch_json B (js "data/settings-default.json")
                                        (env w)) with
                  | Throw _ => showAllSections w1
                  | Ret doc =>
                    match member (Some doc) (js "sections") with
                    | Throw _ => showAllSections w1
                    | Ret sections =>
                      if truthy sections then
                        match keys sections with
                        | Throw _ => showAllSections w1
                        | Ret ks =>
                          if 0 <? length ks then
                            match applySectionsSettings
                                    B (fst (saveRecoveredSettings
                                              B doc
                                              (with_settings sections w1)))
                            with
                            | (w', Ret a) => (w', Ret a)
                            | (w', Throw _) => showAllSections w'
                            end
                          else showAllSections w1
                        end
                      else showAllSections w1
                    end
                  end = showAllSections w1).
    { destruct (snd (fetch_json B (js "data/settings-default.json") (env w)))
        as [doc|x]; [|reflexivity].
      now apply empty_default_shows. }
    rewrite Heq, showAllSections_run.
    cbn [fst dom with_dom sectionsSettings requests].
    split; [apply shown_visible|]. split; reflexivity.
Qed.

End SettingsClaims.

Section SettingsScenarios.

Import Json Effects Blocks BlocksEvents Scenario FurtherScenario.

Lemma settings_integrity_and_routing_witness :
  valid (validateSettingsIntegrity good_settings) = true
  /\ valid (validateSettingsIntegrity sparse_settings) = false
  /\ exists w',
      loadSectionsSettings (serving (Some good_settings) None) blocks_fresh
      = (w', Ret tt)
      /\ requests w' = [Fetch (js "data/settings.json")]
      /\ sectionsSettings w' = Some good_sections
      /\ In (js "#pricing", js "none") (dom w').
Proof.
  pose proof (settings_integrity_and_routing
                nat (serving (Some good_settings) None))
    as (Hiff & Hrej & _ & Hload).
  assert (Hgood : valid (validateSettingsIntegrity good_settings) = true)
    by (apply Hiff; vm_compute; reflexivity).
  assert (Hsparse : valid (validateSettingsIntegrity sparse_settings) = false)
    by (apply Hrej; right; vm_compute; reflexivity).
  split; [exact Hgood|]. split; [exact Hsparse|].
  destruct (Hload blocks_fresh good_settings eq_refl Hgood)
    as (sections & Hsec & Hrun).
  injection Hsec as <-.
  exists (fst (applySectionsSettings
                 (serving (Some good_settings) None)
                 (with_settings
                    (Some good_sections)
                    (with_env 1 (with_request (Fetch (js "data/settings.json"))
                                              blocks_fresh))))).
  vm_compute in Hrun. vm_compute.
  destruct Hrun as (Hl & Hr & Hs & _).
  repeat split; try assumption. tauto.
Defined.

(** C4, as stated, fails: a document that passes the integrity check
    and has [null] among the statistics of its social proof section is
    stored, but applying it throws where the statistic is read, and the
    loader fetches the default document after all. *)
Lemma valid_document_falls_back :
  valid (validateSettingsIntegrity null_stat_settings) = true
  /\ spec_accepts null_stat_settings = true
  /\ requests (fst (loadSectionsSettings
                      (hydrating (Some null_stat_settings) None false)
                      social_page))
     = [Fetch (js "data/settings.json");
        Fetch (js "data/settings-default.json")].
Proof. repeat split; vm_compute; reflexivity. Qed.

Lemma recovery_fails_open_witness :
  (exists rest,
      requests (fst (loadSectionsSettings
                       (hydrating (Some sparse_settings) (Some good_settings)
                                  true)
                       social_page))
      = [Fetch (js "data/settings.json");
         Fetch (js "data/settings-default.json")] ++ rest)
  /\ (exists w',
         recoverFromDefault (hydrating None (Some good_settings) true)
                            social_page
         = (w', Ret tt)
         /\ requests w' = [Fetch (js "data/settings-default.json");
                           Save (js "settings.json") good_settings]
         /\ env w' = 2
         /\ sectionsSettings w' = Some good_sections
         /\ In (js "#social-proof", js "") (dom w'))
  /\ snd (recoverFromDefault (serving None None) blocks_fresh) = Ret tt
  /\ all_visible (dom (fst (recoverFromDefault (serving None None)
                                              blocks_fresh)))
  /\ sectionsSettings (fst (recoverFromDefault (serving None None)
                                             blocks_fresh))
     = Some (JObject [])
  /\ requests (fst (recoverFromDefault (serving None None) blocks_fresh))
     = [Fetch (js "data/settings-default.json")].
Proof.
  split.
  { apply (proj1 (recovery_fails_open
                    nat (hydrating (Some sparse_settings) (Some good_settings)
                                   true)
                    social_page)).
    vm_compute. reflexivity. }
  split.
  { destruct (proj1 (proj2 (recovery_fails_open
                              nat (hydrating None (Some good_settings) true)
                              social_page))
                    good_settings eq_refl eq_refl)
      as (sections & Hsec & Hrun).
    injection Hsec as <-.
    exists (fst (recoverFromDefault (hydrating None (Some good_settings) true)
                                    social_page)).
    vm_compute in Hrun. vm_compute.
    destruct Hrun as ((Hr & He) & _ & _ & Hl & _).
    repeat split; try assumption. tauto. }
  apply (proj2 (proj2 (recovery_fails_open nat (serving None None)
                                           blocks_fresh))).
  exact I.
Defined.

(** C5, as stated, fails: on a page without the adapter the default
    document is stored and applied, and nothing is sent to the primary
    store: the default fetch is the only request. *)
Lemma default_not_persisted :
  empty_default good_settings = false
  /\ recoverFromDefault (hydrating None (Some good_settings) false)
                        social_page
     = (fst (recoverFromDefault (hydrating None (Some good_settings) false)
                                social_page), Ret tt)
  /\ sectionsSettings
       (fst (recoverFromDefault (hydrating None (Some good_settings) false)
                                social_page))
     = Some good_sections
  /\ requests
       (fst (recoverFromDefault (hydrating None (Some good_settings) false)
                                social_page))
     = [Fetch (js "data/settings-default.json")].
Proof. repeat split; vm_compute; reflexivity. Qed.

End SettingsScenarios.
